(* ===== verification/_CoqProject ===== *)
-Q . S2P
Prelude.v
Civil.v
JsDate.v
JsNumber.v
Model.v
Fixtures.v
DateUtils.v
Store.v
BookingForm.v
Calendar.v
Home.v
MyBookings.v
Register.v
Navigation.v
FormSession.v
App.v
Scenarios.v
