(* ===== verification/Prelude.v ===== *)
(** * AgendaLEI: a verification development of the lab-booking scheduler

    The program (repository ProjetoExtensao-AgendaLEI, a React Native app
    under src/AgendaLei) lets a teacher register, browse a fixed timetable
    of class periods, book the lab for one period on one day, list their
    bookings and cancel them, under three business rules: at most two
    bookings per calendar week, bookings at most one week ahead, and
    cancellation at least 24 hours ahead.

    ** Parts of the program and how they interact

    - [src/utils/dateUtils.js]: pure date functions (formatting, day
      windows, the 24-hour cancellation test, the weekly quota count, the
      slot-availability test) and the static timetable [getTimeSlots].
      They read the JavaScript [Date] runtime: local calendar fields and
      the ambient clock [new Date()].
    - [src/utils/asyncStorage.js]: the record store.  Every operation
      reads a whole JSON array from AsyncStorage, transforms it and writes
      it back; read errors are swallowed (the reader returns [[]]), write
      errors are re-thrown, except in [setCurrentTeacher], which swallows
      them.
    - [src/screens/BookingFormScreen.js]: the rule engine.
      [checkBookingConflicts] applies the quota and double-booking rules to
      the snapshot of all bookings loaded when the form opened;
      [handleSubmit] then persists through [saveBooking]; [handleDelete]
      applies the 24-hour rule before [deleteBooking]; [handleDateChange]
      applies the one-week window to a date picked in the form; the
      initial values come from the edited booking or the route parameters.
    - The other screens read the store and call the same date functions:
      [HomeScreen.js] (next three bookings, next five weekdays with a free
      period), [CalendarScreen.js] (day marks, the periods of the selected
      day, day selection, and the route to the form with the selected day
      as a "YYYY-MM-DD" string), [MyBookingsScreen.js] (the teacher's list
      and cancellation), [TeacherRegisterScreen.js] and [App.js]
      (registration and the initial route).
    - [src/navigation/AppNavigator.js]: a root stack (registration, main
      tabs) over three tabs, each a stack of its main screen and the
      booking form, so a form can be open in each tab at once; the screens
      move through it with [navigate], [replace] and [goBack].  The
      components are presentation only.

    ** Files of this development (in dependency order)

    - [Prelude] (this file): the development's scope [agenda_scope], a
      small state-and-exception monad with its notation (the store's
      asynchronous calls run in sequence, so their effect is explicit
      state passing), the hint database [agenda], the tactic [bool_to_prop],
      the stable insertion sort that stands for [Array.prototype.sort],
      and the generic lemmas on lists, sorting and exhaustive checks the
      other files share.
    - [Civil]: proleptic Gregorian calendar arithmetic on day numbers
      (days since 1970-01-01), the arithmetic the JavaScript runtime uses
      for [getFullYear]/[getMonth]/[getDate]/[getDay] and for [MakeDay].
      The conversion from a day number to (year, month, day) is proved to
      be inverted by the conversion back, for every integer day (one
      400-year era is checked exhaustively by evaluation, the rest follows
      from the era decomposition).
    - [JsDate]: the JavaScript [Date] operations the program calls, on a
      time value in milliseconds ([Z]) and a fixed local-time offset [tz]:
      local getters, [setHours], [setDate], [toString] of numbers,
      [padStart], [parseInt] and [new Date("YYYY-MM-DD")] (a date-only
      string is UTC midnight).  The offset is fixed because the runtime's
      local time zone of the intended deployment (Brazil) has no daylight
      saving time since 2019; the offset is a parameter of every
      statement, so every theorem holds for every zone.
    - [JsNumber]: the JavaScript numbers read from strings, in IEEE 754
      binary64 ([SpecFloat] of the Standard Library): [Number(s)] (which
      Yup's number schema applies), [parseInt] rounded to a number, the
      integer a number holds, and the round trip of [toString] and
      [parseInt] up to [2^53].
    - [Model]: the records the program stores (teacher, booking, the
      booking payload built by the form) with decidable equality.
    - [Fixtures]: concrete instants of June 2025 in Brazil and the
      bookings of the specification's scenarios, used by the witnesses.
    - [DateUtils]: [src/utils/dateUtils.js], function by function, with
      their specifications in whole days ([isWithinOneWeek] is the window
      [0 <= day d - day now <= 7], [isPastDate] is [day d < day now],
      [countTeacherBookingsInCurrentWeek] counts the teacher's bookings of
      the Sunday-to-Saturday week of today, [canCancelBooking] is
      [d - now >= 24 h]), the round trip of [formatDateForCalendar] through
      the date-only parser, and the properties of the timetable.
    - [Store]: [src/utils/asyncStorage.js] as operations of the monad on a
      record of the three storage keys, with a list of fault flags that
      decides which AsyncStorage call throws.
    - [BookingForm]: the rule engine of [BookingFormScreen.js]:
      [loadData], [initialValues], [checkBookingConflicts], [handleSubmit],
      [handleDelete], [handleDateChange], the Yup [validationSchema] with
      Formik's submission ([submitForm]), with the abstract rule of the
      specification ([validate], refined by [checkBookingConflicts] inside
      the window) and the invariant "ids unique and truthy, no two stored
      bookings share a calendar day and a start time", preserved by every
      submission from an up-to-date snapshot; each handler's effect on
      each branch, with the record a submission stores written out field
      by field ([stored_record]).
    - [Calendar]: [CalendarScreen.js]: the day marks (an object keyed by
      day), [updateTimeSlots] (proved equal to a reference reading: each
      period taken by the last booking of the day starting at it),
      [handleDayPress], the route parameters of [handleBookSlot], and the
      rows of the period list ("Reservar" on a free period, the holder's
      name and "Detalhes" on a taken one).
    - [Home]: [HomeScreen.js]: [loadData] (the three earliest bookings from
      today on) and [calculateAvailableSlots], a [while] loop modelled with
      fuel and proved to end.
    - [MyBookings]: [MyBookingsScreen.js]: [loadBookings] (bookings from
      today on nearest first, then past ones most recent first), the cancel
      button and [handleCancelBooking].
    - [Register]: [TeacherRegisterScreen.js] and [checkTeacher] of
      [App.js]: the registration form (its initial values and field
      edits), the registration, its effect on the initial route and on
      the home screen, and what a failed write of the current teacher does.
    - [Navigation]: [AppNavigator.js] and the navigation calls of the
      screens as a step relation ([step]) over the navigator state (root
      route, focused tab, each tab's stack of routes), with the tab bar and
      the Android back button; its reachable states and their invariant.
    - [FormSession]: the edits of the booking form between opening and
      submission (text fields, date picker, timetable buttons) as a fold
      of events with their clock readings, the whole session from
      [loadData] to Formik's submission, and sessions run one after the
      other.
    - [App]: the store and the navigator stepped together ([app_step]):
      registration, the screens' loads with their
      [replace('TeacherRegister')], the booking handlers, navigation
      calls, the tab bar and the back button, from the route [App.js]
      chooses.
    - [Scenarios]: what the booking form lets through, for every store
      and input meeting the stated conditions: two forms open at once
      ([two_open_forms]), the quota blind to next week, an edit outside
      the window, numbers of students the schema accepts and [parseInt]
      stores differently, and the form "Detalhes" opens on another
      teacher's booking; each witness runs the case on June 2025 data.

    ** What the theorems show

    The rule engine: the conflict check refuses exactly what the quota and
    double-booking rules refuse and refines the specification's rule
    inside the window; a submission preserves the store invariant; the
    24-hour rule guards every cancellation, in the form and in My
    Bookings.  The date functions: each is characterised in whole local
    days for every offset.  The store: each operation's effect, what a
    failed read does (it erases the bookings), and that a failed write in
    a submission is reported as an error with the bookings kept.  The
    screens: the free
    periods shown are those [isTimeSlotAvailable] accepts; lists are
    sorted permutations of the teacher's bookings; the home loop ends.
    The schema accepts a digit string as number of students exactly when
    its value is in [1, 20], and an edit stores the number it shows.  A
    form session only ever stores periods of the timetable, and the date
    it submits is the initial one or one the picker accepted when picked;
    sessions run one after the other keep the store free of double
    bookings.  The calendar's period rows offer "Reservar" on free periods
    and "Detalhes" on every taken one.
    The date picker sets a date exactly when it is inside the window.
    A registration session is refused exactly when the last text typed
    in a required field is empty or the e-mail test refuses the last
    e-mail typed; registering again with a stored e-mail keeps the
    teacher's id, so the teacher's bookings stay theirs.
    Navigation: every reachable state has at most one form per tab, and
    the home screen stays reachable from every state.
    Several theorems show where the code departs from its specification:
    two forms opened on one store both save the same slot (while sessions run one after
    the other keep the store free of them, with fresh clock-reading ids),
    the calendar's "Detalhes" lets a teacher cancel or take over another
    teacher's booking, the quota only sees the current
    week, an edit skips the window, the calendar reads the selected day as
    UTC midnight (today refused and bookings moved to the previous day west
    of Greenwich), and a lost write of the current teacher is reported as
    a successful registration (while without faults the app never shows
    the main tabs without a current teacher); the schema reads the number of students
    with [Number()] while the booking stores [parseInt] of it (0 or
    [null] stored for accepted inputs); and [navigate('HomeMain')] after a
    booking from another tab leaves that tab's form open.

    ** Fuel and bounds

    One definition takes fuel: [HomeScreen.calc_loop], the [while] loop
    of [calculateAvailableSlots], which stops after five days with a free
    period.  Any seven consecutive days hold five weekdays, and a day
    after every booking has all its periods free, so when every booking is
    before day [N] from today a fuel of [N + 8] iterations is enough; the
    theorem [calculateAvailableSlots_terminates] proves the loop returns
    five days within that fuel.  The exhaustive checks (the 146097 days of
    a Gregorian era, the years 1000 to 9999 printed as four digits) are
    structural recursions on a [nat] counter over a [Z] index, evaluated
    by [vm_compute].  The JavaScript number arithmetic of the code is on
    integers of at most 16 digits (milliseconds since 1970), exact in
    binary64, so it is modelled on [Z]; the one division,
    [diffMs / (1000*60*60)] compared with [24], gives the same answer in
    binary64 as in exact rationals (24 is representable and rounding is
    monotone), so it is modelled by the exact comparison.  The date-only
    round trip is proved for years 1000 to 9999, the years
    [formatDateForCalendar] prints with four digits.  Numbers read from
    the form's text are modelled in binary64, not on [Z], since the
    schema compares a parsed double with 1 and 20 (so "20.0000000000000001"
    rounds to 20 and passes) and [parseInt]'s value is rounded to a double
    (integers are exact up to [2^53], the bound of the round trip).

    ** Not modelled

    Rendering, styles and the components under
    [src/components] (presentation only); the JSON encoding of AsyncStorage
    (the records are stored as values, [JSON.parse (JSON.stringify x)] being
    the identity on them); [toLocaleDateString] and [formatDateWithWeekday]
    (locale data of the runtime); Yup's e-mail regular expression (a
    parameter of the registration's schema).  The navigation library
    (react-navigation) is not in the repository: its routers are modelled
    from the behaviour of its version 6 (a stack's NAVIGATE returns to an
    existing route of that name; an unhandled action bubbles up, then down
    to the other tabs' stacks).  [App] joins the navigator to the store
    step by step but lets the screens' loads happen at any step (the
    order in which React runs focus listeners is not modelled).  Numbers
    are read from byte strings (ASCII white space only).  Two open forms
    are modelled when submitted in the order they were opened
    ([Scenarios.two_open_forms]); other interleavings of forms are runs of
    [App.app_step], whose invariant does not cover the bookings. *)

From Stdlib Require Import ZArith Lia String List Bool Permutation Sorted.
Import ListNotations.

Declare Scope agenda_scope.
Delimit Scope agenda_scope with agenda.

Create HintDb agenda discriminated.
Create Rewrite HintDb agenda_rw.

(** ** A state-and-exception monad

    [st S E A] is a computation on a state [S] that returns an [A] or
    throws an [E]; the state reached when the exception is thrown is kept,
    as writes that happened before a [throw] in JavaScript are not undone. *)

Definition st (S E A : Type) : Type := S -> (A + E) * S.

(** ** Exhaustive checks over an integer range

    [all_from f i n] tests [f] on the [n] integers from [i]; the index is a
    [Z] so that evaluation stays linear. *)

Fixpoint all_from (f : Z -> bool) (i : Z) (n : nat) : bool :=
  match n with
  | O => true
  | S k => f i && all_from f (i + 1) k
  end.

(** ** Stable sorting

    [arr.sort(cmp)] with a comparator that is a total preorder: ECMAScript
    2019 requires the sort to be stable, and the stable sort of a list is
    unique, so the insertion sort below computes what the engine does.
    [le a b] is [cmp(a, b) <= 0]. *)

Fixpoint insert_by {A} (le : A -> A -> bool) (x : A) (l : list A) : list A :=
  match l with
  | [] => [x]
  | y :: r => if le x y then x :: y :: r else y :: insert_by le x r
  end.

Fixpoint sort_by {A} (le : A -> A -> bool) (l : list A) : list A :=
  match l with
  | [] => []
  | x :: r => insert_by le x (sort_by le r)
  end.

Section StateExc.
Context {S E : Type}.

Definition ret {A} (a : A) : st S E A := fun s => (inl a, s).

Definition bind {A B} (c : st S E A) (k : A -> st S E B) : st S E B :=
  fun s => match c s with
           | (inl a, s') => k a s'
           | (inr e, s') => (inr e, s')
           end.

Definition throw {A} (e : E) : st S E A := fun s => (inr e, s).

(** [try { c } catch (e) { h(e) }] *)
Definition catch {A} (c : st S E A) (h : E -> st S E A) : st S E A :=
  fun s => match c s with
           | (inl a, s') => (inl a, s')
           | (inr e, s') => h e s'
           end.

Definition get : st S E S := fun s => (inl s, s).
Definition put (s : S) : st S E unit := fun _ => (inl tt, s).

Lemma bind_ret_l {A B} (a : A) (k : A -> st S E B) s :
  bind (ret a) k s = k a s.
Proof. reflexivity. Qed.

Lemma bind_assoc {A B C} (c : st S E A) (k : A -> st S E B)
      (k' : B -> st S E C) s :
  bind (bind c k) k' s = bind c (fun a => bind (k a) k') s.
Proof. unfold bind. destruct (c s) as [[a|e] s']; reflexivity. Qed.

Lemma bind_throw {A B} (e : E) (k : A -> st S E B) s :
  bind (throw e) k s = (inr e, s).
Proof. reflexivity. Qed.
End StateExc.

Arguments st : clear implicits.

Notation "x <- c ;; k" := (bind c (fun x => k))
  (at level 62, c at next level, right associativity) : agenda_scope.

#[export] Hint Rewrite @bind_ret_l @bind_assoc @bind_throw : agenda_rw.

(** ** Boolean tests as propositions *)

Ltac bool_to_prop :=
  repeat match goal with
    | H : (_ && _)%bool = true |- _ => apply andb_true_iff in H as [? ?]
    | H : (_ || _)%bool = false |- _ => apply orb_false_iff in H as [? ?]
    | H : negb _ = true |- _ => apply negb_true_iff in H
    | H : negb _ = false |- _ => apply negb_false_iff in H
    | H : Z.eqb _ _ = true |- _ => apply Z.eqb_eq in H
    | H : Z.eqb _ _ = false |- _ => apply Z.eqb_neq in H
    | H : Z.leb _ _ = true |- _ => apply Z.leb_le in H
    | H : Z.leb _ _ = false |- _ => apply Z.leb_gt in H
    | H : Z.ltb _ _ = true |- _ => apply Z.ltb_lt in H
    | H : Z.ltb _ _ = false |- _ => apply Z.ltb_ge in H
    | H : String.eqb _ _ = true |- _ => apply String.eqb_eq in H
    | H : String.eqb _ _ = false |- _ => apply String.eqb_neq in H
    end.

Lemma all_from_spec f n : forall i,
  all_from f i n = true -> forall k, (i <= k < i + Z.of_nat n)%Z -> f k = true.
Proof.
  induction n as [|n IH]; intros i H k Hk; simpl in *; [lia|].
  apply andb_true_iff in H as [Hi Hrest].
  destruct (Z.eq_dec k i) as [->|Hne]; [exact Hi|].
  apply (IH (i + 1)%Z); [exact Hrest | lia].
Qed.

(** ** Floor division *)

Lemma div_add_small (r q b : Z) :
  (0 <= r < b)%Z -> ((r + q * b) / b = q)%Z.
Proof.
  intros H. rewrite Z.div_add by lia. rewrite Z.div_small by lia. reflexivity.
Qed.

Lemma mod_add_small (r q b : Z) :
  (0 <= r < b)%Z -> ((r + q * b) mod b = r)%Z.
Proof. intros H. rewrite Z.mod_add by lia. apply Z.mod_small. lia. Qed.

(** ** Lists *)

Lemma length_filter_le {A} (f : A -> bool) (l : list A) :
  (length (filter f l) <= length l)%nat.
Proof.
  induction l as [|a l IH]; simpl; [lia|]. destruct (f a); simpl; lia.
Qed.

Lemma length_filter_app {A} (f : A -> bool) (l1 l2 : list A) :
  length (filter f (l1 ++ l2)) = (length (filter f l1) + length (filter f l2))%nat.
Proof. rewrite filter_app, length_app. reflexivity. Qed.

Lemma filter_ext_in_iff {A} (f g : A -> bool) (l : list A) :
  (forall x, In x l -> f x = g x) -> filter f l = filter g l.
Proof. apply filter_ext_in. Qed.

Lemma find_none_iff {A} (f : A -> bool) (l : list A) :
  find f l = None <-> (forall x, In x l -> f x = false).
Proof.
  split; [apply find_none|].
  induction l as [|a l IH]; intros H; simpl; [reflexivity|].
  rewrite (H a (or_introl eq_refl)). apply IH. intros x Hx. apply H. now right.
Qed.

Lemma find_some_iff_exists {A} (f : A -> bool) (l : list A) :
  (exists y, find f l = Some y) <-> (exists x, In x l /\ f x = true).
Proof.
  split.
  - intros [y Hy]. exists y. now apply find_some in Hy.
  - intros [x [Hx Hfx]]. destruct (find f l) as [y|] eqn:E; [eauto|].
    rewrite (find_none _ _ E x Hx) in Hfx. discriminate.
Qed.

Lemma NoDup_snoc {A} (l : list A) x :
  NoDup l -> ~ In x l -> NoDup (l ++ [x]).
Proof.
  intros Hl Hx. apply (Permutation_NoDup (l := x :: l)).
  - apply Permutation_cons_append.
  - now constructor.
Qed.

(** With unique keys, two elements with the same key are equal. *)
Lemma NoDup_map_in_eq {A K} (key : A -> K) (l : list A) x y :
  NoDup (map key l) -> In x l -> In y l -> key x = key y -> x = y.
Proof.
  induction l as [|a l IH]; simpl; [tauto|]. intros Hnd Hx Hy E.
  inversion Hnd as [|? ? Hnin Hnd']; subst.
  destruct Hx as [<-|Hx], Hy as [<-|Hy]; auto.
  - exfalso. apply Hnin. rewrite E. now apply in_map.
  - exfalso. apply Hnin. rewrite <- E. now apply in_map.
Qed.

(** With unique keys, the lookup by the key of an element finds it. *)
Lemma find_key_unique {A K} (key : A -> K) (eqb : K -> K -> bool)
      (Heqb : forall a b, eqb a b = true <-> a = b) (l : list A) x :
  NoDup (map key l) -> In x l -> find (fun y => eqb (key y) (key x)) l = Some x.
Proof.
  intros Hnd Hx. destruct (find _ l) as [y|] eqn:E.
  - apply find_some in E as [Hy Hk]. apply Heqb in Hk.
    f_equal. exact (NoDup_map_in_eq key l y x Hnd Hy Hx Hk).
  - exfalso. pose proof (find_none _ _ E x Hx) as H. cbv beta in H.
    rewrite (proj2 (Heqb _ _) eq_refl) in H. discriminate.
Qed.

(** With unique ids, at most one element has a given id. *)
Lemma filter_id_le1 {A I} (id : A -> I) (eqb : I -> I -> bool)
      (eqb_iff : forall x y, eqb x y = true <-> x = y) (i : I) (l : list A) :
  NoDup (map id l) -> (length (filter (fun b => eqb (id b) i) l) <= 1)%nat.
Proof.
  induction l as [|a l IH]; intros H; simpl; [lia|].
  inversion H as [|? ? Hnin Hnd]; subst.
  destruct (eqb (id a) i) eqn:E; simpl; [|now apply IH].
  apply eqb_iff in E. subst i.
  enough (length (filter (fun b => eqb (id b) (id a)) l) = 0)%nat by lia.
  rewrite (filter_ext_in _ (fun _ => false)), filter_false; [reflexivity|].
  intros x Hx. destruct (eqb (id x) (id a)) eqn:E; [|reflexivity].
  apply eqb_iff in E. exfalso. apply Hnin. rewrite <- E. now apply in_map.
Qed.

(** Replacing the key of the one selected element by a key no other
    element has keeps the keys distinct. *)
Lemma NoDup_map_replace {A K} (sel : A -> bool) (key : A -> K) (k0 : K) (l : list A) :
  (length (filter sel l) <= 1)%nat ->
  NoDup (map key l) ->
  (forall b, In b l -> sel b = false -> key b <> k0) ->
  NoDup (map (fun b => if sel b then k0 else key b) l).
Proof.
  induction l as [|a l IH]; intros Hsel Hnd Hk; simpl; [constructor|].
  inversion Hnd as [|? ? Hnin Hnd']; subst.
  assert (Hk' : forall b, In b l -> sel b = false -> key b <> k0) by (intros b Hb Hs; apply Hk; [now right | exact Hs]).
  simpl in Hsel. destruct (sel a) eqn:Ea; simpl in Hsel.
  - assert (Hnone : forall b, In b l -> sel b = false).
    { intros b Hb. destruct (sel b) eqn:Eb; [|reflexivity].
      assert (In b (filter sel l)) by (apply filter_In; auto).
      destruct (filter sel l); simpl in *; [contradiction | lia]. }
    rewrite (map_ext_in _ key l) by (intros b Hb; now rewrite Hnone).
    constructor; [|exact Hnd'].
    intros Hin. apply in_map_iff in Hin as [b [Hb Hin]].
    exact (Hk b (or_intror Hin) (Hnone b Hin) Hb).
  - constructor; [|apply IH; auto].
    intros Hin. apply in_map_iff in Hin as [b [Hb Hin]].
    destruct (sel b) eqn:Eb.
    + exact (Hk a (or_introl eq_refl) Ea (eq_sym Hb)).
    + apply Hnin. rewrite <- Hb. now apply in_map.
Qed.

Lemma filter_andb {A} (f g : A -> bool) (l : list A) :
  filter (fun x => f x && g x) l = filter g (filter f l).
Proof.
  induction l as [|a l IH]; simpl; [reflexivity|].
  destruct (f a); simpl; [destruct (g a)|]; rewrite ?IH; reflexivity.
Qed.

(** The last element of a list, read from its reversal. *)
Lemma hd_error_rev_cons {A} (x : A) (l : list A) :
  hd_error (rev (x :: l)) = match hd_error (rev l) with Some y => Some y | None => Some x end.
Proof. simpl. destruct (rev l); reflexivity. Qed.

(** [arr.forEach(x => { if (!p(x)) acc.push(g(x)); })] *)
Lemma fold_push {A B} (p : A -> bool) (g : A -> B) (l : list A) (acc : list B) :
  fold_left (fun acc x => if p x then acc else acc ++ [g x]) l acc
  = acc ++ map g (filter (fun x => negb (p x)) l).
Proof.
  revert acc. induction l as [|a l IH]; intros acc; simpl; [now rewrite app_nil_r|].
  destruct (p a); simpl; rewrite IH; [reflexivity|]. now rewrite <- app_assoc.
Qed.

Lemma existsb_filter {A} (f g : A -> bool) (l : list A) :
  existsb g (filter f l) = existsb (fun x => f x && g x) l.
Proof. induction l as [|a l IH]; simpl; [reflexivity|]. destruct (f a); simpl; now rewrite IH. Qed.

(** [arr.find(f)] tested for [undefined]. *)
Lemma find_none_existsb {A} (f : A -> bool) (l : list A) :
  match find f l with Some _ => false | None => true end = negb (existsb f l).
Proof. induction l as [|a l IH]; simpl; [reflexivity|]. now destruct (f a). Qed.

(** ** Sorting *)

Lemma insert_by_perm {A} (le : A -> A -> bool) x l : Permutation (insert_by le x l) (x :: l).
Proof.
  induction l as [|y l IH]; simpl; [reflexivity|].
  destruct (le x y); [reflexivity|]. rewrite IH. apply perm_swap.
Qed.

Lemma sort_by_perm {A} (le : A -> A -> bool) l : Permutation (sort_by le l) l.
Proof.
  induction l as [|x l IH]; simpl; [reflexivity|].
  rewrite insert_by_perm. now constructor.
Qed.

Section Sorting.
Context {A : Type} (le : A -> A -> bool).
Hypothesis le_total : forall a b, le a b = false -> le b a = true.
Hypothesis le_trans : forall a b c, le a b = true -> le b c = true -> le a c = true.

Lemma insert_by_sorted x l : Sorted (fun a b => le a b = true) l -> Sorted (fun a b => le a b = true) (insert_by le x l).
Proof.
  induction 1 as [|y l Hs IH Hhd]; simpl; [now repeat constructor|].
  destruct (le x y) eqn:Exy; [now repeat constructor|].
  constructor; [exact IH|]. destruct l as [|z l]; simpl; [constructor; now apply le_total|].
  destruct (le x z); constructor; [now apply le_total | now inversion Hhd].
Qed.

Lemma sort_by_sorted l : Sorted (fun a b => le a b = true) (sort_by le l).
Proof. induction l; simpl; [constructor | now apply insert_by_sorted]. Qed.

Lemma sorted_app_l l1 l2 : Sorted (fun a b => le a b = true) (l1 ++ l2) -> Sorted (fun a b => le a b = true) l1.
Proof.
  induction l1 as [|a l1 IH]; intros Hs; [constructor|].
  inversion Hs as [|? ? Hs' Hhd]; subst. constructor; [now apply IH|].
  destruct l1; constructor. now inversion Hhd.
Qed.

Lemma sorted_app_r l1 l2 : Sorted (fun a b => le a b = true) (l1 ++ l2) -> Sorted (fun a b => le a b = true) l2.
Proof.
  induction l1 as [|a l1 IH]; intros Hs; [exact Hs|].
  inversion Hs; subst. now apply IH.
Qed.

Lemma sorted_app_le l1 l2 :
  Sorted (fun a b => le a b = true) (l1 ++ l2) -> forall x y, In x l1 -> In y l2 -> le x y = true.
Proof.
  intros Hs. apply Sorted_StronglySorted in Hs; [|intros a b c; apply le_trans].
  induction l1 as [|a l1 IH]; simpl; [contradiction|].
  inversion Hs as [|? ? Hs' Hall]; subst. intros x y [<-|Hx] Hy; [|now apply IH].
  rewrite Forall_forall in Hall. apply Hall, in_or_app. now right.
Qed.
End Sorting.

(** ** Strings *)

Lemma string_length_app (s t : string) :
  String.length (s ++ t) = (String.length s + String.length t)%nat.
Proof. induction s as [|c s IH]; simpl; [reflexivity | now rewrite IH]. Qed.

(** Two concatenations with suffixes of the same length are equal exactly
    when the prefixes and the suffixes are. *)
Lemma string_app_inv (s1 s2 t1 t2 : string) :
  String.length t1 = String.length t2 ->
  (s1 ++ t1)%string = (s2 ++ t2)%string -> s1 = s2 /\ t1 = t2.
Proof.
  revert s2. induction s1 as [|c s1 IH]; intros [|c' s2] Hl H; simpl in *.
  - auto.
  - apply (f_equal String.length) in H. simpl in H.
    rewrite string_length_app in H. lia.
  - apply (f_equal String.length) in H. simpl in H.
    rewrite string_length_app in H. lia.
  - injection H as -> H. destruct (IH s2 Hl H) as [-> ->]. auto.
Qed.

#[export] Hint Resolve length_filter_le : agenda.
#[export] Hint Rewrite @length_filter_app @filter_andb : agenda_rw.
