(* ===== verification/Civil.v ===== *)
(** * Civil: Gregorian calendar arithmetic on day numbers

    The JavaScript runtime turns a time value into calendar fields
    (ECMA-262: Day, YearFromTime, MonthFromTime, DateFromTime, WeekDay)
    and back (MakeDay).  Both directions are the proleptic Gregorian
    calendar on day numbers counted from 1970-01-01.  This file holds an
    executable version of both directions, in the era form (400-year
    cycles of 146097 days), and proves that converting a day number to
    (year, month, day) and back gives the day number again, for every
    integer day. *)

From Stdlib Require Import ZArith Lia.
From S2P Require Import Prelude.

Open Scope Z_scope.

Module Civil.

(** Days in a 400-year era, and the day number of 0000-03-01. *)
Definition days_per_era : Z := 146097.
Definition epoch_shift : Z := 719468.

(** Position in the era from (year of era, month counted from March,
    day of month). *)
Definition doe_of_civil (yoe mp d : Z) : Z :=
  yoe * 365 + yoe / 4 - yoe / 100 + ((153 * mp + 2) / 5 + d - 1).

(** The inverse on one era: day of era to (year of era, month counted
    from March, day of month). *)
Definition civil_of_doe (doe : Z) : Z * Z * Z :=
  let yoe := (doe - doe / 1460 + doe / 36524 - doe / 146096) / 365 in
  let doy := doe - (365 * yoe + yoe / 4 - yoe / 100) in
  let mp := (5 * doy + 2) / 153 in
  let d := doy - (153 * mp + 2) / 5 + 1 in
  (yoe, mp, d).

(** MakeDay on a month counted from 1: the day number of [y-m-d].  It is
    affine in [d] for every [d], which is what [setDate] relies on when
    the day of month overflows. *)
Definition days_from_civil (y m d : Z) : Z :=
  let y' := if m <=? 2 then y - 1 else y in
  let era := y' / 400 in
  let yoe := y' mod 400 in
  let mp := if 2 <? m then m - 3 else m + 9 in
  era * days_per_era + doe_of_civil yoe mp d - epoch_shift.

(** Month counted from 1 of a month counted from March. *)
Definition month_of_mp (mp : Z) : Z := if mp <? 10 then mp + 3 else mp - 9.

(** YearFromTime, MonthFromTime (counted from 1) and DateFromTime of a
    day number. *)
Definition civil_from_days (z : Z) : Z * Z * Z :=
  let z' := z + epoch_shift in
  let era := z' / days_per_era in
  let doe := z' mod days_per_era in
  let '(yoe, mp, d) := civil_of_doe doe in
  let m := month_of_mp mp in
  (yoe + era * 400 + (if m <=? 2 then 1 else 0), m, d).

(** WeekDay: 1970-01-01 was a Thursday (4); Sunday is 0. *)
Definition weekday (z : Z) : Z := (z + 4) mod 7.

(** The check of one era, by evaluation. *)
Definition doe_ok (doe : Z) : bool :=
  let '(yoe, mp, d) := civil_of_doe doe in
  (0 <=? yoe) && (yoe <? 400) && (0 <=? mp) && (mp <? 12)
  && (1 <=? d) && (d <=? 31) && (doe_of_civil yoe mp d =? doe).

Lemma era_table : all_from doe_ok 0 (Z.to_nat days_per_era) = true.
Proof. vm_compute. reflexivity. Qed.

Lemma civil_of_doe_spec doe :
  0 <= doe < days_per_era ->
  let '(yoe, mp, d) := civil_of_doe doe in
  0 <= yoe < 400 /\ 0 <= mp < 12 /\ 1 <= d <= 31 /\ doe_of_civil yoe mp d = doe.
Proof.
  intros Hdoe.
  pose proof (all_from_spec _ _ _ era_table doe) as H.
  rewrite Z2Nat.id in H by (vm_compute; discriminate).
  specialize (H ltac:(lia)). unfold doe_ok in H.
  destruct (civil_of_doe doe) as [[yoe mp] d].
  bool_to_prop. lia.
Qed.

(** ** Day number to date and back *)

Lemma days_from_civil_era yoe era mp d :
  0 <= yoe < 400 -> 0 <= mp < 12 ->
  days_from_civil (yoe + era * 400 + (if month_of_mp mp <=? 2 then 1 else 0))
                  (month_of_mp mp) d
  = era * days_per_era + doe_of_civil yoe mp d - epoch_shift.
Proof.
  intros Hy Hm. unfold days_from_civil, month_of_mp.
  destruct (Z.ltb_spec mp 10).
  - destruct (Z.leb_spec (mp + 3) 2); [lia|].
    destruct (Z.ltb_spec 2 (mp + 3)); [|lia].
    rewrite Z.add_0_r, div_add_small, mod_add_small by lia.
    replace (mp + 3 - 3) with mp by lia. reflexivity.
  - destruct (Z.leb_spec (mp - 9) 2); [|lia].
    destruct (Z.ltb_spec 2 (mp - 9)); [lia|].
    replace (yoe + era * 400 + 1 - 1) with (yoe + era * 400) by lia.
    rewrite div_add_small, mod_add_small by lia.
    replace (mp - 9 + 9) with mp by lia. reflexivity.
Qed.

Theorem days_from_civil_of_days z :
  let '(y, m, d) := civil_from_days z in days_from_civil y m d = z.
Proof.
  unfold civil_from_days.
  pose proof (Z.mod_pos_bound (z + epoch_shift) days_per_era ltac:(reflexivity)).
  pose proof (civil_of_doe_spec ((z + epoch_shift) mod days_per_era) H) as Hs.
  destruct (civil_of_doe _) as [[yoe mp] d].
  destruct Hs as (Hy & Hm & Hd & Hdoe). cbv beta iota zeta.
  rewrite days_from_civil_era, Hdoe by lia.
  pose proof (Z.div_mod (z + epoch_shift) days_per_era ltac:(discriminate)). lia.
Qed.

Lemma civil_from_days_range z :
  let '(_, m, d) := civil_from_days z in 1 <= m <= 12 /\ 1 <= d <= 31.
Proof.
  unfold civil_from_days.
  pose proof (Z.mod_pos_bound (z + epoch_shift) days_per_era ltac:(reflexivity)).
  pose proof (civil_of_doe_spec ((z + epoch_shift) mod days_per_era) H) as Hs.
  destruct (civil_of_doe _) as [[yoe mp] d].
  unfold month_of_mp. destruct (Z.ltb_spec mp 10); lia.
Qed.

Corollary civil_from_days_inj z1 z2 :
  civil_from_days z1 = civil_from_days z2 -> z1 = z2.
Proof.
  intros E.
  pose proof (days_from_civil_of_days z1) as H1.
  pose proof (days_from_civil_of_days z2) as H2.
  rewrite E in H1. destruct (civil_from_days z2) as [[y m] d]. congruence.
Qed.

(** [MakeDay] is affine in the day of month. *)
Lemma days_from_civil_day y m d :
  days_from_civil y m d = days_from_civil y m 1 + (d - 1).
Proof. unfold days_from_civil, doe_of_civil. lia. Qed.

Lemma weekday_range z : 0 <= weekday z < 7.
Proof. unfold weekday. apply Z.mod_pos_bound. lia. Qed.

(** The Sunday that starts the week of day [z]. *)
Lemma weekday_sunday z : weekday (z - weekday z) = 0.
Proof.
  unfold weekday.
  replace (z - (z + 4) mod 7 + 4) with ((z + 4) / 7 * 7)
    by (pose proof (Z.div_mod (z + 4) 7 ltac:(discriminate)); lia).
  apply Z.mod_mul. discriminate.
Qed.

End Civil.

#[export] Hint Resolve Civil.weekday_range : agenda.
