(* ===== verification/JsDate.v ===== *)
(** * JsDate: the JavaScript [Date] operations the program calls

    A [Date] is its time value: milliseconds since 1970-01-01T00:00:00Z,
    an integer [Z].  Local time is the time value plus a fixed offset [tz]
    in milliseconds (ECMA-262 LocalTime/UTC with a zone without daylight
    saving time); every definition takes the offset as a parameter, so the
    theorems hold for every zone.  The file gives the getters
    ([getFullYear], [getMonth], [getDate], [getDay]), the setters
    [setHours] and [setDate] (which normalise an overflowing day of month
    through MakeDay), [Number.prototype.toString] on integers and
    [String.prototype.padStart], with the laws the program relies on:
    [setHours] stays in the same local day, [setDate (getDate t + k)]
    moves exactly [k] days, and [toString] is injective. *)

From Stdlib Require Import ZArith Lia Bool String Ascii List.
From Stdlib Require Import DecimalString DecimalZ DecimalPos.
From S2P Require Import Prelude Civil.

Open Scope Z_scope.

Module JsDate.

Definition msPerSecond : Z := 1000.
Definition msPerMinute : Z := 60000.
Definition msPerHour : Z := 3600000.
Definition msPerDay : Z := 86400000.

(** Day and TimeWithinDay of ECMA-262. *)
Definition Day (t : Z) : Z := t / msPerDay.
Definition TimeWithinDay (t : Z) : Z := t mod msPerDay.

(** MakeTime, MakeDay (month counted from 0, normalised like the
    runtime) and MakeDate. *)
Definition MakeTime (h m s ms : Z) : Z :=
  h * msPerHour + m * msPerMinute + s * msPerSecond + ms.
Definition MakeDay (y m dt : Z) : Z :=
  Civil.days_from_civil (y + m / 12) (m mod 12 + 1) 1 + (dt - 1).
Definition MakeDate (day time : Z) : Z := day * msPerDay + time.

(** [String(n)] / [n.toString()] on an integer. *)
Definition number_to_string (z : Z) : string :=
  NilZero.string_of_int (Z.to_int z).

Fixpoint replicate_char (n : nat) (c : ascii) : string :=
  match n with
  | O => EmptyString
  | S k => String c (replicate_char k c)
  end.

(** [s.padStart(n, c)] with a one-character pad string. *)
Definition padStart (s : string) (n : nat) (c : ascii) : string :=
  if (n <=? String.length s)%nat then s
  else (replicate_char (n - String.length s) c ++ s)%string.

(** [parseInt(s)] with no radix: leading white space, an optional sign,
    then hexadecimal digits after "0x" or "0X", decimal digits otherwise,
    up to the first other character; [None] is [NaN] (no digit). *)
Definition is_js_space (c : ascii) : bool :=
  let n := nat_of_ascii c in
  (n =? 32)%nat || (9 <=? n)%nat && (n <=? 13)%nat.

Fixpoint skip_spaces (s : string) : string :=
  match s with
  | String c r => if is_js_space c then skip_spaces r else s
  | EmptyString => s
  end.

Definition digit_value (radix : Z) (c : ascii) : option Z :=
  let n := Z.of_nat (nat_of_ascii c) in
  let v := if (48 <=? n) && (n <=? 57) then n - 48
           else if (97 <=? n) && (n <=? 122) then n - 87
           else if (65 <=? n) && (n <=? 90) then n - 55 else radix in
  if v <? radix then Some v else None.

(** The digits of [s] in [radix] up to the first non-digit, accumulated on
    [acc]; [None] when there is no digit at all. *)
Fixpoint digits_prefix (radix : Z) (s : string) (acc : option Z) : option Z :=
  match s with
  | String c r =>
      match digit_value radix c with
      | Some v => digits_prefix radix r
                    (Some (match acc with Some a => a | None => 0 end * radix + v))
      | None => acc
      end
  | EmptyString => acc
  end.

Definition parseInt (s : string) : option Z :=
  let s := skip_spaces s in
  let '(sign, s) :=
    match s with
    | String c r =>
        if Ascii.eqb c "-" then (-1, r) else if Ascii.eqb c "+" then (1, r) else (1, s)
    | EmptyString => (1, s)
    end in
  let value :=
    match s with
    | String z (String x r) =>
        if Ascii.eqb z "0" && (Ascii.eqb x "x" || Ascii.eqb x "X")
        then digits_prefix 16 r None else digits_prefix 10 s None
    | _ => digits_prefix 10 s None
    end in
  option_map (fun v => sign * v) value.

(** The value of a list of decimal digit characters. *)
Definition digits_value (cs : list ascii) : option Z :=
  fold_left (fun acc c => match acc, digit_value 10 c with
                          | Some a, Some v => Some (a * 10 + v)
                          | _, _ => None
                          end) cs (Some 0).

(** [new Date(s)] for the date-only form "YYYY-MM-DD": ECMA-262 reads it
    as UTC midnight of that date; [None] is an invalid date ([NaN]), for a
    string of another shape or a day the month does not have. *)
Definition parse_date_only (s : string) : option Z :=
  match s with
  | String y1 (String y2 (String y3 (String y4 (String h1
      (String m1 (String m2 (String h2 (String d1 (String d2 EmptyString))))))))) =>
      if Ascii.eqb h1 "-" && Ascii.eqb h2 "-" then
        match digits_value (y1 :: y2 :: y3 :: y4 :: nil), digits_value (m1 :: m2 :: nil),
              digits_value (d1 :: d2 :: nil) with
        | Some y, Some m, Some d =>
            let '(y', m', d') := Civil.civil_from_days (Civil.days_from_civil y m d) in
            if (1 <=? m) && (m <=? 12) && (y' =? y) && (m' =? m) && (d' =? d)
            then Some (MakeDate (Civil.days_from_civil y m d) 0) else None
        | _, _, _ => None
        end
      else None
  | _ => None
  end.

Section WithZone.
(** The local-time offset of the runtime, in milliseconds. *)
Variable tz : Z.

Definition LocalTime (t : Z) : Z := t + tz.
Definition UTC (l : Z) : Z := l - tz.

(** The local day number of a time value. *)
Definition local_day (t : Z) : Z := Day (LocalTime t).

Definition getFullYear (t : Z) : Z :=
  let '(y, _, _) := Civil.civil_from_days (local_day t) in y.
Definition getMonth (t : Z) : Z :=
  let '(_, m, _) := Civil.civil_from_days (local_day t) in m - 1.
Definition getDate (t : Z) : Z :=
  let '(_, _, d) := Civil.civil_from_days (local_day t) in d.
Definition getDay (t : Z) : Z := Civil.weekday (local_day t).

(** [d.setHours(h, m, s, ms)]: the new time value. *)
Definition setHours (t h m s ms : Z) : Z :=
  UTC (MakeDate (Day (LocalTime t)) (MakeTime h m s ms)).

(** [d.setDate(dt)]: the new time value. *)
Definition setDate (t dt : Z) : Z :=
  UTC (MakeDate (MakeDay (getFullYear t) (getMonth t) dt)
                (TimeWithinDay (LocalTime t))).

(** The local midnight that starts the day of [t], and the last
    millisecond of that day. *)
Definition start_of_day (t : Z) : Z := local_day t * msPerDay - tz.

Lemma setHours_local_day t h m s ms :
  0 <= MakeTime h m s ms < msPerDay ->
  local_day (setHours t h m s ms) = local_day t.
Proof.
  intros Hr. unfold local_day, setHours, UTC, LocalTime, MakeDate, Day.
  replace ((t + tz) / msPerDay * msPerDay + MakeTime h m s ms - tz + tz)
    with (MakeTime h m s ms + (t + tz) / msPerDay * msPerDay) by lia.
  apply div_add_small. exact Hr.
Qed.

Lemma setHours_midnight t : setHours t 0 0 0 0 = start_of_day t.
Proof. unfold setHours, start_of_day, MakeDate, MakeTime, UTC, local_day. lia. Qed.

Lemma setHours_end_of_day t :
  setHours t 23 59 59 999 = start_of_day t + msPerDay - 1.
Proof.
  unfold setHours, start_of_day, MakeDate, MakeTime, UTC, local_day.
  unfold msPerDay, msPerHour, msPerMinute, msPerSecond. lia.
Qed.

(** The local day of a time value is the day of the time value
    shifted by the offset: [start_of_day t <= t] and [t] is less than a
    day after it. *)
Lemma start_of_day_bounds t :
  start_of_day t <= t < start_of_day t + msPerDay.
Proof.
  unfold start_of_day, local_day, Day, LocalTime.
  pose proof (Z.div_mod (t + tz) msPerDay ltac:(discriminate)).
  pose proof (Z.mod_pos_bound (t + tz) msPerDay ltac:(reflexivity)). lia.
Qed.

Lemma local_day_iff t d :
  local_day t = d <-> d * msPerDay - tz <= t < d * msPerDay - tz + msPerDay.
Proof.
  unfold local_day, Day, LocalTime. split.
  - intros <-. pose proof (start_of_day_bounds t) as H.
    unfold start_of_day, local_day, Day, LocalTime in H. lia.
  - intros H. symmetry. apply Z.div_unique with (r := t + tz - d * msPerDay);
      [left; unfold msPerDay in *; lia | lia].
Qed.

(** A day boundary [k * msPerDay - tz] lies at or before [t] exactly when
    [k] is at most the local day of [t]; the last millisecond of day [k]
    lies at or after [t] exactly when the local day of [t] is at most [k]. *)
Lemma day_start_le_iff t k :
  k * msPerDay - tz <= t <-> k <= local_day t.
Proof.
  pose proof (start_of_day_bounds t) as H. unfold start_of_day in H.
  unfold msPerDay in *. lia.
Qed.

Lemma le_day_end_iff t k :
  t <= k * msPerDay - tz + msPerDay - 1 <-> local_day t <= k.
Proof.
  pose proof (start_of_day_bounds t) as H. unfold start_of_day in H.
  unfold msPerDay in *. lia.
Qed.

Lemma local_day_shift t k :
  local_day (t + k * msPerDay) = local_day t + k.
Proof.
  unfold local_day, Day, LocalTime.
  replace (t + k * msPerDay + tz) with ((t + tz) + k * msPerDay) by lia.
  apply Z.div_add. discriminate.
Qed.

(** [setDate(getDate() + k)] moves a date by exactly [k] days and keeps
    the time of day, whatever the month lengths. *)
Theorem setDate_getDate_add t k :
  setDate t (getDate t + k) = t + k * msPerDay.
Proof.
  unfold setDate, getDate, getFullYear, getMonth.
  pose proof (Civil.days_from_civil_of_days (local_day t)) as Hrt.
  pose proof (Civil.civil_from_days_range (local_day t)) as Hr.
  destruct (Civil.civil_from_days (local_day t)) as [[y m] d].
  unfold MakeDay.
  rewrite (Z.div_small (m - 1) 12), Z.add_0_r, (Z.mod_small (m - 1) 12) by lia.
  replace (m - 1 + 1) with m by lia.
  rewrite Civil.days_from_civil_day in Hrt.
  unfold local_day, UTC, MakeDate, TimeWithinDay, LocalTime, Day in *.
  pose proof (Z.div_mod (t + tz) msPerDay ltac:(discriminate)).
  unfold msPerDay in *. lia.
Qed.

Lemma getDay_range t : 0 <= getDay t < 7.
Proof. apply Civil.weekday_range. Qed.

Lemma getMonth_getDate_range t : 0 <= getMonth t <= 11 /\ 1 <= getDate t <= 31.
Proof.
  unfold getMonth, getDate.
  pose proof (Civil.civil_from_days_range (local_day t)) as Hr.
  destruct (Civil.civil_from_days (local_day t)) as [[y m] d]. lia.
Qed.
End WithZone.

(** ** Numbers and strings *)

Lemma to_int_not_nil z :
  Z.to_int z <> Decimal.Pos Decimal.Nil /\ Z.to_int z <> Decimal.Neg Decimal.Nil.
Proof.
  destruct z as [|p|p]; simpl; split; try discriminate;
    intros H; injection H; apply Unsigned.to_uint_nonnil.
Qed.

Lemma number_to_string_inj z1 z2 :
  number_to_string z1 = number_to_string z2 -> z1 = z2.
Proof.
  unfold number_to_string. intros H.
  apply (f_equal NilZero.int_of_string) in H.
  destruct (to_int_not_nil z1), (to_int_not_nil z2).
  rewrite !NilZero.isi in H by assumption.
  injection H. apply DecimalZ.to_int_inj.
Qed.

End JsDate.

#[export] Hint Resolve JsDate.getDay_range JsDate.start_of_day_bounds : agenda.
#[export] Hint Rewrite JsDate.setHours_midnight JsDate.setHours_end_of_day
  JsDate.setDate_getDate_add JsDate.local_day_shift : agenda_rw.
