(* ===== verification/JsNumber.v ===== *)
(** * JsNumber: JavaScript numbers read from strings

    A JavaScript number is an IEEE 754 binary64 value.  This file models
    the two readings of a string the program makes: [Number(s)] (the
    ToNumber of a string, ECMA-262 StringToNumber, which Yup's [number()]
    schema applies) and [parseInt(s)] followed by the conversion of its
    mathematical value to a number.  Values are the [spec_float] of the
    Standard Library's [SpecFloat] with [prec = 53] and [emax = 1024], and
    rounding is its round-to-nearest-even ([binary_normalize] for integers,
    the exact division core [SFdiv_core_binary] for [m * 10^k] with
    [k < 0]).  White space is the ASCII white space of [JsDate.is_js_space];
    the strings are byte strings. *)

From Stdlib Require Import ZArith Lia Bool String Ascii List SpecFloat.
From Stdlib Require Import DecimalString DecimalZ DecimalPos.
From S2P Require Import Prelude JsDate.
Import ListNotations.

Open Scope Z_scope.

Module JsNumber.
Import JsDate.

Definition prec : Z := 53.
Definition emax : Z := 1024.

Definition double := spec_float.

(** The number of an integer [v], rounded to nearest, ties to even. *)
Definition of_Z (v : Z) : double := binary_normalize prec emax v 0 false.

(** The number of [(-1)^neg * m * 10^k] for [m >= 0].  The two shortcuts
    do not change the value: [m * 10^k >= 10^309] is above the largest
    finite double, and [m * 10^k < 10^-324] is below half the least
    positive one, so they only avoid computing huge powers of ten. *)
Definition of_decimal (neg : bool) (m k : Z) : double :=
  if m =? 0 then S754_zero neg
  else if 309 <=? k then S754_infinity neg
  else if Z.log2 m + 1 + k <=? -324 then S754_zero neg
  else if 0 <=? k then binary_normalize prec emax (if neg then - (m * 10 ^ k) else m * 10 ^ k) 0 false
  else let '(mz, ez, lz) := SFdiv_core_binary prec emax m k (5 ^ (- k)) 0 in
       binary_round_aux prec emax neg mz ez lz.

(** The decimal digits at the head of a list: their value appended to
    [acc], their count, and the rest. *)
Fixpoint digits10 (l : list ascii) (acc : Z) (n : nat) : Z * nat * list ascii :=
  match l with
  | c :: r =>
      match digit_value 10 c with
      | Some v => digits10 r (acc * 10 + v) (S n)
      | None => (acc, n, l)
      end
  | [] => (acc, n, [])
  end.

(** Digits of [radix] making up the whole list, at least one. *)
Fixpoint radix_digits (radix : Z) (l : list ascii) (acc : Z) : option Z :=
  match l with
  | [] => Some acc
  | c :: r => match digit_value radix c with
              | Some v => radix_digits radix r (acc * radix + v)
              | None => None
              end
  end.

Definition strip_sign (l : list ascii) : bool * list ascii :=
  match l with
  | c :: r => if Ascii.eqb c "-" then (true, r) else if Ascii.eqb c "+" then (false, r) else (false, l)
  | [] => (false, l)
  end.

Fixpoint drop_spaces (l : list ascii) : list ascii :=
  match l with c :: r => if is_js_space c then drop_spaces r else l | [] => [] end.

(** [String.prototype.trim]. *)
Definition trim (l : list ascii) : list ascii := rev (drop_spaces (rev (drop_spaces l))).

(** StrUnsignedDecimalLiteral after its sign: [Infinity], or digits with
    an optional fraction and exponent, at least one digit in all. *)
Definition decimal_literal (neg : bool) (l : list ascii) : double :=
  if String.eqb (string_of_list_ascii l) "Infinity" then S754_infinity neg
  else
    let '(ip, ni, r1) := digits10 l 0 0 in
    let '(m, nf, r2) :=
      match r1 with
      | c :: r => if Ascii.eqb c "." then digits10 r ip 0 else (ip, O, r1)
      | [] => (ip, O, r1)
      end in
    if (ni + nf =? 0)%nat then S754_nan
    else
      let exponent :=
        match r2 with
        | [] => Some 0
        | c :: r =>
            if Ascii.eqb c "e" || Ascii.eqb c "E" then
              let '(eneg, r') := strip_sign r in
              let '(ev, ne, r'') := digits10 r' 0 0 in
              if (0 <? ne)%nat && match r'' with [] => true | _ => false end
              then Some (if eneg then - ev else ev) else None
            else None
        end in
      match exponent with
      | Some e => of_decimal neg m (e - Z.of_nat nf)
      | None => S754_nan
      end.

(** [Number(s)] for a string [s] (ECMA-262 StringToNumber). *)
Definition StringToNumber (s : string) : double :=
  match trim (list_ascii_of_string s) with
  | [] => S754_zero false
  | (c0 :: c1 :: r) as l =>
      if Ascii.eqb c0 "0" then
        let radix := if Ascii.eqb c1 "x" || Ascii.eqb c1 "X" then 16
                     else if Ascii.eqb c1 "o" || Ascii.eqb c1 "O" then 8
                     else if Ascii.eqb c1 "b" || Ascii.eqb c1 "B" then 2 else 0 in
        if radix =? 0 then let '(neg, u) := strip_sign l in decimal_literal neg u
        else match r with
             | [] => S754_nan
             | _ => match radix_digits radix r 0 with Some v => of_Z v | None => S754_nan end
             end
      else let '(neg, u) := strip_sign l in decimal_literal neg u
  | l => let '(neg, u) := strip_sign l in decimal_literal neg u
  end.

(** [parseInt(s)] as a number: its mathematical value rounded ([NaN]
    when no digit is read). *)
Definition parseInt_number (s : string) : double :=
  match parseInt s with Some v => of_Z v | None => S754_nan end.

(** The integer a number with an integer value holds, as [JSON.stringify]
    writes it; [None] for [NaN] and the infinities, which it writes as
    [null].  Applied to integer-valued numbers only. *)
Definition integer_value (d : double) : option Z :=
  match d with
  | S754_zero _ => Some 0
  | S754_finite s m e =>
      let v := if 0 <=? e then Zpos m * 2 ^ e else Zpos m / 2 ^ (- e) in
      Some (if s then - v else v)
  | _ => None
  end.

(** The step of [JsDate.digits_value]. *)
Definition digit_step (acc : option Z) (c : ascii) : option Z :=
  match acc, digit_value 10 c with
  | Some a, Some v => Some (a * 10 + v)
  | _, _ => None
  end.

Definition is_digit (c : ascii) : bool :=
  match digit_value 10 c with Some _ => true | None => false end.

(** ** Strings of decimal digits *)

Lemma digits_value_fold l : digits_value l = fold_left digit_step l (Some 0).
Proof. reflexivity. Qed.

Lemma fold_digit_step_none l : fold_left digit_step l None = None.
Proof. induction l; simpl; auto. Qed.

Lemma digit_value_10 c v : digit_value 10 c = Some v -> 0 <= v < 10.
Proof.
  unfold digit_value. intros H. set (n := Z.of_nat _) in H.
  destruct ((48 <=? n) && (n <=? 57)) eqn:E1;
    [|destruct ((97 <=? n) && (n <=? 122)) eqn:E2;
      [|destruct ((65 <=? n) && (n <=? 90)) eqn:E3]];
    (match type of H with (if ?x <? 10 then _ else _) = _ =>
       destruct (Z.ltb_spec x 10) as [Hl|]; [injection H as <- | discriminate] end);
    rewrite ?andb_true_iff, ?Z.leb_le in *; lia.
Qed.

(** What a list of digits gives to each reader: [digits10] reads it all,
    [digits_prefix] gives the same value, and every character is a digit. *)
Lemma fold_digit_step l a r n :
  fold_left digit_step l (Some a) = Some r ->
  digits10 l a n = (r, (n + length l)%nat, [])
  /\ digits_prefix 10 (string_of_list_ascii l) (Some a) = Some r
  /\ forallb is_digit l = true
  /\ (0 <= a -> a * 10 ^ Z.of_nat (length l) <= r < (a + 1) * 10 ^ Z.of_nat (length l)).
Proof.
  revert a n. induction l as [|c l IH]; intros a n H; simpl in H |- *.
  - injection H as <-. rewrite Nat.add_0_r. repeat split; lia.
  - destruct (digit_value 10 c) as [v|] eqn:Ev;
      [|now rewrite fold_digit_step_none in H].
    destruct (IH _ (S n) H) as (H1 & H2 & H3 & H4). pose proof (digit_value_10 _ _ Ev).
    unfold is_digit at 1. rewrite Ev, H1, H2, H3, Nat.add_succ_comm.
    split; [reflexivity|]. split; [reflexivity|]. split; [reflexivity|].
    intros Ha. specialize (H4 ltac:(lia)).
    assert (E : Z.pow_pos 10 (Pos.of_succ_nat (length l)) = 10 ^ Z.of_nat (length l) * 10).
    { change (Z.pow_pos 10 (Pos.of_succ_nat (length l))) with (10 ^ Z.of_nat (S (length l))).
      rewrite Nat2Z.inj_succ, Z.pow_succ_r; lia. }
    rewrite E. nia.
Qed.
(** ** Integers below 2^53 are numbers *)

Lemma digits2_pos_size p : digits2_pos p = Pos.size p.
Proof. induction p; simpl; congruence. Qed.

Lemma log2_size p : Z.log2 (Zpos p) = Zpos (Pos.size p) - 1.
Proof. destruct p; unfold Z.log2; cbn [Pos.size]; rewrite ?Pos2Z.inj_succ; lia. Qed.

Lemma iter_xO p k : Zpos (Pos.iter xO p k) = Zpos p * 2 ^ Zpos k.
Proof.
  induction k as [|k IH] using Pos.peano_ind; [simpl; lia|].
  rewrite Pos.iter_succ, Pos2Z.inj_xO, IH, Pos2Z.inj_succ, Z.pow_succ_r by lia. lia.
Qed.

(** A 53-digit mantissa at an exponent in range is rounded to itself. *)
Lemma round_aux_exact m e :
  Pos.size m = 53%positive -> -1074 <= e <= 971 ->
  binary_round_aux prec emax false (Zpos m) e loc_Exact = S754_finite false m e.
Proof.
  intros Hm He. unfold binary_round_aux, shr_fexp, fexp, emin, prec, emax. cbn [Zdigits2].
  rewrite digits2_pos_size, Hm.
  replace (Z.max (53 + e - 53) (3 - 1024 - 53) - e) with 0 by lia. cbn [shr shr_record_of_loc].
  cbn [shr_m loc_of_shr_record round_nearest_even Zdigits2]. rewrite digits2_pos_size, Hm.
  replace (Z.max (53 + e - 53) (3 - 1024 - 53) - e) with 0 by lia. cbn [shr shr_m].
  replace (e <=? 1024 - 53) with true by (symmetry; apply Z.leb_le; lia). reflexivity.
Qed.
Lemma size_bound p : Zpos p < 2 ^ 53 -> (Zpos (Pos.size p) <= 53).
Proof.
  intros H. pose proof (proj1 (Z.log2_lt_pow2 (Zpos p) 53 ltac:(lia)) H).
  rewrite log2_size in *. lia.
Qed.

Lemma size_log2 q : Zpos (Pos.size q) = Z.log2 (Zpos q) + 1.
Proof. rewrite log2_size. lia. Qed.

(** [of_Z n] for [0 < n < 2^53]: the mantissa is [n] shifted to 53 digits. *)
Lemma of_Z_small n :
  0 < n < 2 ^ 53 ->
  of_Z n = S754_finite false (Z.to_pos (n * 2 ^ (52 - Z.log2 n))) (Z.log2 n - 52).
Proof.
  intros Hn. destruct n as [|p|p]; try lia.
  pose proof (size_bound p (proj2 Hn)) as Hs. rewrite log2_size.
  unfold of_Z, binary_normalize, binary_round, shl_align, fexp, emin, prec, emax.
  rewrite digits2_pos_size.
  replace (Z.max (Zpos (Pos.size p) + 0 - 53) (3 - 1024 - 53) - 0)
    with (Zpos (Pos.size p) - 53) by lia.
  assert (Hm : Pos.size (Z.to_pos (Zpos p * 2 ^ (52 - (Zpos (Pos.size p) - 1)))) = 53%positive).
  { apply Pos2Z.inj. rewrite size_log2, Z2Pos.id by (apply Z.mul_pos_pos; [lia | apply Z.pow_pos_nonneg; lia]).
    rewrite Z.log2_mul_pow2, log2_size by lia. lia. }
  destruct (Zpos (Pos.size p) - 53) as [|k|k] eqn:Ek; try lia.
  - replace (52 - (Zpos (Pos.size p) - 1)) with 0 in * by lia.
    rewrite Z.mul_1_r in *. cbn [Z.to_pos] in *.
    replace (Zpos (Pos.size p) - 1 - 52) with 0 by lia.
    apply round_aux_exact; [exact Hm | lia].
  - assert (Pos.iter xO p k = Z.to_pos (Zpos p * 2 ^ (52 - (Zpos (Pos.size p) - 1)))) as ->.
    { apply Pos2Z.inj. rewrite iter_xO, Z2Pos.id by (apply Z.mul_pos_pos; [lia | apply Z.pow_pos_nonneg; lia]).
      do 2 f_equal. lia. }
    replace (Z.max (Zpos (Pos.size p) + 0 - 53) (3 - 1024 - 53))
      with (Zpos (Pos.size p) - 1 - 52) by lia.
    apply round_aux_exact; [exact Hm | lia].
Qed.

Lemma shift_pos n : 0 < n < 2 ^ 53 -> 0 < n * 2 ^ (52 - Z.log2 n).
Proof.
  intros Hn. apply Z.mul_pos_pos; [lia|]. apply Z.pow_pos_nonneg; [lia|].
  assert (Z.log2 n < 53) by (apply Z.log2_lt_pow2; lia). lia.
Qed.

Lemma integer_value_of_Z n : 0 <= n <= 2 ^ 53 -> integer_value (of_Z n) = Some n.
Proof.
  intros Hn. destruct (Z.eq_dec n 0) as [->|]; [reflexivity|].
  destruct (Z.eq_dec n (2 ^ 53)) as [->|]; [vm_compute; reflexivity|].
  rewrite of_Z_small by lia. unfold integer_value. f_equal.
  pose proof (proj1 (Z.log2_lt_pow2 n 53 ltac:(lia)) ltac:(lia)).
  pose proof (Z.log2_nonneg n).
  rewrite Z2Pos.id by (apply shift_pos; lia).
  destruct (Z.leb_spec 0 (Z.log2 n - 52)).
  - replace (Z.log2 n) with 52 by lia. simpl. lia.
  - replace (- (Z.log2 n - 52)) with (52 - Z.log2 n) by lia.
    apply Z.div_mul. apply Z.pow_nonzero; lia.
Qed.

(** Comparisons of such numbers are the comparisons of the integers. *)
Lemma compare_of_Z a b :
  0 <= a < 2 ^ 53 -> 0 <= b < 2 ^ 53 ->
  SFcompare (of_Z a) (of_Z b) = Some (Z.compare a b).
Proof.
  intros Ha Hb.
  destruct (Z.eq_dec a 0) as [->|Ha0]; destruct (Z.eq_dec b 0) as [->|Hb0];
    [reflexivity| | |].
  - change (of_Z 0) with (S754_zero false). rewrite (of_Z_small b) by lia.
    cbn [SFcompare]. destruct b; [lia | reflexivity | lia].
  - change (of_Z 0) with (S754_zero false). rewrite (of_Z_small a) by lia.
    cbn [SFcompare]. destruct a; [lia | reflexivity | lia].
  - rewrite (of_Z_small a), (of_Z_small b) by lia. cbn [SFcompare]. f_equal.
    pose proof (Z.log2_spec a ltac:(lia)). pose proof (Z.log2_spec b ltac:(lia)).
    destruct (Z.compare_spec (Z.log2 a - 52) (Z.log2 b - 52)) as [E|E|E].
    + replace (Z.log2 b) with (Z.log2 a) by lia.
      change (Pos.compare_cont Eq ?x ?y) with (Pos.compare x y).
      assert (Z.log2 a < 53) by (apply Z.log2_lt_pow2; lia).
      assert (Hk : 0 < 2 ^ (52 - Z.log2 a)) by (apply Z.pow_pos_nonneg; lia).
      rewrite Pos2Z.inj_compare, !Z2Pos.id by (apply Z.mul_pos_pos; lia).
      destruct (Z.compare_spec a b) as [->|Hab|Hab];
        [apply Z.compare_refl | apply Z.compare_lt_iff | apply Z.compare_gt_iff]; nia.
    + symmetry. apply Z.compare_lt_iff.
      assert (2 ^ Z.succ (Z.log2 a) <= 2 ^ Z.log2 b) by (apply Z.pow_le_mono_r; lia). lia.
    + symmetry. apply Z.compare_gt_iff.
      assert (2 ^ Z.succ (Z.log2 b) <= 2 ^ Z.log2 a) by (apply Z.pow_le_mono_r; lia). lia.
Qed.
(** ** Strings of digits read as numbers *)

Lemma is_digit_not c d : is_digit c = true -> is_digit d = false -> Ascii.eqb c d = false.
Proof. intros Hc Hd. destruct (Ascii.eqb_spec c d) as [->|]; congruence. Qed.

Lemma is_digit_space c : is_digit c = true -> is_js_space c = false.
Proof.
  destruct c as [[] [] [] [] [] [] [] []]; vm_compute; intros H;
    first [reflexivity | discriminate H].
Qed.

Lemma drop_spaces_digits l : forallb is_digit l = true -> drop_spaces l = l.
Proof.
  destruct l as [|c l]; simpl; [reflexivity|]. intros H. apply andb_prop in H as [H _].
  now rewrite is_digit_space.
Qed.

Lemma trim_digits l : forallb is_digit l = true -> trim l = l.
Proof.
  intros H. unfold trim. rewrite (drop_spaces_digits l H), drop_spaces_digits, rev_involutive;
    [reflexivity|]. apply forallb_forall. intros x Hx. apply in_rev in Hx.
  exact (proj1 (forallb_forall _ _) H x Hx).
Qed.
Lemma of_decimal_int v : 0 <= v -> of_decimal false v 0 = of_Z v.
Proof.
  intros Hv. unfold of_decimal. destruct (Z.eqb_spec v 0) as [->|]; [reflexivity|].
  pose proof (Z.log2_nonneg v).
  replace (309 <=? 0) with false by reflexivity.
  replace (Z.log2 v + 1 + 0 <=? -324) with false by (symmetry; apply Z.leb_gt; lia).
  cbn -[binary_normalize]. now rewrite Z.mul_1_r.
Qed.

(** [Number(s)] of a string of decimal digits is the number of its value. *)
Lemma StringToNumber_digits l v :
  l <> [] -> digits_value l = Some v -> StringToNumber (string_of_list_ascii l) = of_Z v.
Proof.
  intros Hne Hv. rewrite digits_value_fold in Hv.
  destruct (fold_digit_step l 0 v O Hv) as (H1 & _ & H3 & H4).
  specialize (H4 ltac:(lia)).
  assert (Hdec : decimal_literal false l = of_Z v).
  { unfold decimal_literal. destruct l as [|c l']; [congruence|].
    simpl in H3. apply andb_prop in H3 as [Hc _].
    replace (String.eqb _ "Infinity") with false
      by (simpl; now rewrite (is_digit_not c "I"%char)).
    rewrite H1. cbn -[of_decimal of_Z]. rewrite of_decimal_int; [reflexivity|lia]. }
  unfold StringToNumber. rewrite list_ascii_of_string_of_list_ascii, trim_digits by exact H3.
  destruct l as [|c0 [|c1 r]]; [congruence| |].
  - simpl in H3. apply andb_prop in H3 as [Hc _]. cbn [strip_sign].
    rewrite (is_digit_not c0 "-"%char), (is_digit_not c0 "+"%char) by (exact Hc || reflexivity).
    exact Hdec.
  - simpl in H3. apply andb_prop in H3 as [Hc0 H3]. apply andb_prop in H3 as [Hc1 _].
    rewrite !(is_digit_not c1) by (exact Hc1 || reflexivity). cbn [orb].
    unfold strip_sign.
    rewrite (is_digit_not c0 "-"%char), (is_digit_not c0 "+"%char) by (exact Hc0 || reflexivity).
    destruct (Ascii.eqb c0 "0"); exact Hdec.
Qed.

(** [parseInt(s)] of a string of decimal digits is its value. *)
Lemma parseInt_digits l v :
  l <> [] -> digits_value l = Some v -> parseInt (string_of_list_ascii l) = Some v.
Proof.
  intros Hne Hv. rewrite digits_value_fold in Hv.
  destruct (fold_digit_step l 0 v O Hv) as (_ & H2 & H3 & _).
  destruct l as [|c0 l']; [congruence|]. simpl in H3. apply andb_prop in H3 as [Hc H3].
  unfold parseInt. cbn [string_of_list_ascii skip_spaces]. rewrite is_digit_space by exact Hc.
  rewrite (is_digit_not c0 "-"%char), (is_digit_not c0 "+"%char) by (exact Hc || reflexivity).
  assert (Hp : digits_prefix 10 (String c0 (string_of_list_ascii l')) None = Some v).
  { cbn [string_of_list_ascii digits_prefix] in H2 |- *. unfold is_digit in Hc.
    destruct (digit_value 10 c0); [exact H2 | discriminate]. }
  destruct l' as [|c1 r]; cbn [string_of_list_ascii] in Hp |- *; [rewrite Hp; cbn [option_map]; now rewrite Z.mul_1_l|].
  simpl in H3. apply andb_prop in H3 as [Hc1 _].
  rewrite (is_digit_not c1 "x"%char), (is_digit_not c1 "X"%char) by (exact Hc1 || reflexivity).
  rewrite andb_false_r. rewrite Hp. cbn [option_map]. now rewrite Z.mul_1_l.
Qed.
Lemma SFleb_of_Z a b :
  0 <= a < 2 ^ 53 -> 0 <= b < 2 ^ 53 -> SFleb (of_Z a) (of_Z b) = (a <=? b).
Proof.
  intros Ha Hb. unfold SFleb. rewrite compare_of_Z by assumption.
  destruct (Z.compare_spec a b); symmetry; apply Z.leb_le || apply Z.leb_gt; lia.
Qed.

Lemma of_Z_not_nan n : 0 <= n < 2 ^ 53 -> of_Z n <> S754_nan.
Proof.
  intros Hn. destruct (Z.eq_dec n 0) as [->|]; [discriminate|].
  rewrite of_Z_small by lia. discriminate.
Qed.

(** ** Printing then reading an integer *)

Lemma fold_of_uint_acc u acc :
  fold_left digit_step (list_ascii_of_string (NilEmpty.string_of_uint u)) (Some (Zpos acc))
  = Some (Zpos (Pos.of_uint_acc u acc)).
Proof.
  revert acc. induction u; intros acc; [reflexivity|..];
    cbn [NilEmpty.string_of_uint list_ascii_of_string fold_left Pos.of_uint_acc];
    rewrite <- IHu; f_equal; unfold digit_step;
    (match goal with |- context [digit_value 10 ?c] =>
       let v := eval vm_compute in (digit_value 10 c) in change (digit_value 10 c) with v end);
    cbv beta iota; f_equal; rewrite ?Pos2Z.inj_add, Pos2Z.inj_mul; lia.
Qed.

Lemma fold_of_uint u :
  fold_left digit_step (list_ascii_of_string (NilEmpty.string_of_uint u)) (Some 0)
  = Some (Z.of_N (Pos.of_uint u)).
Proof.
  induction u; [reflexivity|..];
    cbn [NilEmpty.string_of_uint list_ascii_of_string fold_left Pos.of_uint];
    [exact IHu|..]; apply fold_of_uint_acc.
Qed.

(** The decimal string of a non-negative integer is a non-empty string of
    digits of that value. *)
Lemma number_to_string_digits n :
  0 <= n ->
  exists l, number_to_string n = string_of_list_ascii l /\ l <> [] /\ digits_value l = Some n.
Proof.
  intros Hn. destruct n as [|p|p]; [|try lia..].
  - exists ["0"%char]. split; [reflexivity|]. split; [discriminate | reflexivity].
  - exists (list_ascii_of_string (NilEmpty.string_of_uint (Pos.to_uint p))).
    assert (Hs : number_to_string (Zpos p) = NilEmpty.string_of_uint (Pos.to_uint p)).
    { unfold number_to_string. cbn [Z.to_int NilZero.string_of_int].
      unfold NilZero.string_of_uint. pose proof (Unsigned.to_uint_nonnil p).
      destruct (Pos.to_uint p); [contradiction | reflexivity..]. }
    rewrite Hs, string_of_list_ascii_of_string. split; [reflexivity|]. split.
    + pose proof (Unsigned.to_uint_nonnil p).
      destruct (Pos.to_uint p); [contradiction | discriminate..].
    + rewrite digits_value_fold, fold_of_uint, Unsigned.of_to. reflexivity.
Qed.

(** Printing an integer with [toString()] and reading it back with
    [parseInt] gives the integer again up to [2^53]. *)
Lemma parseInt_number_to_string n :
  0 <= n <= 2 ^ 53 -> integer_value (parseInt_number (number_to_string n)) = Some n.
Proof.
  intros Hn. destruct (number_to_string_digits n ltac:(lia)) as (l & -> & Hne & Hv).
  unfold parseInt_number. rewrite (parseInt_digits l n Hne Hv).
  now apply integer_value_of_Z.
Qed.

(** The result of [parseInt] is a binary64 number: the first integer past
    [2^53] comes back as [2^53]. *)
Example parseInt_past_2_53 :
  integer_value (parseInt_number (number_to_string (2 ^ 53 + 1))) = Some (2 ^ 53).
Proof. vm_compute. reflexivity. Qed.

End JsNumber.
