(* ===== verification/Model.v ===== *)
(** * Model: the records the program stores

    The two AsyncStorage arrays hold teacher objects and booking objects;
    the booking form builds a booking payload (all the fields of a booking
    but [createdAt], and an [id] only when it edits).  JavaScript objects
    with a fixed set of fields are records here; a date field, stored as an
    ISO string by [toISOString], is the time value it denotes, since the
    program reads it back only through [new Date(...)].  [numStudents] is
    the result of [parseInt], a number or [NaN]; [NaN] is stored as [null]
    by [JSON.stringify], so the field is an [option Z]. *)

From Stdlib Require Import ZArith String.
From stdpp Require Import base strings.
From S2P Require Import Prelude.

(** JavaScript truthiness of a string field: [if (s)] holds for every
    string but the empty one. *)
Definition js_truthy (s : string) : bool := negb (String.eqb s "").

Module Teacher.
(** A stored teacher ([saveTeacher] adds [id] and [createdAt]). *)
Record teacher := mkTeacher {
  id : string;
  name : string;
  email : string;
  disciplina : string;
  phone : string;
  createdAt : Z
}.

(** The object [TeacherRegisterScreen.handleRegister] passes to
    [saveTeacher]. *)
Record input := mkInput {
  in_name : string;
  in_email : string;
  in_disciplina : string;
  in_phone : string
}.
End Teacher.

Module Booking.
(** A stored booking. *)
Record booking := mkBooking {
  id : string;
  teacherId : string;
  teacherName : string;
  teacherEmail : string;
  disciplina : string;
  className : string;
  activity : string;
  numStudents : option Z;
  date : Z;
  startTime : string;
  endTime : string;
  status : string;
  createdAt : Z
}.
End Booking.

Module BookingData.
(** The [bookingData] object of [BookingFormScreen.handleSubmit]: [id] is
    present only in edit mode. *)
Record payload := mkPayload {
  id : option string;
  teacherId : string;
  teacherName : string;
  teacherEmail : string;
  disciplina : string;
  className : string;
  activity : string;
  numStudents : option Z;
  date : Z;
  startTime : string;
  endTime : string;
  status : string
}.
End BookingData.

#[export] Instance teacher_eq_dec : EqDecision Teacher.teacher.
Proof. solve_decision. Defined.
#[export] Instance booking_eq_dec : EqDecision Booking.booking.
Proof. solve_decision. Defined.
#[export] Instance payload_eq_dec : EqDecision BookingData.payload.
Proof. solve_decision. Defined.
