(* ===== verification/Fixtures.v ===== *)
(** * Fixtures: concrete data for the witnesses and the scenarios

    Two teachers, a few bookings and clock readings in the local time of
    Brazil (UTC-3, [tz_br]), in June 2025: 2025-06-08 is a Sunday.  The
    time values are milliseconds since 1970-01-01T00:00:00Z. *)

From Stdlib Require Import ZArith String List.
From S2P Require Import Prelude Model.
Import ListNotations.

Open Scope Z_scope.
Open Scope string_scope.

Module Fixtures.

Definition tz_br : Z := -10800000.
Definition ms_hour : Z := 3600000.

(** Local wall-clock readings. *)
Definition sat_0607_1200 : Z := 1749308400000.
Definition sun_0608_0800 : Z := 1749380400000.
Definition mon_0609_0800 : Z := 1749466800000.
Definition mon_0609_1200 : Z := 1749481200000.
Definition tue_0610_0800 : Z := 1749553200000.
Definition tue_0610_1000 : Z := 1749560400000.
Definition tue_0610_1200 : Z := 1749567600000.
Definition wed_0611_0800 : Z := 1749639600000.
Definition thu_0612_0800 : Z := 1749726000000.
Definition wed_0618_0800 : Z := 1750244400000.

Definition teacher1 : Teacher.teacher :=
  Teacher.mkTeacher "1749300000000" "Ana Souza" "ana@escola.br" "Fisica" "" 1749300000000.
Definition teacher2 : Teacher.teacher :=
  Teacher.mkTeacher "1749300000500" "Bruno Lima" "bruno@escola.br" "Quimica" "" 1749300000500.

(** A stored booking of [teacher] at [d], in the period [st]-[et]. *)
Definition booking_at (id : string) (teacher : Teacher.teacher) (d : Z)
           (st et : string) : Booking.booking :=
  Booking.mkBooking id (Teacher.id teacher) (Teacher.name teacher) (Teacher.email teacher)
    (Teacher.disciplina teacher) "2o Ano A" "Experimento" (Some 10) d st et "confirmed"
    1749300001000.

(** Scenario A of the specification: teacher 1 holds 2025-06-10 08:00. *)
Definition bookingA : Booking.booking :=
  booking_at "1749400000000" teacher1 tue_0610_0800 "08:00" "08:50".

(** Scenario C: teacher 1 holds 2025-06-09 and 2025-06-11. *)
Definition bookingC1 : Booking.booking :=
  booking_at "1749400000001" teacher1 mon_0609_0800 "07:10" "08:00".
Definition bookingC2 : Booking.booking :=
  booking_at "1749400000002" teacher1 wed_0611_0800 "08:00" "08:50".

(** Scenario D: bookings 20 and 25 hours after 2025-06-10 12:00. *)
Definition bookingD20 : Booking.booking :=
  booking_at "1749400000003" teacher1 (tue_0610_1200 + 20 * ms_hour) "15:00" "15:50".
Definition bookingD25 : Booking.booking :=
  booking_at "1749400000004" teacher1 (tue_0610_1200 + 25 * ms_hour) "15:50" "16:40".

(** Booking payloads: an edit of [bookingC1] moving it to 13:00, and a
    new booking of teacher 2 on 2025-06-12. *)
Definition payload_edit : BookingData.payload :=
  BookingData.mkPayload (Some (Booking.id bookingC1)) (Teacher.id teacher1)
    (Teacher.name teacher1) (Teacher.email teacher1) (Teacher.disciplina teacher1)
    "2o Ano A" "Experimento" (Some 10) mon_0609_0800 "13:00" "13:50" "confirmed".
Definition payload_new : BookingData.payload :=
  BookingData.mkPayload None (Teacher.id teacher2)
    (Teacher.name teacher2) (Teacher.email teacher2) (Teacher.disciplina teacher2)
    "3o Ano B" "Titulacao" (Some 15) thu_0612_0800 "08:00" "08:50" "confirmed".

End Fixtures.
