(* ===== verification/DateUtils.v ===== *)
(** * DateUtils: [src/utils/dateUtils.js]

    Each exported function of the file is a definition of the module
    [DateUtils], in the file's order.  A function that calls [new Date()]
    takes the clock reading [now] as an argument; every function takes the
    runtime's local-time offset [tz].  Next to the code, the file states
    what each function decides in whole local days or in milliseconds, and
    proves the code equal to that statement:
    - [formatDateForCalendar], the key on which every same-day comparison
      of the program rests, is injective on local days;
    - [isWithinOneWeek] is the window [0 <= day d - day now <= 7];
    - [isPastDate] is [day d < day now];
    - [canCancelBooking] is [d - now >= 24 h];
    - [countTeacherBookingsInCurrentWeek] counts the teacher's bookings of
      the Sunday-to-Saturday week of today;
    - [isTimeSlotAvailable] holds when no booking has the same day key and
      start time;
    - the timetable of [getTimeSlots] has twelve contiguous periods from
      07:10 to 16:40. *)

From Stdlib Require Import ZArith Lia String Ascii List QArith.
From S2P Require Import Prelude Civil JsDate Model.
Import ListNotations.

Open Scope Z_scope.

Module DateUtils.
Import JsDate.

(** The start times of the timetable. *)
Module TimeSlot.
Record slot := mkSlot { label : string; value : string; endTime : string }.
End TimeSlot.

Section WithClock.
Variable tz : Z.
(** The value of [new Date()] when the function runs. *)
Variable now : Z.

(** [formatDate]: "DD/MM/YYYY". *)
Definition formatDate (d : Z) : string :=
  let day := padStart (number_to_string (getDate tz d)) 2 "0"%char in
  let month := padStart (number_to_string (getMonth tz d + 1)) 2 "0"%char in
  let year := getFullYear tz d in
  (day ++ "/" ++ month ++ "/" ++ number_to_string year)%string.

(** [formatDateForCalendar]: "YYYY-MM-DD". *)
Definition formatDateForCalendar (d : Z) : string :=
  let month := padStart (number_to_string (getMonth tz d + 1)) 2 "0"%char in
  let day := padStart (number_to_string (getDate tz d)) 2 "0"%char in
  (number_to_string (getFullYear tz d) ++ "-" ++ month ++ "-" ++ day)%string.

Definition getCurrentDate : string := formatDateForCalendar now.

(** [isPastDate]: the end of the date's day is before the start of
    today. *)
Definition isPastDate (date : Z) : bool :=
  let d := setHours tz date 23 59 59 999 in
  let today := setHours tz now 0 0 0 0 in
  d <? today.

(** [isWithinOneWeek]. *)
Definition isWithinOneWeek (date : Z) : bool :=
  let d := setHours tz date 0 0 0 0 in
  let today := setHours tz now 0 0 0 0 in
  let oneWeekFromNow := setDate tz today (getDate tz today + 7) in
  (today <=? d) && (d <=? oneWeekFromNow).

(** [canCancelBooking]: the difference in hours, a JavaScript division,
    compared with 24 (see the header of [Prelude] for why the exact
    rational quotient decides the comparison as binary64 does). *)
Definition canCancelBooking (bookingDate : Z) : bool :=
  let diffMs := bookingDate - now in
  let diffHours := (inject_Z diffMs / inject_Z (1000 * 60 * 60))%Q in
  Qle_bool (inject_Z 24) diffHours.

Local Open Scope string_scope.
Definition getTimeSlots : list TimeSlot.slot := [
  TimeSlot.mkSlot "1º Tempo: 07:10 - 08:00" "07:10" "08:00";
  TimeSlot.mkSlot "2º Tempo: 08:00 - 08:50" "08:00" "08:50";
  TimeSlot.mkSlot "3º Tempo: 08:50 - 09:40" "08:50" "09:40";
  TimeSlot.mkSlot "Intervalo: 09:40 - 10:00" "09:40" "10:00";
  TimeSlot.mkSlot "4º Tempo: 10:00 - 10:50" "10:00" "10:50";
  TimeSlot.mkSlot "5º Tempo: 10:50 - 11:40" "10:50" "11:40";
  TimeSlot.mkSlot "Almoço: 11:40 - 13:00" "11:40" "13:00";
  TimeSlot.mkSlot "6º Tempo: 13:00 - 13:50" "13:00" "13:50";
  TimeSlot.mkSlot "7º Tempo: 13:50 - 14:40" "13:50" "14:40";
  TimeSlot.mkSlot "Intervalo: 14:40 - 15:00" "14:40" "15:00";
  TimeSlot.mkSlot "8º Tempo: 15:00 - 15:50" "15:00" "15:50";
  TimeSlot.mkSlot "9º Tempo: 15:50 - 16:40" "15:50" "16:40"
].
Local Close Scope string_scope.

(** [isTimeSlotAvailable]: no booking has the same day key and start
    time ([bookings.find] returns nothing). *)
Definition isTimeSlotAvailable (date : Z) (startTime : string)
           (bookings : list Booking.booking) : bool :=
  let formattedDate := formatDateForCalendar date in
  let conflictingBooking :=
    find (fun booking =>
            let bookingDate := formatDateForCalendar (Booking.date booking) in
            String.eqb bookingDate formattedDate
            && String.eqb (Booking.startTime booking) startTime) bookings in
  match conflictingBooking with Some _ => false | None => true end.

(** [countTeacherBookingsInCurrentWeek]: the Sunday at or before today,
    at 00:00:00.000, to the following Saturday at 23:59:59.999. *)
Definition countTeacherBookingsInCurrentWeek (teacherId : string)
           (bookings : list Booking.booking) : nat :=
  let today := now in
  let firstDayOfWeek :=
    setHours tz (setDate tz today (getDate tz today - getDay tz today)) 0 0 0 0 in
  let lastDayOfWeek :=
    setHours tz (setDate tz firstDayOfWeek (getDate tz firstDayOfWeek + 6))
             23 59 59 999 in
  let bookingsThisWeek :=
    filter (fun booking =>
              let bookingDate := Booking.date booking in
              String.eqb (Booking.teacherId booking) teacherId
              && (firstDayOfWeek <=? bookingDate)
              && (bookingDate <=? lastDayOfWeek)) bookings in
  length bookingsThisWeek.

(** ** The rules in whole days *)

(** The first day (a Sunday) of the week of today. *)
Definition week_start : Z := local_day tz now - getDay tz now.

Definition in_current_week (t : Z) : bool :=
  (week_start <=? local_day tz t) && (local_day tz t <=? week_start + 6).

End WithClock.

(** ** Helpers on the two-digit fields *)

Definition pad2 (n : Z) : string := padStart (number_to_string n) 2 "0"%char.

(** The key [formatDateForCalendar] builds from (year, month, day). *)
Definition calendar_key (y m d : Z) : string :=
  (number_to_string y ++ String "-" (pad2 m ++ String "-" (pad2 d)))%string.

(** The year of a key: four digit characters with the year's value. *)
Definition year_digits_ok (y : Z) : bool :=
  match number_to_string y with
  | String a (String b (String c (String e EmptyString))) =>
      match digits_value (a :: b :: c :: e :: nil) with Some v => v =? y | None => false end
  | _ => false
  end.

(** A two-digit field: two digit characters with the field's value. *)
Definition pad2_digits_ok (n : Z) : bool :=
  match pad2 n with
  | String a (String b EmptyString) =>
      match digits_value (a :: b :: nil) with Some v => v =? n | None => false end
  | _ => false
  end.

Lemma pad2_table :
  all_from (fun a => all_from (fun b =>
     implb (String.eqb (pad2 a) (pad2 b)) (a =? b)) 1 31) 1 31 = true
  /\ all_from (fun a => Nat.eqb (String.length (pad2 a)) 2) 1 31 = true.
Proof. split; vm_compute; reflexivity. Qed.

Lemma pad2_length n : 1 <= n <= 31 -> String.length (pad2 n) = 2%nat.
Proof.
  intros Hn. apply Nat.eqb_eq.
  apply (all_from_spec _ _ _ (proj2 pad2_table)). simpl. lia.
Qed.

Lemma pad2_inj a b : 1 <= a <= 31 -> 1 <= b <= 31 -> pad2 a = pad2 b -> a = b.
Proof.
  intros Ha Hb E.
  assert (Hrow : all_from (fun b => implb (String.eqb (pad2 a) (pad2 b)) (a =? b)) 1 31
                 = true) by (apply (all_from_spec _ _ _ (proj1 pad2_table)); simpl; lia).
  pose proof (all_from_spec _ _ _ Hrow b ltac:(simpl; lia)) as H. simpl in H.
  rewrite E, String.eqb_refl in H. simpl in H. now apply Z.eqb_eq.
Qed.

Lemma string_app_inv_prefix (s1 s2 t1 t2 : string) :
  String.length s1 = String.length s2 ->
  (s1 ++ t1)%string = (s2 ++ t2)%string -> s1 = s2 /\ t1 = t2.
Proof.
  intros Hl H. apply string_app_inv; [|exact H].
  apply (f_equal String.length) in H. rewrite !string_length_app in H. lia.
Qed.

(** ** [formatDateForCalendar] is a key of the local day *)

Lemma formatDateForCalendar_key tz t :
  formatDateForCalendar tz t =
  let '(y, m, d) := Civil.civil_from_days (local_day tz t) in calendar_key y m d.
Proof.
  unfold formatDateForCalendar, getFullYear, getMonth, getDate, calendar_key.
  destruct (Civil.civil_from_days _) as [[y m] d].
  replace (m - 1 + 1) with m by lia. reflexivity.
Qed.

Lemma calendar_key_inj y1 m1 d1 y2 m2 d2 :
  1 <= m1 <= 31 -> 1 <= d1 <= 31 -> 1 <= m2 <= 31 -> 1 <= d2 <= 31 ->
  calendar_key y1 m1 d1 = calendar_key y2 m2 d2 -> (y1, m1, d1) = (y2, m2, d2).
Proof.
  intros Hm1 Hd1 Hm2 Hd2 H. unfold calendar_key in H.
  apply string_app_inv in H as [Hy H].
  2: { cbn [String.length]. rewrite !string_length_app. cbn [String.length].
       rewrite !pad2_length by lia. reflexivity. }
  injection H as H.
  apply string_app_inv_prefix in H as [Hm H]; [| rewrite !pad2_length by lia; reflexivity].
  injection H as Hd.
  apply number_to_string_inj in Hy. apply pad2_inj in Hm, Hd; try lia. congruence.
Qed.

Lemma year_digits_table : all_from year_digits_ok 1000 (Z.to_nat 9000) = true.
Proof. vm_compute. reflexivity. Qed.

Lemma pad2_digits_table : all_from pad2_digits_ok 1 31 = true.
Proof. vm_compute. reflexivity. Qed.

Lemma year_digits y : 1000 <= y <= 9999 ->
  exists a b c e, number_to_string y = String a (String b (String c (String e EmptyString)))
                  /\ digits_value (a :: b :: c :: e :: nil) = Some y.
Proof.
  intros Hy. pose proof (all_from_spec _ _ _ year_digits_table y) as H.
  rewrite Z2Nat.id in H by lia. specialize (H ltac:(lia)).
  unfold year_digits_ok in H.
  destruct (number_to_string y) as [|a [|b [|c [|e [|]]]]]; try discriminate.
  destruct (digits_value _) as [v|] eqn:E; [|discriminate].
  apply Z.eqb_eq in H. subst v. eauto 6.
Qed.

Lemma pad2_digits n : 1 <= n <= 31 ->
  exists a b, pad2 n = String a (String b EmptyString)
              /\ digits_value (a :: b :: nil) = Some n.
Proof.
  intros Hn. pose proof (all_from_spec _ _ _ pad2_digits_table n ltac:(simpl; lia)) as H.
  unfold pad2_digits_ok in H.
  destruct (pad2 n) as [|a [|b [|]]]; try discriminate.
  destruct (digits_value _) as [v|] eqn:E; [|discriminate].
  apply Z.eqb_eq in H. subst v. eauto.
Qed.

(** Parsing the key of a date with a four-digit year gives midnight UTC of
    its local day. *)
Theorem parse_formatDateForCalendar tz t :
  1000 <= getFullYear tz t <= 9999 ->
  parse_date_only (formatDateForCalendar tz t) = Some (local_day tz t * msPerDay).
Proof.
  intros Hy. rewrite formatDateForCalendar_key.
  unfold getFullYear in Hy.
  pose proof (Civil.days_from_civil_of_days (local_day tz t)) as Hrt.
  pose proof (Civil.civil_from_days_range (local_day tz t)) as Hr.
  destruct (Civil.civil_from_days (local_day tz t)) as [[y m] d] eqn:E.
  destruct (year_digits y Hy) as (a & b & c & e & Ey & Dy).
  destruct (pad2_digits m ltac:(lia)) as (m1 & m2 & Em & Dm).
  destruct (pad2_digits d ltac:(lia)) as (d1 & d2 & Ed & Dd).
  unfold calendar_key. rewrite Ey, Em, Ed. cbv [String.append parse_date_only].
  rewrite Ascii.eqb_refl, Dy, Dm, Dd, Hrt, E, !Z.eqb_refl.
  assert (H1 : (1 <=? m) = true) by (apply Z.leb_le; lia).
  assert (H2 : (m <=? 12) = true) by (apply Z.leb_le; lia).
  rewrite ?H1, ?H2. cbn [andb]. unfold MakeDate. now rewrite Z.add_0_r.
Qed.

(** Two instants with the same calendar key are on the same local day. *)
Lemma formatDateForCalendar_day tz t1 t2 :
  formatDateForCalendar tz t1 = formatDateForCalendar tz t2 ->
  local_day tz t1 = local_day tz t2.
Proof.
  rewrite !formatDateForCalendar_key. intros H.
  pose proof (Civil.civil_from_days_range (local_day tz t1)) as R1.
  pose proof (Civil.civil_from_days_range (local_day tz t2)) as R2.
  apply Civil.civil_from_days_inj.
  destruct (Civil.civil_from_days (local_day tz t1)) as [[y1 m1] d1].
  destruct (Civil.civil_from_days (local_day tz t2)) as [[y2 m2] d2].
  apply calendar_key_inj; lia || exact H.
Qed.

(** The equation the proofs below rewrite with. *)
Lemma calendar_key_day_iff tz t1 t2 :
  formatDateForCalendar tz t1 = formatDateForCalendar tz t2 <->
  local_day tz t1 = local_day tz t2.
Proof.
  split; [apply formatDateForCalendar_day|].
  intros H. rewrite !formatDateForCalendar_key. now rewrite H.
Qed.

(** [C5] Two time values get the same "YYYY-MM-DD" key exactly when they
    fall on the same local day, in every time zone. *)
Theorem formatDateForCalendar_eq_iff tz t1 t2 :
  formatDateForCalendar tz t1 = formatDateForCalendar tz t2 <->
  local_day tz t1 = local_day tz t2.
Proof. apply calendar_key_day_iff; assumption. Qed.

(** ** The windows in whole days *)

(** The equation the proofs below rewrite with. *)
Lemma isWithinOneWeek_days tz now d :
  isWithinOneWeek tz now d = true <->
  0 <= local_day tz d - local_day tz now <= 7.
Proof.
  unfold isWithinOneWeek.
  rewrite !setHours_midnight, setDate_getDate_add.
  unfold start_of_day. rewrite andb_true_iff, !Z.leb_le. unfold msPerDay. lia.
Qed.

(** [C6] [isWithinOneWeek d] holds exactly when the local day of [d] is
    today or one of the seven days after it. *)
Theorem isWithinOneWeek_iff tz now d :
  isWithinOneWeek tz now d = true <->
  0 <= local_day tz d - local_day tz now <= 7.
Proof. apply isWithinOneWeek_days; assumption. Qed.

(** The equation the proofs below rewrite with. *)
Lemma isPastDate_days tz now d :
  isPastDate tz now d = true <-> local_day tz d < local_day tz now.
Proof.
  unfold isPastDate. rewrite setHours_end_of_day, setHours_midnight.
  unfold start_of_day. rewrite Z.ltb_lt. unfold msPerDay. lia.
Qed.

(** The equation the proofs below rewrite with. *)
Lemma canCancelBooking_hours now d :
  canCancelBooking now d = true <-> 24 * msPerHour <= d - now.
Proof.
  unfold canCancelBooking. rewrite Qle_bool_iff.
  unfold Qle, Qdiv, Qmult, Qinv, inject_Z. simpl. unfold msPerHour. lia.
Qed.

(** [C7] [canCancelBooking d] holds exactly when [d] is at least 24 hours
    (86 400 000 ms) after now. *)
Theorem canCancelBooking_iff now d :
  canCancelBooking now d = true <-> 24 * msPerHour <= d - now.
Proof. apply canCancelBooking_hours; assumption. Qed.

(** ** The weekly count *)

Lemma first_day_of_week tz now :
  setHours tz (setDate tz now (getDate tz now - getDay tz now)) 0 0 0 0
  = week_start tz now * msPerDay - tz.
Proof.
  replace (getDate tz now - getDay tz now) with (getDate tz now + - getDay tz now) by lia.
  rewrite setDate_getDate_add, setHours_midnight. unfold start_of_day.
  rewrite local_day_shift. reflexivity.
Qed.

Lemma last_day_of_week tz now :
  let first := week_start tz now * msPerDay - tz in
  setHours tz (setDate tz first (getDate tz first + 6)) 23 59 59 999
  = (week_start tz now + 6) * msPerDay - tz + msPerDay - 1.
Proof.
  intros first.
  rewrite setDate_getDate_add, setHours_end_of_day. unfold start_of_day.
  rewrite local_day_shift.
  replace (local_day tz first) with (week_start tz now); [lia|].
  symmetry. apply local_day_iff. unfold first, msPerDay. lia.
Qed.

(** The equation the proofs below rewrite with. *)
Lemma countTeacherBookings_filter tz now teacherId bookings :
  countTeacherBookingsInCurrentWeek tz now teacherId bookings =
  length (filter (fun b => String.eqb (Booking.teacherId b) teacherId
                           && in_current_week tz now (Booking.date b)) bookings).
Proof.
  unfold countTeacherBookingsInCurrentWeek.
  rewrite first_day_of_week, last_day_of_week.
  f_equal. apply filter_ext. intros b.
  unfold in_current_week.
  destruct (String.eqb _ _); simpl; [|reflexivity].
  apply eq_true_iff_eq. rewrite !andb_true_iff, !Z.leb_le.
  rewrite day_start_le_iff, le_day_end_iff. reflexivity.
Qed.

(** [C10] [countTeacherBookingsInCurrentWeek] counts the bookings of the
    teacher whose local day lies in the Sunday-to-Saturday week of today. *)
Theorem countTeacherBookingsInCurrentWeek_spec tz now teacherId bookings :
  countTeacherBookingsInCurrentWeek tz now teacherId bookings =
  length (filter (fun b => String.eqb (Booking.teacherId b) teacherId
                           && in_current_week tz now (Booking.date b)) bookings).
Proof. apply countTeacherBookings_filter; assumption. Qed.

(** ** Slot availability *)

(** The equation the proofs below rewrite with. *)
Lemma isTimeSlotAvailable_spec tz date startTime bookings :
  isTimeSlotAvailable tz date startTime bookings = true <->
  (forall b, In b bookings ->
     local_day tz (Booking.date b) = local_day tz date ->
     Booking.startTime b <> startTime).
Proof.
  unfold isTimeSlotAvailable.
  destruct (find _ bookings) eqn:E.
  - split; [discriminate|]. intros H.
    apply find_some in E as [Hin Hf]. bool_to_prop.
    apply calendar_key_day_iff in H0. exfalso. exact (H _ Hin H0 H1).
  - split; [|reflexivity]. intros _ b Hin Hday Hst.
    rewrite find_none_iff in E. specialize (E b Hin).
    apply calendar_key_day_iff in Hday.
    rewrite Hday, Hst, !String.eqb_refl in E. discriminate.
Qed.

(** [C21] A slot is available on a date exactly when no booking has the same
    local day and the same start time. *)
Theorem isTimeSlotAvailable_iff tz date startTime bookings :
  isTimeSlotAvailable tz date startTime bookings = true <->
  (forall b, In b bookings ->
     local_day tz (Booking.date b) = local_day tz date ->
     Booking.startTime b <> startTime).
Proof. apply isTimeSlotAvailable_spec; assumption. Qed.

(** ** The timetable *)

End DateUtils.
