(* ===== verification/Store.v ===== *)
(** * Store: [src/utils/asyncStorage.js]

    AsyncStorage is a key-value store of strings; the program keeps three
    keys, each holding a JSON value or nothing.  The state [storage] has
    one field per key, holding the decoded value ([None] when the key was
    never written), and a list of fault flags: each AsyncStorage call takes
    the next flag and throws when it is [true] (an empty list means no
    more faults).  Every exported function of the file is a computation of
    the state-and-exception monad of [Prelude], written as the code is:
    read the whole array, transform it, write it back, with the code's
    [try]/[catch] (getters swallow errors and return a default, writers
    re-throw).  The theorems give the effect of each writer on the
    bookings when no call fails, and what a failed read does to them. *)

From Stdlib Require Import ZArith Lia String List.
From S2P Require Import Prelude JsDate Model Fixtures.
Import ListNotations.

Open Scope Z_scope.
Open Scope agenda_scope.

Module Store.

(** The error a failed AsyncStorage call throws. *)
Inductive js_error := StorageError.

Record storage := mkStorage {
  st_teachers : option (list Teacher.teacher);
  st_bookings : option (list Booking.booking);
  st_current : option Teacher.teacher;
  st_faults : list bool
}.

Definition M (A : Type) := st storage js_error A.

(** ** AsyncStorage *)

(** The next fault flag. *)
Definition next_fault : M bool :=
  fun s => match st_faults s with
           | [] => (inl false, s)
           | f :: fs => (inl f, mkStorage (st_teachers s) (st_bookings s) (st_current s) fs)
           end.

Definition getItem_bookings : M (option (list Booking.booking)) :=
  f <- next_fault ;;
  if f then throw StorageError else s <- get ;; ret (st_bookings s).

Definition setItem_bookings (l : list Booking.booking) : M unit :=
  f <- next_fault ;;
  if f then throw StorageError
  else s <- get ;; put (mkStorage (st_teachers s) (Some l) (st_current s) (st_faults s)).

Definition getItem_teachers : M (option (list Teacher.teacher)) :=
  f <- next_fault ;;
  if f then throw StorageError else s <- get ;; ret (st_teachers s).

Definition setItem_teachers (l : list Teacher.teacher) : M unit :=
  f <- next_fault ;;
  if f then throw StorageError
  else s <- get ;; put (mkStorage (Some l) (st_bookings s) (st_current s) (st_faults s)).

Definition getItem_current : M (option Teacher.teacher) :=
  f <- next_fault ;;
  if f then throw StorageError else s <- get ;; ret (st_current s).

Definition setItem_current (t : Teacher.teacher) : M unit :=
  f <- next_fault ;;
  if f then throw StorageError
  else s <- get ;; put (mkStorage (st_teachers s) (st_bookings s) (Some t) (st_faults s)).

Definition clear : M unit :=
  f <- next_fault ;;
  if f then throw StorageError
  else s <- get ;; put (mkStorage None None None (st_faults s)).

(** [catch (error) { console.error(...); throw error; }] *)
Definition rethrow {A} (e : js_error) : M A := throw e.

(** ** Teachers *)

(** [{ ...t, ...teacher }]: the input's fields over the stored ones. *)
Definition merge_teacher (t : Teacher.teacher) (teacher : Teacher.input) : Teacher.teacher :=
  Teacher.mkTeacher (Teacher.id t) (Teacher.in_name teacher) (Teacher.in_email teacher)
    (Teacher.in_disciplina teacher) (Teacher.in_phone teacher) (Teacher.createdAt t).

Definition getTeachers : M (list Teacher.teacher) :=
  catch (teachersData <- getItem_teachers ;;
         ret (match teachersData with Some l => l | None => [] end))
        (fun _ => ret []).

(** [saveTeacher]: upsert by email; [now] is the clock reading of
    [Date.now()] and [new Date()]. *)
Definition saveTeacher (now : Z) (teacher : Teacher.input) : M Teacher.teacher :=
  catch (
    existingTeachers <- getTeachers ;;
    let teacherExists :=
      find (fun t => String.eqb (Teacher.email t) (Teacher.in_email teacher))
           existingTeachers in
    match teacherExists with
    | Some te =>
        let updatedTeachers :=
          map (fun t => if String.eqb (Teacher.email t) (Teacher.in_email teacher)
                        then merge_teacher t teacher else t) existingTeachers in
        _ <- setItem_teachers updatedTeachers ;;
        ret (merge_teacher te teacher)
    | None =>
        let newTeacher :=
          Teacher.mkTeacher (JsDate.number_to_string now) (Teacher.in_name teacher)
            (Teacher.in_email teacher) (Teacher.in_disciplina teacher)
            (Teacher.in_phone teacher) now in
        _ <- setItem_teachers (existingTeachers ++ [newTeacher]) ;;
        ret newTeacher
    end) rethrow.

Definition getTeacherById (id : string) : M (option Teacher.teacher) :=
  catch (teachers <- getTeachers ;;
         ret (find (fun teacher => String.eqb (Teacher.id teacher) id) teachers))
        (fun _ => ret None).

Definition setCurrentTeacher (teacher : Teacher.teacher) : M unit :=
  catch (setItem_current teacher) (fun _ => ret tt).

Definition getCurrentTeacher : M (option Teacher.teacher) :=
  catch getItem_current (fun _ => ret None).

(** ** Bookings *)

(** What [saveBooking] returns: the payload when it updates, the new
    record when it creates. *)
Inductive saved :=
| Updated (p : BookingData.payload)
| Created (b : Booking.booking).

(** [{ ...b, ...booking }]: the payload's fields over the stored record;
    only [createdAt] survives from the stored one. *)
Definition merge_booking (b : Booking.booking) (booking : BookingData.payload)
  : Booking.booking :=
  Booking.mkBooking
    (match BookingData.id booking with Some i => i | None => Booking.id b end)
    (BookingData.teacherId booking) (BookingData.teacherName booking)
    (BookingData.teacherEmail booking) (BookingData.disciplina booking)
    (BookingData.className booking) (BookingData.activity booking)
    (BookingData.numStudents booking) (BookingData.date booking)
    (BookingData.startTime booking) (BookingData.endTime booking)
    (BookingData.status booking) (Booking.createdAt b).

(** [{ ...booking, id: Date.now().toString(), createdAt: ... }] *)
Definition new_booking (now : Z) (booking : BookingData.payload) : Booking.booking :=
  Booking.mkBooking (JsDate.number_to_string now)
    (BookingData.teacherId booking) (BookingData.teacherName booking)
    (BookingData.teacherEmail booking) (BookingData.disciplina booking)
    (BookingData.className booking) (BookingData.activity booking)
    (BookingData.numStudents booking) (BookingData.date booking)
    (BookingData.startTime booking) (BookingData.endTime booking)
    (BookingData.status booking) now.

Definition getBookings : M (list Booking.booking) :=
  catch (bookingsData <- getItem_bookings ;;
         ret (match bookingsData with Some l => l | None => [] end))
        (fun _ => ret []).

(** The update branch of [saveBooking]: every record with the id. *)
Definition update_bookings (i : string) (booking : BookingData.payload)
           (existingBookings : list Booking.booking) : list Booking.booking :=
  map (fun b => if String.eqb (Booking.id b) i then merge_booking b booking else b)
      existingBookings.

(** [saveBooking]: update when the payload has a truthy [id], append a new
    record otherwise. *)
Definition saveBooking (now : Z) (booking : BookingData.payload) : M saved :=
  catch (
    existingBookings <- getBookings ;;
    match BookingData.id booking with
    | Some i =>
        if js_truthy i then
          _ <- setItem_bookings (update_bookings i booking existingBookings) ;;
          ret (Updated booking)
        else
          let newBooking := new_booking now booking in
          _ <- setItem_bookings (existingBookings ++ [newBooking]) ;;
          ret (Created newBooking)
    | None =>
        let newBooking := new_booking now booking in
        _ <- setItem_bookings (existingBookings ++ [newBooking]) ;;
        ret (Created newBooking)
    end) rethrow.

Definition getBookingById (id : string) : M (option Booking.booking) :=
  catch (bookings <- getBookings ;;
         ret (find (fun booking => String.eqb (Booking.id booking) id) bookings))
        (fun _ => ret None).

Definition getBookingsByTeacher (teacherId : string) : M (list Booking.booking) :=
  catch (bookings <- getBookings ;;
         ret (filter (fun booking => String.eqb (Booking.teacherId booking) teacherId)
                     bookings))
        (fun _ => ret []).

Definition deleteBooking (id : string) : M unit :=
  catch (
    bookings <- getBookings ;;
    let updatedBookings :=
      filter (fun booking => negb (String.eqb (Booking.id booking) id)) bookings in
    setItem_bookings updatedBookings) rethrow.

Definition clearAllData : M unit := catch clear (fun _ => ret tt).

(** The bookings a state holds ([getBookings] on a state without faults). *)
Definition bookings_of (s : storage) : list Booking.booking :=
  match st_bookings s with Some l => l | None => [] end.

Definition with_bookings (s : storage) (l : list Booking.booking) : storage :=
  mkStorage (st_teachers s) (Some l) (st_current s) (st_faults s).

(** The store of scenario C, with the given faults. *)
Definition storeC (faults : list bool) : storage :=
  mkStorage None (Some [Fixtures.bookingC1; Fixtures.bookingC2]) None faults.

(** Unfold the monad and the AsyncStorage calls on a state whose fault
    list is known. *)
Ltac run_store :=
  cbv [saveBooking deleteBooking getBookings getBookingById getBookingsByTeacher
       saveTeacher getTeachers getTeacherById setCurrentTeacher getCurrentTeacher
       getItem_bookings setItem_bookings getItem_teachers setItem_teachers
       getItem_current setItem_current next_fault rethrow
       catch bind ret get put throw];
  cbn [st_teachers st_bookings st_current st_faults].

(** ** Reading *)

Lemma getBookings_nofault s :
  st_faults s = [] -> getBookings s = (inl (bookings_of s), s).
Proof. destruct s as [t b c f]; simpl; intros ->. reflexivity. Qed.

(** A failed read is swallowed: [getBookings] returns an empty list. *)
Lemma getBookings_fault s fs :
  st_faults s = true :: fs ->
  getBookings s = (inl [], mkStorage (st_teachers s) (st_bookings s) (st_current s) fs).
Proof. destruct s as [t b c f]; simpl; intros ->. reflexivity. Qed.

(** ** Writing, when no call fails *)

(** The equation the proofs below rewrite with. *)
Lemma saveBooking_update_eqn now p i s :
  st_faults s = [] -> BookingData.id p = Some i -> js_truthy i = true ->
  saveBooking now p s
  = (inl (Updated p), with_bookings s (update_bookings i p (bookings_of s))).
Proof.
  destruct s as [t b c f]; simpl; intros -> Hid Ht.
  run_store. rewrite Hid, Ht. reflexivity.
Qed.

(** With a truthy [id], [saveBooking] replaces every stored record
    with that id by the payload (keeping its [createdAt]) and returns the
    payload. *)
Theorem saveBooking_update now p i s :
  st_faults s = [] -> BookingData.id p = Some i -> js_truthy i = true ->
  saveBooking now p s
  = (inl (Updated p), with_bookings s (update_bookings i p (bookings_of s))).
Proof. apply saveBooking_update_eqn; assumption. Qed.

Lemma saveBooking_update_witness :
  st_faults (storeC []) = []
  /\ BookingData.id Fixtures.payload_edit = Some (Booking.id Fixtures.bookingC1)
  /\ js_truthy (Booking.id Fixtures.bookingC1) = true
  /\ map Booking.startTime
       (bookings_of (snd (saveBooking Fixtures.tue_0610_1200 Fixtures.payload_edit (storeC []))))
     = ["13:00"; "08:00"]%string.
Proof.
  assert (H1 : st_faults (storeC []) = []) by reflexivity.
  assert (H2 : BookingData.id Fixtures.payload_edit = Some (Booking.id Fixtures.bookingC1))
    by reflexivity.
  assert (H3 : js_truthy (Booking.id Fixtures.bookingC1) = true) by reflexivity.
  split; [exact H1|]. split; [exact H2|]. split; [exact H3|].
  rewrite (saveBooking_update _ _ _ _ H1 H2 H3). reflexivity.
Defined.

(** The equation the proofs below rewrite with. *)
Lemma saveBooking_create_eqn now p s :
  st_faults s = [] ->
  (forall i, BookingData.id p = Some i -> js_truthy i = false) ->
  saveBooking now p s
  = (inl (Created (new_booking now p)),
     with_bookings s (bookings_of s ++ [new_booking now p])).
Proof.
  destruct s as [t b c f]; simpl; intros -> Hid.
  run_store. destruct (BookingData.id p) as [i|]; [rewrite (Hid i eq_refl)|]; reflexivity.
Qed.

(** Without a truthy id, [saveBooking] appends one new record whose
    id is the decimal clock reading. *)
Theorem saveBooking_create now p s :
  st_faults s = [] ->
  (forall i, BookingData.id p = Some i -> js_truthy i = false) ->
  saveBooking now p s
  = (inl (Created (new_booking now p)),
     with_bookings s (bookings_of s ++ [new_booking now p])).
Proof. apply saveBooking_create_eqn; assumption. Qed.

Lemma saveBooking_create_witness :
  st_faults (storeC []) = []
  /\ (forall i, BookingData.id Fixtures.payload_new = Some i -> js_truthy i = false)
  /\ length (bookings_of (snd (saveBooking Fixtures.tue_0610_1200 Fixtures.payload_new
                                 (storeC [])))) = 3%nat.
Proof.
  assert (H1 : st_faults (storeC []) = []) by reflexivity.
  assert (H2 : forall i, BookingData.id Fixtures.payload_new = Some i -> js_truthy i = false)
    by discriminate.
  split; [exact H1|]. split; [exact H2|].
  rewrite (saveBooking_create _ _ _ H1 H2). reflexivity.
Defined.

(** The equation the proofs below rewrite with. *)
Lemma deleteBooking_eqn i s :
  st_faults s = [] ->
  deleteBooking i s
  = (inl tt, with_bookings s
               (filter (fun b => negb (String.eqb (Booking.id b) i)) (bookings_of s))).
Proof. destruct s as [t b c f]; simpl; intros ->. reflexivity. Qed.

Lemma merge_booking_id b p i :
  BookingData.id p = Some i -> Booking.id (merge_booking b p) = i.
Proof. intros H. unfold merge_booking. now rewrite H. Qed.

Lemma bookings_of_with s l : bookings_of (with_bookings s l) = l.
Proof. reflexivity. Qed.

(** The decimal clock reading that becomes a new id is never empty. *)
Lemma number_to_string_truthy z : js_truthy (JsDate.number_to_string z) = true.
Proof.
  unfold js_truthy, JsDate.number_to_string.
  destruct z as [|p|p]; simpl; [reflexivity| |reflexivity].
  destruct (Pos.to_uint p); reflexivity.
Qed.

(** ** A failed read *)

(** [C17] When the read of [saveBooking] fails and the write succeeds, the
    stored bookings are replaced by the one new record: every earlier
    booking is lost. *)
Theorem saveBooking_read_fault_loses_bookings now p s :
  st_faults s = [true] -> BookingData.id p = None ->
  bookings_of (snd (saveBooking now p s)) = [new_booking now p].
Proof.
  destruct s as [t b c f]; simpl; intros -> Hid.
  run_store. rewrite Hid. reflexivity.
Qed.

Lemma saveBooking_read_fault_loses_bookings_witness :
  st_faults (storeC [true]) = [true]
  /\ BookingData.id Fixtures.payload_new = None
  /\ bookings_of (snd (saveBooking Fixtures.tue_0610_1200 Fixtures.payload_new (storeC [true])))
     = [new_booking Fixtures.tue_0610_1200 Fixtures.payload_new].
Proof.
  assert (H1 : st_faults (storeC [true]) = [true]) by reflexivity.
  assert (H2 : BookingData.id Fixtures.payload_new = None) by reflexivity.
  split; [exact H1|]. split; [exact H2|].
  exact (saveBooking_read_fault_loses_bookings _ _ _ H1 H2).
Defined.

End Store.
