(* ===== verification/BookingForm.v ===== *)
(** * BookingForm: the rule engine of [src/screens/BookingFormScreen.js]

    The screen loads a snapshot of every booking when it opens
    ([loadData]), and in edit mode the booking being edited.  On submit,
    [checkBookingConflicts] applies the weekly quota (new bookings only)
    and the double-booking rule (same "YYYY-MM-DD" key and same start time,
    the edited booking excluded) to that snapshot, and [handleSubmit]
    persists the payload through [Store.saveBooking].  [handleDelete]
    applies the 24-hour rule before [Store.deleteBooking], and
    [handleDateChange] the one-week window to a date chosen in the picker.
    Formik runs [handleSubmit] only on values the Yup [validationSchema]
    accepts ([submitForm]); the number of students is checked as a
    binary64 number read by [Number()] and stored as [parseInt] of the
    same text.

    The screen's state is the record [form]; the Formik values are the
    record [values]; the alerts and navigation are the outcomes
    [submit_outcome], [delete_outcome] and [date_change].  The abstract
    rule of the specification is [validate] (window, quota, conflict, in
    that order); the theorems relate the code to it, show what each
    handler does on each branch, and prove that a submission made from an
    up-to-date snapshot keeps the store free of double bookings. *)

From Stdlib Require Import ZArith Lia Bool Ascii String List SpecFloat.
From S2P Require Import Prelude Civil JsDate JsNumber Model Fixtures DateUtils Store.
Import ListNotations.

Open Scope Z_scope.
Open Scope agenda_scope.

Module BookingForm.
Import JsDate JsNumber DateUtils Store.

(** The screen's state once [loadData] has run. *)
Record form := mkForm {
  teacher : Teacher.teacher;
  allBookings : list Booking.booking;
  (** [booking] with [isEditMode]: the booking being edited. *)
  editing : option Booking.booking
}.

Definition isEditMode (f : form) : bool :=
  match editing f with Some _ => true | None => false end.

(** The Formik values at submission. *)
Record values := mkValues {
  className : string;
  activity : string;
  numStudents : string;
  date : Z;
  startTime : string;
  endTime : string
}.

(** The two messages of [checkBookingConflicts]. *)
Inductive conflict :=
| QuotaReached   (* "Você já atingiu o limite de 2 agendamentos por semana" *)
| SlotTaken.     (* "Este horário já está reservado" *)

Inductive submit_outcome :=
| Rejected (c : conflict)   (* Alert "Não é possível agendar" *)
| Submitted                 (* Alert "Agendamento realizado/atualizado" *)
| SaveFailed.               (* Alert "Erro" *)

Inductive delete_outcome :=
| NoBooking                 (* [if (!booking || !booking.id) return;] *)
| CancelRefused             (* Alert "Não é possível cancelar" *)
| KeptBooking               (* the user answered "Não" *)
| Cancelled                 (* Alert "Agendamento cancelado" *)
| DeleteFailed.             (* Alert "Erro" *)

Inductive date_change :=
| DateKept                  (* the picker was dismissed *)
| DateRejected              (* Alert "Só é possível agendar com até uma semana..." *)
| DateSet (d : Z).

(** The navigation parameters the screen reads ([route.params]); a field
    is [None] when absent. *)
Record route_params := mkParams {
  rp_bookingId : option string;
  rp_date : option string;
  rp_startTime : option string;
  rp_endTime : option string
}.

(** [params?.x || ''] for a string parameter. *)
Definition param_or_empty (p : option string) : string :=
  match p with Some s => s | None => "" end.

(** [initialValues] of the form, with [initialDate] read from the route:
    [new Date(route.params.date)] when the parameter is truthy, the clock
    reading [new Date()] otherwise.  [None] is a form that cannot be
    built: an invalid date, or a stored [numStudents] of [null], whose
    [toString()] throws. *)
Definition initialValues (now : Z) (f : form) (params : route_params) : option values :=
  match editing f with
  | Some b =>
      match Booking.numStudents b with
      | Some n => Some (mkValues (Booking.className b) (Booking.activity b)
                                 (number_to_string n) (Booking.date b)
                                 (Booking.startTime b) (Booking.endTime b))
      | None => None
      end
  | None =>
      let initialDate :=
        match rp_date params with
        | Some s => if js_truthy s then parse_date_only s else Some now
        | None => Some now
        end in
      match initialDate with
      | Some d => Some (mkValues "" "" "" d (param_or_empty (rp_startTime params))
                                 (param_or_empty (rp_endTime params)))
      | None => None
      end
  end.

(** [loadData]: [None] when there is no current teacher (the screen
    navigates to the registration). *)
Definition loadData (bookingId : option string) : M (option form) :=
  currentTeacher <- getCurrentTeacher ;;
  match currentTeacher with
  | None => ret None
  | Some t =>
      allBookingsData <- getBookings ;;
      match bookingId with
      | Some i =>
          if js_truthy i then
            bookingData <- getBookingById i ;;
            ret (Some (mkForm t allBookingsData bookingData))
          else ret (Some (mkForm t allBookingsData None))
      | None => ret (Some (mkForm t allBookingsData None))
      end
  end.

(** [handleDateChange]. *)
Definition handleDateChange (tz now : Z) (selectedDate : option Z) : date_change :=
  match selectedDate with
  | None => DateKept
  | Some d => if negb (isWithinOneWeek tz now d) then DateRejected else DateSet d
  end.

(** The bookings the checks look at: all of them, but the edited one. *)
Definition bookingsToCheck (f : form) : list Booking.booking :=
  match editing f with
  | Some b => filter (fun x => negb (String.eqb (Booking.id x) (Booking.id b)))
                     (allBookings f)
  | None => allBookings f
  end.

(** [checkBookingConflicts]. *)
Definition checkBookingConflicts (tz now : Z) (f : form) (v : values)
  : option conflict :=
  let toCheck := bookingsToCheck f in
  let userBookingsThisWeek :=
    countTeacherBookingsInCurrentWeek tz now (Teacher.id (teacher f)) toCheck in
  if negb (isEditMode f) && (2 <=? Z.of_nat userBookingsThisWeek) then
    Some QuotaReached
  else
    let bookingDate := formatDateForCalendar tz (date v) in
    let conflictingBooking :=
      find (fun b => String.eqb (formatDateForCalendar tz (Booking.date b)) bookingDate
                     && String.eqb (Booking.startTime b) (startTime v)) toCheck in
    match conflictingBooking with
    | Some _ => Some SlotTaken
    | None => None
    end.

(** The [bookingData] object of [handleSubmit]. *)
Definition bookingData (f : form) (v : values) : BookingData.payload :=
  let t := teacher f in
  BookingData.mkPayload
    (match editing f with Some b => Some (Booking.id b) | None => None end)
    (Teacher.id t) (Teacher.name t) (Teacher.email t) (Teacher.disciplina t)
    (className v) (activity v) (integer_value (parseInt_number (numStudents v))) (date v)
    (startTime v) (endTime v) "confirmed".

(** [handleSubmit]; [now] is the clock reading of the submission. *)
Definition handleSubmit (tz now : Z) (f : form) (v : values) : M submit_outcome :=
  match checkBookingConflicts tz now f v with
  | Some c => ret (Rejected c)
  | None =>
      catch (_ <- saveBooking now (bookingData f v) ;; ret Submitted)
            (fun _ => ret SaveFailed)
  end.

(** [handleDelete]; [confirmed] is the answer to the confirmation
    dialog. *)
Definition handleDelete (now : Z) (f : form) (confirmed : bool) : M delete_outcome :=
  match editing f with
  | None => ret NoBooking
  | Some b =>
      if negb (js_truthy (Booking.id b)) then ret NoBooking
      else if negb (canCancelBooking now (Booking.date b)) then ret CancelRefused
      else if confirmed then
        catch (_ <- deleteBooking (Booking.id b) ;; ret Cancelled)
              (fun _ => ret DeleteFailed)
      else ret KeptBooking
  end.

(** ** The validation schema *)

(** Yup's [number()] cast of a string: every white space character
    removed ([value.replace(/\s/g, '')]), the empty string [NaN], otherwise
    [+value]. *)
Definition yup_number (s : string) : double :=
  match filter (fun c => negb (is_js_space c)) (list_ascii_of_string s) with
  | [] => S754_nan
  | l => StringToNumber (string_of_list_ascii l)
  end.

(** [numStudents: Yup.number().required().min(1).max(20)] on the text of
    the field.  Formik hands [undefined] for an empty field, which
    [required()] refuses; [NaN] fails the type test; [min] and [max]
    compare numbers. *)
Definition numStudents_valid (s : string) : bool :=
  js_truthy s &&
  match yup_number s with
  | S754_nan => false
  | d => SFleb (of_Z 1) d && SFleb d (of_Z 20)
  end.

(** [validationSchema]: the text fields [required()] (Formik turns [''] into
    [undefined]); [date] is always a valid date of the picker or of
    [initialValues], so [Yup.date().required()] holds. *)
Definition validationSchema (v : values) : bool :=
  js_truthy (className v) && js_truthy (activity v) && numStudents_valid (numStudents v)
  && js_truthy (startTime v).

(** Formik's submission: [onSubmit] ([handleSubmit]) runs only on values
    the schema accepts; [None] is a form left with its error messages. *)
Definition submitForm (tz now : Z) (f : form) (v : values) : M (option submit_outcome) :=
  if validationSchema v then r <- handleSubmit tz now f v ;; ret (Some r) else ret None.

(** ** The rule of the specification *)

Inductive verdict := Ok | OutOfWindow | QuotaExceeded | SlotConflict.

(** [validateBooking] of the specification (section 4.3), field
    validation aside: the window, then the quota for new bookings, then
    the conflict with the other bookings, each stated in local days. *)
Definition validate (tz now : Z) (teacherId : string)
           (existing : list Booking.booking) (editingId : option string)
           (d : Z) (st : string) : verdict :=
  let others := match editingId with
                | Some i => filter (fun x => negb (String.eqb (Booking.id x) i)) existing
                | None => existing
                end in
  if negb ((0 <=? local_day tz d - local_day tz now) && (local_day tz d - local_day tz now <=? 7))
  then OutOfWindow
  else if (match editingId with None => true | Some _ => false end)
          && (2 <=? Z.of_nat (length (filter (fun b => String.eqb (Booking.teacherId b) teacherId
                                             && in_current_week tz now (Booking.date b)) others)))
  then QuotaExceeded
  else if existsb (fun b => (local_day tz (Booking.date b) =? local_day tz d)
                            && String.eqb (Booking.startTime b) st) others
  then SlotConflict
  else Ok.

(** The verdict the code reaches, read off [checkBookingConflicts]. *)
Definition code_verdict (c : option conflict) : verdict :=
  match c with
  | None => Ok
  | Some QuotaReached => QuotaExceeded
  | Some SlotTaken => SlotConflict
  end.

(** ** The store invariant *)

(** The slot a booking occupies: its local day and its start time. *)
Definition slot_key (tz : Z) (b : Booking.booking) : Z * string :=
  (local_day tz (Booking.date b), Booking.startTime b).

(** Ids are unique and truthy, and no two bookings occupy the same slot. *)
Definition store_ok (tz : Z) (l : list Booking.booking) : Prop :=
  NoDup (map Booking.id l)
  /\ Forall (fun b => js_truthy (Booking.id b) = true) l
  /\ NoDup (map (slot_key tz) l).

(** The booking a submission of [v] from [f] stores under the id [i],
    created at [c], written out field by field: the current teacher's
    id, name, e-mail and subject, the form's values, the number of
    students as [parseInt] reads it (with [NaN] written as [null]) and
    the status "confirmed". *)
Definition stored_record (f : form) (v : values) (i : string) (c : Z) : Booking.booking :=
  let t := teacher f in
  Booking.mkBooking i (Teacher.id t) (Teacher.name t) (Teacher.email t) (Teacher.disciplina t)
    (className v) (activity v) (integer_value (parseInt_number (numStudents v)))
    (date v) (startTime v) (endTime v) "confirmed" c.

(** ** Concrete forms, for the witnesses *)

(** Scenario A: teacher 2 asks for 2025-06-10 08:00, held by teacher 1. *)
Definition formA : form := mkForm Fixtures.teacher2 [Fixtures.bookingA] None.
Definition valuesA : values :=
  mkValues "3o Ano B" "Titulacao" "15" Fixtures.tue_0610_1000 "08:00" "08:50".

(** Scenario C: teacher 1, holding 2025-06-09 and 2025-06-11, asks for
    2025-06-12, and edits the booking of 2025-06-09. *)
Definition formC_new : form :=
  mkForm Fixtures.teacher1 [Fixtures.bookingC1; Fixtures.bookingC2] None.
Definition valuesC : values :=
  mkValues "1o Ano C" "Pendulo" "12" Fixtures.thu_0612_0800 "10:00" "10:50".
Definition formC_edit : form :=
  mkForm Fixtures.teacher1 [Fixtures.bookingC1; Fixtures.bookingC2] (Some Fixtures.bookingC1).
Definition valuesC_edit : values :=
  mkValues "2o Ano A" "Experimento" "10" Fixtures.mon_0609_0800 "13:00" "13:50".

(** The edit forms of the bookings 20 and 25 hours ahead. *)
Definition formD20 : form :=
  mkForm Fixtures.teacher1 [Fixtures.bookingD20] (Some Fixtures.bookingD20).
Definition formD25 : form :=
  mkForm Fixtures.teacher1 [Fixtures.bookingD25] (Some Fixtures.bookingD25).

(** A store holding [l], with no fault. *)
Definition store_of (l : list Booking.booking) : storage := mkStorage None (Some l) None [].

(** ** The checks, branch by branch *)

Lemma checkBookingConflicts_cases tz now f v :
  checkBookingConflicts tz now f v =
  if negb (isEditMode f)
     && (2 <=? Z.of_nat (countTeacherBookingsInCurrentWeek tz now
                           (Teacher.id (teacher f)) (bookingsToCheck f)))
  then Some QuotaReached
  else if isTimeSlotAvailable tz (date v) (startTime v) (bookingsToCheck f)
  then None else Some SlotTaken.
Proof.
  unfold checkBookingConflicts, isTimeSlotAvailable.
  destruct (_ && _); [reflexivity|]. destruct (find _ _); reflexivity.
Qed.

(** In edit mode the checks see the other bookings only; in both modes
    they see the snapshot's bookings. *)
Lemma bookingsToCheck_In f b :
  In b (bookingsToCheck f) <->
  In b (allBookings f)
  /\ match editing f with Some e => Booking.id b <> Booking.id e | None => True end.
Proof.
  unfold bookingsToCheck. destruct (editing f) as [e|].
  - rewrite filter_In, negb_true_iff, String.eqb_neq. reflexivity.
  - tauto.
Qed.

(** ** Opening the form, without storage faults *)

(** A new form holds the current teacher and the stored bookings. *)
Lemma loadData_new s t :
  st_faults s = [] -> st_current s = Some t ->
  loadData None s = (inl (Some (mkForm t (bookings_of s) None)), s).
Proof. destruct s as [ts bs c fs]; simpl; intros -> ->. reflexivity. Qed.

(** The edit form of a stored booking, when no other record has its id. *)
Lemma loadData_edit s t b :
  st_faults s = [] -> st_current s = Some t -> js_truthy (Booking.id b) = true ->
  NoDup (map Booking.id (bookings_of s)) -> In b (bookings_of s) ->
  loadData (Some (Booking.id b)) s = (inl (Some (mkForm t (bookings_of s) (Some b))), s).
Proof.
  intros Hf Hc Ht Hnd Hb. unfold loadData.
  destruct s as [ts bs c fs]; cbn in Hf, Hc; subst. rewrite Ht. run_store.
  unfold bookings_of in Hnd, Hb |- *. cbn in Hnd, Hb |- *.
  rewrite (find_key_unique Booking.id String.eqb String.eqb_eq _ b Hnd Hb). reflexivity.
Qed.

(** [C1] A candidate on the local day and at the start time of a booking
    of the snapshot other than the edited one is refused: with
    [SlotTaken], unless the weekly quota refuses it first. *)
Theorem checkBookingConflicts_slot_conflict tz now f v b :
  In b (bookingsToCheck f) ->
  local_day tz (Booking.date b) = local_day tz (date v) ->
  Booking.startTime b = startTime v ->
  checkBookingConflicts tz now f v =
  if negb (isEditMode f)
     && (2 <=? Z.of_nat (countTeacherBookingsInCurrentWeek tz now
                           (Teacher.id (teacher f)) (bookingsToCheck f)))
  then Some QuotaReached else Some SlotTaken.
Proof.
  intros Hin Hday Hst. rewrite checkBookingConflicts_cases.
  destruct (_ && _); [reflexivity|].
  destruct (isTimeSlotAvailable _ _ _ _) eqn:E; [|reflexivity].
  exfalso. exact (proj1 (isTimeSlotAvailable_spec _ _ _ _) E b Hin Hday Hst).
Qed.

Lemma checkBookingConflicts_slot_conflict_witness :
  In Fixtures.bookingA (bookingsToCheck formA)
  /\ local_day Fixtures.tz_br (Booking.date Fixtures.bookingA)
     = local_day Fixtures.tz_br (date valuesA)
  /\ Booking.startTime Fixtures.bookingA = startTime valuesA
  /\ checkBookingConflicts Fixtures.tz_br Fixtures.mon_0609_1200 formA valuesA = Some SlotTaken.
Proof.
  assert (H1 : In Fixtures.bookingA (bookingsToCheck formA)) by (left; reflexivity).
  assert (H2 : local_day Fixtures.tz_br (Booking.date Fixtures.bookingA)
               = local_day Fixtures.tz_br (date valuesA)) by (vm_compute; reflexivity).
  assert (H3 : Booking.startTime Fixtures.bookingA = startTime valuesA) by reflexivity.
  split; [exact H1|]. split; [exact H2|]. split; [exact H3|].
  rewrite (checkBookingConflicts_slot_conflict _ _ _ _ _ H1 H2 H3). vm_compute. reflexivity.
Defined.

(** [C2] The quota refuses a submission exactly when it is a new booking
    and the teacher already has two bookings in the Sunday-to-Saturday
    week of today; an edit is never refused for the quota. *)
Theorem checkBookingConflicts_quota_iff tz now f v :
  checkBookingConflicts tz now f v = Some QuotaReached <->
  isEditMode f = false
  /\ (2 <= length (filter (fun b => String.eqb (Booking.teacherId b) (Teacher.id (teacher f))
                                    && in_current_week tz now (Booking.date b))
                          (allBookings f)))%nat.
Proof.
  rewrite checkBookingConflicts_cases, countTeacherBookings_filter.
  unfold isEditMode, bookingsToCheck.
  destruct (editing f); simpl.
  - split; [|intros [H _]; discriminate].
    destruct (isTimeSlotAvailable _ _ _ _); discriminate.
  - destruct (2 <=? _) eqn:E; bool_to_prop; split; intros H.
    + split; [reflexivity | lia].
    + reflexivity.
    + destruct (isTimeSlotAvailable _ _ _ _); discriminate.
    + lia.
Qed.

(** [C4] Refinement: for a date inside the booking window, the verdict of
    [checkBookingConflicts] is the verdict of the specification's rule,
    with the snapshot as the existing bookings and the edited booking's id
    as the id being edited. *)
Theorem checkBookingConflicts_refines tz now f v :
  0 <= local_day tz (date v) - local_day tz now <= 7 ->
  code_verdict (checkBookingConflicts tz now f v)
  = validate tz now (Teacher.id (teacher f)) (allBookings f)
             (option_map Booking.id (editing f)) (date v) (startTime v).
Proof.
  intros Hw. rewrite checkBookingConflicts_cases, countTeacherBookings_filter.
  unfold validate.
  replace ((0 <=? local_day tz (date v) - local_day tz now)
           && (local_day tz (date v) - local_day tz now <=? 7)) with true
    by (symmetry; apply andb_true_iff; split; apply Z.leb_le; lia).
  cbn [negb].
  replace (match option_map Booking.id (editing f) with
           | Some i => filter (fun x => negb (String.eqb (Booking.id x) i)) (allBookings f)
           | None => allBookings f end) with (bookingsToCheck f)
    by (unfold bookingsToCheck; destruct (editing f); reflexivity).
  replace (match option_map Booking.id (editing f) with Some _ => false | None => true end)
    with (negb (isEditMode f)) by (unfold isEditMode; destruct (editing f); reflexivity).
  destruct (_ && _); [reflexivity|].
  destruct (isTimeSlotAvailable tz (date v) (startTime v) (bookingsToCheck f)) eqn:E.
  - rewrite isTimeSlotAvailable_spec in E.
    replace (existsb _ _) with false; [reflexivity|].
    symmetry. apply not_true_iff_false. rewrite existsb_exists.
    intros [b [Hb Hc]]. bool_to_prop. exact (E b Hb H H0).
  - replace (existsb _ _) with true; [reflexivity|].
    symmetry. apply existsb_exists.
    unfold isTimeSlotAvailable in E.
    match type of E with context [find ?g ?l] => destruct (find g l) as [b|] eqn:F end;
      [|discriminate].
    apply find_some in F as [Hb Hc]. bool_to_prop.
    exists b. split; [exact Hb|].
    apply calendar_key_day_iff in H. rewrite H, H0, Z.eqb_refl, String.eqb_refl.
    reflexivity.
Qed.

Lemma checkBookingConflicts_refines_witness :
  0 <= local_day Fixtures.tz_br (date valuesC) - local_day Fixtures.tz_br Fixtures.tue_0610_1200 <= 7
  /\ code_verdict (checkBookingConflicts Fixtures.tz_br Fixtures.tue_0610_1200 formC_new valuesC)
     = QuotaExceeded.
Proof.
  assert (H : 0 <= local_day Fixtures.tz_br (date valuesC)
                   - local_day Fixtures.tz_br Fixtures.tue_0610_1200 <= 7)
    by (vm_compute; split; discriminate).
  split; [exact H|].
  rewrite (checkBookingConflicts_refines _ _ _ _ H). vm_compute. reflexivity.
Defined.

(** ** The store invariant *)

Lemma slot_key_merge tz b p :
  slot_key tz (merge_booking b p) = (local_day tz (BookingData.date p), BookingData.startTime p).
Proof. reflexivity. Qed.

Lemma store_ok_snoc tz l nb :
  store_ok tz l ->
  ~ In (Booking.id nb) (map Booking.id l) -> js_truthy (Booking.id nb) = true ->
  ~ In (slot_key tz nb) (map (slot_key tz) l) ->
  store_ok tz (l ++ [nb]).
Proof.
  intros (Hids & Htr & Hkeys) Hid Ht Hk. unfold store_ok.
  rewrite !map_app. simpl. split; [|split].
  - now apply NoDup_snoc.
  - apply Forall_app. auto.
  - now apply NoDup_snoc.
Qed.

(** Updating the records with id [i] keeps the invariant when no other
    record occupies the payload's slot. *)
Lemma store_ok_update tz l i p :
  store_ok tz l -> BookingData.id p = Some i ->
  (forall b, In b l -> Booking.id b <> i ->
     slot_key tz b <> (local_day tz (BookingData.date p), BookingData.startTime p)) ->
  store_ok tz (update_bookings i p l).
Proof.
  intros (Hids & Htr & Hkeys) Hid Hfree. unfold store_ok, update_bookings.
  assert (Hmap : map Booking.id
                   (map (fun b => if String.eqb (Booking.id b) i then merge_booking b p else b) l)
                 = map Booking.id l).
  { rewrite map_map. apply map_ext. intros b.
    destruct (String.eqb (Booking.id b) i) eqn:E; [|reflexivity].
    rewrite (merge_booking_id _ _ _ Hid). symmetry. now apply String.eqb_eq. }
  rewrite Hmap. split; [exact Hids|split].
  - apply Forall_map. eapply Forall_impl; [|exact Htr]. intros b Hb.
    destruct (String.eqb (Booking.id b) i) eqn:E; [|exact Hb].
    rewrite (merge_booking_id _ _ _ Hid). apply String.eqb_eq in E. now rewrite <- E.
  - rewrite map_map.
    rewrite (map_ext _ (fun b => if String.eqb (Booking.id b) i
                                 then (local_day tz (BookingData.date p), BookingData.startTime p)
                                 else slot_key tz b))
      by (intros b; destruct (String.eqb _ _); reflexivity).
    apply NoDup_map_replace; [| exact Hkeys |].
    + apply (filter_id_le1 Booking.id String.eqb String.eqb_eq). exact Hids.
    + intros b Hb E. apply Hfree; [exact Hb|]. now apply String.eqb_neq.
Qed.

(** A submission from an up-to-date snapshot keeps [store_ok]. *)
Lemma handleSubmit_store_ok tz now f v s :
  store_ok tz (bookings_of s) ->
  allBookings f = bookings_of s ->
  st_faults s = [] ->
  match editing f with
  | Some e => In e (bookings_of s)
  | None => ~ In (number_to_string now) (map Booking.id (bookings_of s))
  end ->
  store_ok tz (bookings_of (snd (handleSubmit tz now f v s))).
Proof.
  intros Hok Hsnap Hf Hed. unfold handleSubmit.
  destruct (checkBookingConflicts tz now f v) as [c|] eqn:Hc; [exact Hok|].
  rewrite checkBookingConflicts_cases in Hc.
  destruct (_ && _); [discriminate|].
  destruct (isTimeSlotAvailable _ _ _ _) eqn:Hav; [|discriminate].
  pose proof (proj1 (isTimeSlotAvailable_spec _ _ _ _) Hav) as Hfree. clear Hav Hc.
  unfold bookingsToCheck in Hfree. rewrite Hsnap in Hfree.
  cbv [catch bind ret].
  destruct (editing f) as [e|] eqn:He.
  - assert (Hid : BookingData.id (bookingData f v) = Some (Booking.id e))
      by (unfold bookingData; now rewrite He).
    assert (Ht : js_truthy (Booking.id e) = true)
      by (destruct Hok as (_ & Htr & _); exact (proj1 (Forall_forall _ _) Htr e Hed)).
    rewrite (saveBooking_update_eqn now _ _ s Hf Hid Ht). simpl snd.
    rewrite bookings_of_with. apply store_ok_update; [exact Hok | exact Hid |].
    intros b Hb Hne Hk. injection Hk as Hday Hst.
    apply (Hfree b); [apply filter_In; split; [exact Hb|] | exact Hday | exact Hst].
    now apply negb_true_iff, String.eqb_neq.
  - assert (Hid : forall i, BookingData.id (bookingData f v) = Some i -> js_truthy i = false)
      by (unfold bookingData; rewrite He; discriminate).
    rewrite (saveBooking_create_eqn now _ s Hf Hid). simpl snd.
    rewrite bookings_of_with. apply store_ok_snoc; [exact Hok | exact Hed | |].
    + apply number_to_string_truthy.
    + intros Hin. apply in_map_iff in Hin as [b [Hk Hb]].
      injection Hk as Hday Hst. exact (Hfree b Hb Hday Hst).
Qed.

(** [C3] A submission made from a snapshot that is the stored list, with
    no storage fault, keeps the store free of double bookings: ids stay
    unique and truthy, and no two bookings share a local day and a start
    time.  A new booking needs an id (the decimal clock reading) that no
    stored booking has; an edited booking is one of the stored ones. *)
Theorem handleSubmit_preserves_store_ok tz now f v s :
  store_ok tz (bookings_of s) ->
  allBookings f = bookings_of s ->
  st_faults s = [] ->
  match editing f with
  | Some e => In e (bookings_of s)
  | None => ~ In (number_to_string now) (map Booking.id (bookings_of s))
  end ->
  store_ok tz (bookings_of (snd (handleSubmit tz now f v s))).
Proof. exact (handleSubmit_store_ok tz now f v s). Qed.

Lemma handleSubmit_preserves_store_ok_witness :
  store_ok Fixtures.tz_br (bookings_of (store_of [Fixtures.bookingC1; Fixtures.bookingC2]))
  /\ allBookings formC_edit = bookings_of (store_of [Fixtures.bookingC1; Fixtures.bookingC2])
  /\ st_faults (store_of [Fixtures.bookingC1; Fixtures.bookingC2]) = []
  /\ In Fixtures.bookingC1 (bookings_of (store_of [Fixtures.bookingC1; Fixtures.bookingC2]))
  /\ store_ok Fixtures.tz_br
       (bookings_of (snd (handleSubmit Fixtures.tz_br Fixtures.tue_0610_1200 formC_edit
                            valuesC_edit (store_of [Fixtures.bookingC1; Fixtures.bookingC2])))).
Proof.
  assert (H1 : store_ok Fixtures.tz_br
                 (bookings_of (store_of [Fixtures.bookingC1; Fixtures.bookingC2]))).
  { unfold store_ok. vm_compute.
    split; [|split]; repeat constructor; simpl; intuition discriminate. }
  assert (H2 : allBookings formC_edit
               = bookings_of (store_of [Fixtures.bookingC1; Fixtures.bookingC2])) by reflexivity.
  assert (H3 : st_faults (store_of [Fixtures.bookingC1; Fixtures.bookingC2]) = []) by reflexivity.
  assert (H4 : In Fixtures.bookingC1
                 (bookings_of (store_of [Fixtures.bookingC1; Fixtures.bookingC2])))
    by (left; reflexivity).
  split; [exact H1|]. split; [exact H2|]. split; [exact H3|]. split; [exact H4|].
  exact (handleSubmit_preserves_store_ok _ _ formC_edit valuesC_edit _ H1 H2 H3 H4).
Defined.

(** ** The handlers, branch by branch *)

(** The effect of [handleSubmit] on a store without faults. *)
Lemma handleSubmit_eqn tz now f v s :
  st_faults s = [] ->
  handleSubmit tz now f v s =
  match checkBookingConflicts tz now f v with
  | Some c => (inl (Rejected c), s)
  | None =>
      (inl Submitted, with_bookings s
         match editing f with
         | Some e =>
             if js_truthy (Booking.id e)
             then update_bookings (Booking.id e) (bookingData f v) (bookings_of s)
             else bookings_of s ++ [new_booking now (bookingData f v)]
         | None => bookings_of s ++ [new_booking now (bookingData f v)]
         end)
  end.
Proof.
  intros Hf. unfold handleSubmit.
  destruct (checkBookingConflicts tz now f v); [reflexivity|].
  cbv [catch bind ret].
  destruct (editing f) as [e|] eqn:He; [destruct (js_truthy (Booking.id e)) eqn:Ht|].
  - rewrite (saveBooking_update_eqn now _ (Booking.id e) s Hf)
      by first [exact Ht | unfold bookingData; now rewrite He].
    reflexivity.
  - rewrite (saveBooking_create_eqn now _ s Hf).
    + reflexivity.
    + unfold bookingData. rewrite He. intros i Hi. injection Hi as <-. exact Ht.
  - rewrite (saveBooking_create_eqn now _ s Hf).
    + reflexivity.
    + unfold bookingData. rewrite He. discriminate.
Qed.

Lemma new_booking_stored now f v :
  new_booking now (bookingData f v) = stored_record f v (number_to_string now) now.
Proof. reflexivity. Qed.

Lemma merge_booking_stored f v b e :
  editing f = Some e ->
  merge_booking b (bookingData f v) = stored_record f v (Booking.id e) (Booking.createdAt b).
Proof. intros He. unfold merge_booking, bookingData. now rewrite He. Qed.

(** The update branch, position by position. *)
Lemma update_bookings_nth f v e l k b :
  editing f = Some e -> nth_error l k = Some b ->
  nth_error (update_bookings (Booking.id e) (bookingData f v) l) k =
  Some (if String.eqb (Booking.id b) (Booking.id e)
        then stored_record f v (Booking.id b) (Booking.createdAt b) else b).
Proof.
  intros He Hk. unfold update_bookings. rewrite nth_error_map, Hk. simpl.
  destruct (String.eqb (Booking.id b) (Booking.id e)) eqn:E; [|reflexivity].
  apply String.eqb_eq in E. rewrite (merge_booking_stored f v b e He), E. reflexivity.
Qed.

(** [C11] Without storage faults, [handleSubmit] either refuses with the
    conflict and leaves the store as it was, or reports the booking as
    saved and changes only the bookings: an edit (of a booking with a
    truthy id) replaces, at its position, every stored record with the
    edited id by the form's record, which keeps that id and that
    [createdAt], and leaves every other record as it was; a new booking
    appends the form's record with the decimal clock reading as id and the
    clock reading as [createdAt]. *)
Theorem handleSubmit_spec tz now f v s :
  st_faults s = [] ->
  let '(r, s') := handleSubmit tz now f v s in
  match checkBookingConflicts tz now f v with
  | Some c => r = inl (Rejected c) /\ s' = s
  | None =>
      r = inl Submitted
      /\ st_teachers s' = st_teachers s /\ st_current s' = st_current s
      /\ st_faults s' = []
      /\ match editing f with
         | Some e =>
             if js_truthy (Booking.id e) then
               length (bookings_of s') = length (bookings_of s)
               /\ forall k b, nth_error (bookings_of s) k = Some b ->
                    nth_error (bookings_of s') k =
                    Some (if String.eqb (Booking.id b) (Booking.id e)
                          then stored_record f v (Booking.id b) (Booking.createdAt b) else b)
             else bookings_of s' = (bookings_of s ++ [stored_record f v (number_to_string now) now])%list
         | None => bookings_of s' = (bookings_of s ++ [stored_record f v (number_to_string now) now])%list
         end
  end.
Proof.
  intros Hf. rewrite (handleSubmit_eqn tz now f v s Hf).
  destruct (checkBookingConflicts tz now f v); [split; reflexivity|].
  cbn [fst snd]. rewrite bookings_of_with. do 4 (split; [reflexivity || exact Hf|]).
  destruct (editing f) as [e|] eqn:He; [destruct (js_truthy (Booking.id e))|].
  - split; [apply length_map|]. intros k b Hk. exact (update_bookings_nth f v e _ k b He Hk).
  - now rewrite new_booking_stored.
  - now rewrite new_booking_stored.
Qed.

Lemma handleSubmit_spec_witness :
  st_faults (store_of [Fixtures.bookingC1; Fixtures.bookingC2]) = []
  /\ let '(r, s') := handleSubmit Fixtures.tz_br Fixtures.tue_0610_1200 formC_edit valuesC_edit
                        (store_of [Fixtures.bookingC1; Fixtures.bookingC2]) in
     match checkBookingConflicts Fixtures.tz_br Fixtures.tue_0610_1200 formC_edit valuesC_edit with
     | Some c => r = inl (Rejected c) /\ s' = store_of [Fixtures.bookingC1; Fixtures.bookingC2]
     | None =>
         r = inl Submitted
         /\ st_teachers s' = st_teachers (store_of [Fixtures.bookingC1; Fixtures.bookingC2])
         /\ st_current s' = st_current (store_of [Fixtures.bookingC1; Fixtures.bookingC2])
         /\ st_faults s' = []
         /\ match editing formC_edit with
            | Some e =>
                if js_truthy (Booking.id e) then
                  length (bookings_of s')
                  = length (bookings_of (store_of [Fixtures.bookingC1; Fixtures.bookingC2]))
                  /\ forall k b,
                       nth_error (bookings_of (store_of [Fixtures.bookingC1; Fixtures.bookingC2])) k
                       = Some b ->
                       nth_error (bookings_of s') k =
                       Some (if String.eqb (Booking.id b) (Booking.id e)
                             then stored_record formC_edit valuesC_edit (Booking.id b)
                                    (Booking.createdAt b) else b)
                else bookings_of s' = (bookings_of (store_of [Fixtures.bookingC1; Fixtures.bookingC2])
                                      ++ [stored_record formC_edit valuesC_edit
                                            (number_to_string Fixtures.tue_0610_1200)
                                            Fixtures.tue_0610_1200])%list
            | None => bookings_of s' = (bookings_of (store_of [Fixtures.bookingC1; Fixtures.bookingC2])
                                       ++ [stored_record formC_edit valuesC_edit
                                             (number_to_string Fixtures.tue_0610_1200)
                                             Fixtures.tue_0610_1200])%list
            end
     end.
Proof.
  assert (H : st_faults (store_of [Fixtures.bookingC1; Fixtures.bookingC2]) = []) by reflexivity.
  split; [exact H|].
  exact (handleSubmit_spec Fixtures.tz_br Fixtures.tue_0610_1200 formC_edit valuesC_edit _ H).
Defined.

(** [C18] When the store reads the bookings but fails to write them,
    [handleSubmit] reports the failure ("Erro", [SaveFailed]) after a
    passed conflict check, or the conflict itself, and the stored
    bookings are the ones before the submission: a failed write is
    surfaced, never taken for a save. *)
Theorem handleSubmit_write_fault tz now f v s :
  st_faults s = [false; true] ->
  fst (handleSubmit tz now f v s)
  = inl (match checkBookingConflicts tz now f v with Some c => Rejected c | None => SaveFailed end)
  /\ bookings_of (snd (handleSubmit tz now f v s)) = bookings_of s.
Proof.
  intros Hf. unfold handleSubmit.
  destruct (checkBookingConflicts tz now f v); [split; reflexivity|].
  destruct s as [ts bs c fs]. cbn in Hf. subst fs. cbv [catch bind ret]. run_store.
  destruct (BookingData.id (bookingData f v)) as [i|]; [destruct (js_truthy i)|];
    split; reflexivity.
Qed.

Lemma handleSubmit_write_fault_witness :
  let s := mkStorage None (Some [Fixtures.bookingC1; Fixtures.bookingC2]) None [false; true] in
  st_faults s = [false; true]
  /\ fst (handleSubmit Fixtures.tz_br Fixtures.tue_0610_1200 formC_edit valuesC_edit s) = inl SaveFailed
  /\ bookings_of (snd (handleSubmit Fixtures.tz_br Fixtures.tue_0610_1200 formC_edit valuesC_edit s))
     = bookings_of s.
Proof.
  intros s. assert (H : st_faults s = [false; true]) by reflexivity.
  destruct (handleSubmit_write_fault Fixtures.tz_br Fixtures.tue_0610_1200 formC_edit valuesC_edit s H)
    as [H1 H2].
  split; [exact H|]. split; [rewrite H1; vm_compute; reflexivity | exact H2].
Defined.

(** [C8] Less than 24 hours before a booking, [handleDelete] refuses and
    touches nothing, whatever the answer to the dialog and whatever the
    storage does. *)
Theorem handleDelete_refused now f b confirmed s :
  editing f = Some b -> js_truthy (Booking.id b) = true ->
  Booking.date b - now < 24 * msPerHour ->
  handleDelete now f confirmed s = (inl CancelRefused, s).
Proof.
  intros He Ht Hlt. unfold handleDelete. rewrite He, Ht. cbn [negb].
  destruct (canCancelBooking now (Booking.date b)) eqn:Hc; [|reflexivity].
  apply canCancelBooking_hours in Hc. lia.
Qed.

Lemma handleDelete_refused_witness :
  editing formD20 = Some Fixtures.bookingD20
  /\ js_truthy (Booking.id Fixtures.bookingD20) = true
  /\ Booking.date Fixtures.bookingD20 - Fixtures.tue_0610_1200 < 24 * msPerHour
  /\ handleDelete Fixtures.tue_0610_1200 formD20 true (store_of [Fixtures.bookingD20])
     = (inl CancelRefused, store_of [Fixtures.bookingD20]).
Proof.
  assert (H1 : editing formD20 = Some Fixtures.bookingD20) by reflexivity.
  assert (H2 : js_truthy (Booking.id Fixtures.bookingD20) = true) by reflexivity.
  assert (H3 : Booking.date Fixtures.bookingD20 - Fixtures.tue_0610_1200 < 24 * msPerHour)
    by (vm_compute; reflexivity).
  split; [exact H1|]. split; [exact H2|]. split; [exact H3|].
  exact (handleDelete_refused _ _ _ true _ H1 H2 H3).
Defined.

(** The confirmed deletion, when the 24-hour rule allows it. *)
Lemma handleDelete_confirmed now f b s :
  editing f = Some b -> js_truthy (Booking.id b) = true -> st_faults s = [] ->
  24 * msPerHour <= Booking.date b - now ->
  handleDelete now f true s
  = (inl Cancelled,
     with_bookings s (filter (fun x => negb (String.eqb (Booking.id x) (Booking.id b)))
                             (bookings_of s))).
Proof.
  intros He Ht Hf Hge. unfold handleDelete. rewrite He, Ht. cbn [negb].
  replace (canCancelBooking now (Booking.date b)) with true
    by (symmetry; now apply canCancelBooking_hours).
  cbn [negb]. cbv [catch bind ret].
  rewrite (deleteBooking_eqn _ s Hf). reflexivity.
Qed.

(** [C9] At least 24 hours before a booking, a confirmed [handleDelete]
    without storage faults removes every stored record with its id and
    keeps the others. *)
Theorem handleDelete_cancels now f b s :
  editing f = Some b -> js_truthy (Booking.id b) = true -> st_faults s = [] ->
  24 * msPerHour <= Booking.date b - now ->
  handleDelete now f true s
  = (inl Cancelled,
     with_bookings s (filter (fun x => negb (String.eqb (Booking.id x) (Booking.id b)))
                             (bookings_of s))).
Proof. exact (handleDelete_confirmed now f b s). Qed.

Lemma handleDelete_cancels_witness :
  editing formD25 = Some Fixtures.bookingD25
  /\ js_truthy (Booking.id Fixtures.bookingD25) = true
  /\ st_faults (store_of [Fixtures.bookingD25]) = []
  /\ 24 * msPerHour <= Booking.date Fixtures.bookingD25 - Fixtures.tue_0610_1200
  /\ bookings_of (snd (handleDelete Fixtures.tue_0610_1200 formD25 true
                          (store_of [Fixtures.bookingD25]))) = [].
Proof.
  assert (H1 : editing formD25 = Some Fixtures.bookingD25) by reflexivity.
  assert (H2 : js_truthy (Booking.id Fixtures.bookingD25) = true) by reflexivity.
  assert (H3 : st_faults (store_of [Fixtures.bookingD25]) = []) by reflexivity.
  assert (H4 : 24 * msPerHour <= Booking.date Fixtures.bookingD25 - Fixtures.tue_0610_1200)
    by (vm_compute; discriminate).
  split; [exact H1|]. split; [exact H2|]. split; [exact H3|]. split; [exact H4|].
  rewrite (handleDelete_cancels _ _ _ _ H1 H2 H3 H4). vm_compute. reflexivity.
Defined.

(** [C22] The date picker's handler on each branch: a dismissed picker keeps
    the date; a picked date is set exactly when its local day is today or
    one of the seven days after it, and refused otherwise. *)
Theorem handleDateChange_spec tz now sel :
  handleDateChange tz now sel =
  match sel with
  | None => DateKept
  | Some d =>
      if (0 <=? local_day tz d - local_day tz now) && (local_day tz d - local_day tz now <=? 7)
      then DateSet d else DateRejected
  end.
Proof.
  destruct sel as [d|]; [|reflexivity]. unfold handleDateChange.
  destruct (isWithinOneWeek tz now d) eqn:E.
  - apply isWithinOneWeek_days in E. destruct E as [E1 E2].
    apply Z.leb_le in E1, E2. now rewrite E1, E2.
  - destruct (_ && _) eqn:B; [|reflexivity]. exfalso.
    apply andb_true_iff in B as [B1 B2]. apply Z.leb_le in B1, B2.
    assert (isWithinOneWeek tz now d = true) by now apply isWithinOneWeek_days.
    congruence.
Qed.

(** ** The number of students *)

Lemma filter_not_space_digits l : forallb is_digit l = true ->
  filter (fun c => negb (is_js_space c)) l = l.
Proof.
  induction l as [|c l IH]; simpl; [reflexivity|]. intros H. apply andb_prop in H as [Hc H].
  rewrite is_digit_space by exact Hc. simpl. now rewrite IH.
Qed.

(** The schema and [parseInt] on a string of decimal digits. *)
Lemma numStudents_digits_spec l n :
  l <> [] -> digits_value l = Some n -> n < 2 ^ 53 ->
  (numStudents_valid (string_of_list_ascii l) = true <-> 1 <= n <= 20)
  /\ integer_value (parseInt_number (string_of_list_ascii l)) = Some n.
Proof.
  intros Hne Hv Hn.
  pose proof Hv as Hv'. rewrite digits_value_fold in Hv'.
  destruct (fold_digit_step l 0 n O Hv') as (_ & _ & Hd & Hb). specialize (Hb ltac:(lia)).
  split.
  - unfold numStudents_valid, yup_number.
    rewrite list_ascii_of_string_of_list_ascii, filter_not_space_digits by exact Hd.
    replace (js_truthy (string_of_list_ascii l)) with true
      by (destruct l; [congruence | reflexivity]).
    destruct l as [|c r] eqn:El; [congruence|]. rewrite <- El.
    rewrite (StringToNumber_digits l n) by (subst; assumption || discriminate).
    destruct (of_Z n) eqn:En; [| | now apply of_Z_not_nan in En; lia |];
      rewrite <- En, !SFleb_of_Z by lia; simpl andb;
      rewrite andb_true_iff, !Z.leb_le; reflexivity.
  - unfold parseInt_number. rewrite (parseInt_digits l n Hne Hv). apply integer_value_of_Z. lia.
Qed.

(** [C20] On a string of decimal digits of value [n] below [2^53] (the
    text a user types), the schema accepts the number of students exactly
    when [1 <= n <= 20], and [parseInt] stores [n]: the schema and the
    stored value agree with the specification's [numStudents] in [1, 20]. *)
Theorem numStudents_digits l n :
  l <> [] -> digits_value l = Some n -> n < 2 ^ 53 ->
  (numStudents_valid (string_of_list_ascii l) = true <-> 1 <= n <= 20)
  /\ integer_value (parseInt_number (string_of_list_ascii l)) = Some n.
Proof. exact (numStudents_digits_spec l n). Qed.

(** [C23] Editing a booking of [n] students, [1 <= n <= 20], and leaving
    the field as [initialValues] fills it ([numStudents.toString()]): the
    schema accepts it and the edit stores [n] again. *)
Theorem edit_keeps_numStudents now f b params v n :
  editing f = Some b -> Booking.numStudents b = Some n -> 1 <= n <= 20 ->
  initialValues now f params = Some v ->
  numStudents_valid (numStudents v) = true
  /\ BookingData.numStudents (bookingData f v) = Some n.
Proof.
  intros He Hb Hn Hi. unfold initialValues in Hi. rewrite He, Hb in Hi.
  injection Hi as <-. cbn [numStudents bookingData BookingData.numStudents].
  destruct (number_to_string_digits n ltac:(lia)) as (l & -> & Hne & Hv).
  destruct (numStudents_digits_spec l n Hne Hv ltac:(lia)) as [Hval Hst].
  split; [apply Hval; exact Hn | exact Hst].
Qed.


Lemma numStudents_digits_witness :
  (numStudents_valid (string_of_list_ascii ["1"; "5"]%char) = true <-> 1 <= 15 <= 20)
  /\ integer_value (parseInt_number (string_of_list_ascii ["1"; "5"]%char)) = Some 15.
Proof. apply numStudents_digits; [discriminate | reflexivity | lia]. Defined.

Lemma edit_keeps_numStudents_witness :
  exists v,
    initialValues Fixtures.tue_0610_1200 formC_edit (mkParams None None None None) = Some v
    /\ numStudents_valid (numStudents v) = true
    /\ BookingData.numStudents (bookingData formC_edit v) = Some 10.
Proof.
  eexists. split; [reflexivity|].
  apply (edit_keeps_numStudents Fixtures.tue_0610_1200 formC_edit Fixtures.bookingC1
           (mkParams None None None None)); [reflexivity | reflexivity | lia | reflexivity].
Defined.

End BookingForm.
