(* ===== verification/Calendar.v ===== *)
(** * Calendar: [src/screens/CalendarScreen.js]

    The calendar screen keeps the selected day as a "YYYY-MM-DD" string,
    the list of all bookings, the day marks of the calendar widget (an
    object keyed by day, each with a list of dots) and the twelve periods
    of the selected day with their availability.  [loadBookings] fills
    them from the store and selects today; [handleDayPress] selects a
    pressed day unless it is before today or after today + 7; the buttons
    navigate to the booking form with route parameters ([handleBookSlot],
    [handleViewBooking]); [render_slots] is the list of period rows the
    screen renders.

    The day the calendar widget passes is a date-only string, which
    [new Date(...)] reads as UTC midnight, while "today" is local
    midnight.  The theorems show what that does: west of Greenwich (a
    negative offset, as in Brazil) today itself is refused as a past day,
    and a booking made from the calendar is stored on the local day
    before the one pressed; at or east of Greenwich both are right. *)

From Stdlib Require Import ZArith Lia Bool String List.
From S2P Require Import Prelude Civil JsDate Model Fixtures DateUtils Store BookingForm.
Import ListNotations.

Open Scope Z_scope.
Open Scope agenda_scope.

Module CalendarScreen.
Import JsDate DateUtils Store BookingForm.

(** [colors.primary] of [src/config/colors.js]. *)
Definition primary : string := "#1E88E5".

(** The marks object: day key to the colours of its dots, in insertion
    order. *)
Definition marks := list (string * list string).

Definition marks_get (k : string) (obj : marks) : option (list string) :=
  match find (fun p => String.eqb (fst p) k) obj with
  | Some (_, v) => Some v
  | None => None
  end.

(** [obj[k] = v]: replace the entry of [k], or add it at the end. *)
Definition marks_set (k : string) (v : list string) (obj : marks) : marks :=
  if existsb (fun p => String.eqb (fst p) k) obj
  then map (fun p => if String.eqb (fst p) k then (k, v) else p) obj
  else app obj [(k, v)].

(** The body of [allBookings.forEach] in [loadBookings]. *)
Definition mark_booking (tz : Z) (markedDatesObj : marks) (booking : Booking.booking) : marks :=
  let dateKey := formatDateForCalendar tz (Booking.date booking) in
  match marks_get dateKey markedDatesObj with
  | None => marks_set dateKey [primary] markedDatesObj
  | Some dots =>
      if existsb (String.eqb primary) dots then markedDatesObj
      else marks_set dateKey (app dots [primary]) markedDatesObj
  end.

Definition markDates (tz : Z) (allBookings : list Booking.booking) : marks :=
  fold_left (mark_booking tz) allBookings [].

(** A period of the day as the screen shows it. *)
Record slot_view := mkSlotView {
  sv_slot : TimeSlot.slot;
  available : bool;
  sv_booking : option Booking.booking
}.

(** [Array.prototype.findIndex], with [None] for [-1]. *)
Fixpoint findIndex {A} (f : A -> bool) (l : list A) : option nat :=
  match l with
  | [] => None
  | x :: r => if f x then Some O else option_map S (findIndex f r)
  end.

(** [a[i] = x] for an index in range. *)
Fixpoint set_nth {A} (i : nat) (x : A) (l : list A) : list A :=
  match l, i with
  | [], _ => []
  | _ :: r, O => x :: r
  | y :: r, S j => y :: set_nth j x r
  end.

(** The body of [bookingsForDay.forEach] in [updateTimeSlots]. *)
Definition mark_slot (availableSlots : list slot_view) (booking : Booking.booking)
  : list slot_view :=
  match findIndex (fun s => String.eqb (TimeSlot.value (sv_slot s)) (Booking.startTime booking))
                  availableSlots with
  | Some i =>
      match nth_error availableSlots i with
      | Some s => set_nth i (mkSlotView (sv_slot s) false (Some booking)) availableSlots
      | None => availableSlots
      end
  | None => availableSlots
  end.

Definition updateTimeSlots (tz : Z) (date : string) (allBookings : list Booking.booking)
  : list slot_view :=
  let availableSlots := map (fun slot => mkSlotView slot true None) getTimeSlots in
  let bookingsForDay :=
    filter (fun booking => String.eqb (formatDateForCalendar tz (Booking.date booking)) date)
           allBookings in
  fold_left mark_slot bookingsForDay availableSlots.

Record cal_state := mkCal {
  selectedDate : string;
  bookings : list Booking.booking;
  markedDates : marks;
  timeSlots : list slot_view
}.

(** [loadBookings]: [None] when it fails (an alert). *)
Definition loadBookings (tz now : Z) : M (option cal_state) :=
  catch (allBookings <- getBookings ;;
         let markedDatesObj := markDates tz allBookings in
         let today := getCurrentDate tz now in
         ret (Some (mkCal today allBookings markedDatesObj
                          (updateTimeSlots tz today allBookings))))
        (fun _ => ret None).

Inductive day_press := PastDay | TooFarAhead | DaySelected.

(** [handleDayPress]; a comparison with an invalid date ([NaN]) is
    false. *)
Definition handleDayPress (tz now : Z) (dateString : string) (st : cal_state)
  : day_press * cal_state :=
  let selectedDay := parse_date_only dateString in
  let today := setHours tz now 0 0 0 0 in
  if match selectedDay with Some d => d <? today | None => false end then (PastDay, st)
  else
    let oneWeekFromNow := setDate tz today (getDate tz today + 7) in
    if match selectedDay with Some d => oneWeekFromNow <? d | None => false end
    then (TooFarAhead, st)
    else (DaySelected, mkCal dateString (bookings st) (markedDates st)
                             (updateTimeSlots tz dateString (bookings st))).

Definition handleBookSlot (st : cal_state) (slot : slot_view) : route_params :=
  mkParams None (Some (selectedDate st)) (Some (TimeSlot.value (sv_slot slot)))
           (Some (TimeSlot.endTime (sv_slot slot))).

Definition handleViewBooking (booking : Booking.booking) : route_params :=
  mkParams (Some (Booking.id booking)) None None None.

(** A row of the period list ([timeSlots.map]): a free period shows a
    "Reservar" button ([handleBookSlot(slot)]); a taken one shows
    [slot.booking?.teacherName || 'Reservado'] and a "Detalhes" button
    ([handleViewBooking(slot.booking)]; [None] when there is no booking,
    where [booking.id] throws). *)
Inductive slot_row :=
  | BookRow (label : string) (onPress : route_params)
  | BookedRow (label : string) (bookedBy : string) (onDetails : option route_params).

Definition render_slot (st : cal_state) (slot : slot_view) : slot_row :=
  if available slot then BookRow (TimeSlot.label (sv_slot slot)) (handleBookSlot st slot)
  else BookedRow (TimeSlot.label (sv_slot slot))
         (match sv_booking slot with
          | Some b => if js_truthy (Booking.teacherName b) then Booking.teacherName b else "Reservado"%string
          | None => "Reservado"%string
          end)
         (option_map handleViewBooking (sv_booking slot)).

Definition render_slots (st : cal_state) : list slot_row := map (render_slot st) (timeSlots st).

(** The state of a calendar with no booking, its day not yet chosen. *)
Definition cal_empty : cal_state := mkCal "" [] [] [].

(** The slot view the reference reading gives: a period is taken by the
    last booking of the day that starts at it. *)
Definition slot_ref (tz : Z) (date : string) (l : list Booking.booking) (s : TimeSlot.slot)
  : slot_view :=
  match hd_error (rev (filter (fun b => String.eqb (formatDateForCalendar tz (Booking.date b)) date
                                        && String.eqb (TimeSlot.value s) (Booking.startTime b)) l))
  with
  | Some b => mkSlotView s false (Some b)
  | None => mkSlotView s true None
  end.

(** [mark_slot] on one view: the view of the booking's period is taken. *)
Definition upd (b : Booking.booking) (v : slot_view) : slot_view :=
  if String.eqb (TimeSlot.value (sv_slot v)) (Booking.startTime b)
  then mkSlotView (sv_slot v) false (Some b) else v.

(** The row the reference reading gives for a period of [date]. *)
Definition row_ref (tz : Z) (date : string) (l : list Booking.booking) (s : TimeSlot.slot)
  : slot_row :=
  match hd_error (rev (filter (fun b => String.eqb (formatDateForCalendar tz (Booking.date b)) date
                                        && String.eqb (TimeSlot.value s) (Booking.startTime b)) l))
  with
  | Some b => BookedRow (TimeSlot.label s)
                (if js_truthy (Booking.teacherName b) then Booking.teacherName b else "Reservado"%string)
                (Some (mkParams (Some (Booking.id b)) None None None))
  | None => BookRow (TimeSlot.label s)
              (mkParams None (Some date) (Some (TimeSlot.value s)) (Some (TimeSlot.endTime s)))
  end.

(** The marks objects [loadBookings] builds: no key twice, one dot of
    [primary] for each key. *)
Definition marks_ok (obj : marks) : Prop :=
  NoDup (map fst obj) /\ forall k v, marks_get k obj = Some v -> v = [primary].

(** The local-day interval that [handleDayPress] accepts, by the sign
    of the offset. *)
Definition selectable (tz k : Z) : Prop :=
  if tz <? 0 then 1 <= k <= 7 else if tz =? 0 then 0 <= k <= 7 else 0 <= k <= 6.

(** ** Day press *)

Lemma calendar_key_truthy tz t : js_truthy (formatDateForCalendar tz t) = true.
Proof. unfold formatDateForCalendar. destruct (number_to_string _); reflexivity. Qed.

(** [C30] For an offset of less than a day, a day pressed on the
    calendar is selected exactly when it lies in a window that depends on
    the sign of the offset: west of Greenwich tomorrow to today + 7 (today
    is refused as a past day), at Greenwich today to today + 7, east of
    Greenwich today to today + 6.  The day string is read as UTC
    midnight and compared with local midnight. *)
Theorem handleDayPress_window tz now d st :
  - msPerDay < tz < msPerDay ->
  1000 <= getFullYear tz d <= 9999 ->
  fst (handleDayPress tz now (formatDateForCalendar tz d) st) = DaySelected <->
  selectable tz (local_day tz d - local_day tz now).
Proof.
  intros Htz Hy. unfold handleDayPress. rewrite parse_formatDateForCalendar by exact Hy.
  rewrite setHours_midnight, setDate_getDate_add. unfold start_of_day, selectable.
  unfold msPerDay in *.
  destruct (Z.ltb_spec tz 0), (Z.eqb_spec tz 0);
    destruct (Z.ltb_spec (local_day tz d * 86400000) (local_day tz now * 86400000 - tz));
    simpl; try destruct (Z.ltb_spec (local_day tz now * 86400000 - tz + 7 * 86400000)
                                    (local_day tz d * 86400000));
    simpl; split; intros; try discriminate; try reflexivity; lia.
Qed.

(** ** Periods of a day *)

Lemma findIndex_set_nth {A} (f : A -> bool) (g : A -> A) (l : list A) :
  (length (filter f l) <= 1)%nat ->
  match findIndex f l with
  | Some i => match nth_error l i with Some x => set_nth i (g x) l | None => l end
  | None => l
  end = map (fun x => if f x then g x else x) l.
Proof.
  induction l as [|a l IH]; intros Hl; simpl; [reflexivity|].
  simpl in Hl. destruct (f a) eqn:Ea; simpl in Hl |- *.
  - f_equal. rewrite <- (map_id l) at 1. apply map_ext_in. intros x Hx.
    destruct (f x) eqn:Ex; [|reflexivity].
    assert (In x (filter f l)) by (apply filter_In; auto).
    destruct (filter f l) as [|? [|]]; simpl in *; [contradiction|..]; lia.
  - specialize (IH Hl). destruct (findIndex f l) as [i|]; simpl; [|now rewrite <- IH].
    destruct (nth_error l i); simpl; now rewrite <- IH.
Qed.

Lemma upd_slot b v : sv_slot (upd b v) = sv_slot v.
Proof. unfold upd. now destruct (String.eqb _ _). Qed.

Lemma map_value_upd b vs :
  map (fun v => TimeSlot.value (sv_slot v)) (map (upd b) vs) =
  map (fun v => TimeSlot.value (sv_slot v)) vs.
Proof. rewrite map_map. apply map_ext. intros v. now rewrite upd_slot. Qed.

Lemma mark_slot_map vs b :
  NoDup (map (fun v => TimeSlot.value (sv_slot v)) vs) -> mark_slot vs b = map (upd b) vs.
Proof.
  intros H. unfold mark_slot, upd.
  apply (findIndex_set_nth (fun s => String.eqb (TimeSlot.value (sv_slot s)) (Booking.startTime b))
           (fun s => mkSlotView (sv_slot s) false (Some b))).
  apply (filter_id_le1 (fun v => TimeSlot.value (sv_slot v)) String.eqb String.eqb_eq).
  exact H.
Qed.

Lemma fold_mark_slot bs vs :
  NoDup (map (fun v => TimeSlot.value (sv_slot v)) vs) ->
  fold_left mark_slot bs vs = map (fun v => fold_left (fun v b => upd b v) bs v) vs.
Proof.
  revert vs. induction bs as [|b bs IH]; intros vs H; simpl; [now rewrite map_id|].
  rewrite mark_slot_map, IH by (rewrite ?map_value_upd; exact H).
  now rewrite map_map.
Qed.

Lemma fold_upd bs v :
  fold_left (fun v b => upd b v) bs v =
  match hd_error (rev (filter (fun b => String.eqb (TimeSlot.value (sv_slot v)) (Booking.startTime b)) bs))
  with Some b => mkSlotView (sv_slot v) false (Some b) | None => v end.
Proof.
  revert v. induction bs as [|b bs IH]; intros v; simpl; [reflexivity|].
  rewrite IH, upd_slot. unfold upd.
  destruct (String.eqb _ _); [rewrite hd_error_rev_cons|]; simpl;
    destruct (hd_error _); reflexivity.
Qed.

Lemma timeSlot_values_NoDup : NoDup (map TimeSlot.value getTimeSlots).
Proof. vm_compute. repeat constructor; simpl; intuition discriminate. Qed.

(** [updateTimeSlots] is the reference reading. *)
Lemma updateTimeSlots_eqn tz date l :
  updateTimeSlots tz date l = map (slot_ref tz date l) getTimeSlots.
Proof.
  unfold updateTimeSlots. rewrite fold_mark_slot by (rewrite map_map; exact timeSlot_values_NoDup).
  rewrite map_map. apply map_ext. intros s.
  rewrite fold_upd. unfold slot_ref. rewrite filter_andb. reflexivity.
Qed.

(** [C31] The periods [updateTimeSlots] shows for a day are the twelve
    periods of [getTimeSlots], in order, each taken, with its booking, by
    the last booking of that day that starts at it, and free when there is
    none. *)
Theorem updateTimeSlots_spec tz date l :
  updateTimeSlots tz date l = map (slot_ref tz date l) getTimeSlots.
Proof. exact (updateTimeSlots_eqn tz date l). Qed.

(** [C32] The period list of a calendar whose periods are those of its
    selected day shows, for each period of the timetable in order, a
    "Reservar" button that opens a new booking of that period on that day
    when no booking of the day starts at it, and otherwise the name of the
    teacher of the last such booking (or "Reservado") with a "Detalhes"
    button that opens that booking, whichever teacher made it. *)
Theorem render_slots_spec tz st :
  timeSlots st = updateTimeSlots tz (selectedDate st) (bookings st) ->
  render_slots st = map (row_ref tz (selectedDate st) (bookings st)) getTimeSlots.
Proof.
  intros H. unfold render_slots. rewrite H, updateTimeSlots_eqn, map_map.
  apply map_ext. intros s. unfold slot_ref, row_ref.
  destruct (hd_error _); reflexivity.
Qed.

(** [C33] A period opened from the calendar starts the new booking's form
    on the UTC midnight of the selected day: for an offset of less than a
    day, the form's date is on the local day before the selected one west
    of Greenwich and on the selected day otherwise, with the period's
    start and end times. *)
Theorem handleBookSlot_initial_date tz now f st slot d :
  editing f = None ->
  - msPerDay <= tz < msPerDay ->
  1000 <= getFullYear tz d <= 9999 ->
  selectedDate st = formatDateForCalendar tz d ->
  exists v, initialValues now f (handleBookSlot st slot) = Some v
            /\ local_day tz (date v) = local_day tz d - (if tz <? 0 then 1 else 0)
            /\ startTime v = TimeSlot.value (sv_slot slot)
            /\ endTime v = TimeSlot.endTime (sv_slot slot).
Proof.
  intros Hf Htz Hy Hsel. unfold initialValues, handleBookSlot. rewrite Hf. simpl.
  rewrite Hsel, calendar_key_truthy, parse_formatDateForCalendar by exact Hy.
  eexists. split; [reflexivity|]. simpl. split; [|split; reflexivity].
  apply local_day_iff. destruct (Z.ltb_spec tz 0); lia.
Qed.

(** ** Day marks *)

Lemma marks_set_cons_neq k v a va r :
  a <> k -> marks_set k v ((a, va) :: r) = (a, va) :: marks_set k v r.
Proof.
  intros Hne. unfold marks_set. simpl.
  apply String.eqb_neq in Hne. rewrite Hne. simpl. destruct (existsb _ r); reflexivity.
Qed.

Lemma marks_set_cons_eq k v va r :
  ~ In k (map fst r) -> marks_set k v ((k, va) :: r) = (k, v) :: r.
Proof.
  intros Hn. unfold marks_set. simpl. rewrite String.eqb_refl. simpl. f_equal.
  rewrite <- (map_id r) at 2. apply map_ext_in. intros [a va'] Hin. simpl.
  destruct (String.eqb_spec a k) as [->|]; [|reflexivity].
  exfalso. apply Hn. now apply (in_map fst) in Hin.
Qed.

Lemma marks_set_keys k v obj :
  map fst (marks_set k v obj) =
  if existsb (fun p => String.eqb (fst p) k) obj then map fst obj else app (map fst obj) [k].
Proof.
  unfold marks_set. destruct (existsb _ _); [|now rewrite map_app].
  rewrite map_map. apply map_ext. intros [a va]. simpl.
  now destruct (String.eqb_spec a k) as [->|].
Qed.

Lemma marks_set_NoDup k v obj :
  NoDup (map fst obj) -> NoDup (map fst (marks_set k v obj)).
Proof.
  intros Hnd. rewrite marks_set_keys. destruct (existsb _ obj) eqn:E; [exact Hnd|].
  apply NoDup_snoc; [exact Hnd|]. intros Hin.
  apply in_map_iff in Hin as [p [Hp Hin]].
  assert (Hx : existsb (fun p => String.eqb (fst p) k) obj = true).
  { apply existsb_exists. exists p. split; [exact Hin|]. now apply String.eqb_eq. }
  congruence.
Qed.

(** Reading a key of a marks object without duplicate keys after setting
    one. *)
Lemma marks_set_get k v obj k' :
  NoDup (map fst obj) ->
  marks_get k' (marks_set k v obj) = if String.eqb k k' then Some v else marks_get k' obj.
Proof.
  induction obj as [|[a va] r IH]; intros Hnd.
  - unfold marks_get. simpl. now destruct (String.eqb k k').
  - simpl in Hnd. inversion Hnd as [|? ? Ha Hr]; subst.
    destruct (String.eqb_spec a k) as [->|Hne].
    + rewrite marks_set_cons_eq by exact Ha.
      unfold marks_get. simpl. now destruct (String.eqb k k').
    + rewrite marks_set_cons_neq by exact Hne.
      unfold marks_get at 1. simpl.
      destruct (String.eqb_spec a k') as [->|Hak].
      * unfold marks_get. simpl. rewrite String.eqb_refl.
        apply String.eqb_neq in Hne. now rewrite String.eqb_sym, Hne.
      * fold (marks_get k' (marks_set k v r)). rewrite (IH Hr).
        unfold marks_get at 2. simpl. apply String.eqb_neq in Hak. now rewrite Hak.
Qed.

Lemma mark_booking_ok tz acc b :
  marks_ok acc ->
  marks_ok (mark_booking tz acc b)
  /\ forall k, marks_get k (mark_booking tz acc b) =
               if String.eqb (formatDateForCalendar tz (Booking.date b)) k then Some [primary]
               else marks_get k acc.
Proof.
  intros [Hnd Hv]. unfold mark_booking.
  destruct (marks_get _ acc) as [dots|] eqn:E.
  - pose proof (Hv _ _ E) as ->. simpl. split; [split; assumption|].
    intros k. destruct (String.eqb_spec (formatDateForCalendar tz (Booking.date b)) k) as [<-|];
      [exact E | reflexivity].
  - assert (G : forall k, marks_get k (marks_set (formatDateForCalendar tz (Booking.date b))
                                                 [primary] acc)
                          = if String.eqb (formatDateForCalendar tz (Booking.date b)) k
                            then Some [primary] else marks_get k acc)
      by (intros; now apply marks_set_get).
    split; [|exact G]. split; [now apply marks_set_NoDup|].
    intros k v Hk. rewrite G in Hk. destruct (String.eqb _ k); [congruence|eauto].
Qed.

Lemma fold_mark_booking tz bs acc :
  marks_ok acc ->
  marks_ok (fold_left (mark_booking tz) bs acc)
  /\ forall k, marks_get k (fold_left (mark_booking tz) bs acc) =
               if existsb (fun b => String.eqb (formatDateForCalendar tz (Booking.date b)) k) bs
               then Some [primary] else marks_get k acc.
Proof.
  revert acc. induction bs as [|b bs IH]; intros acc Hok; simpl; [now split|].
  destruct (mark_booking_ok tz acc b Hok) as [Hok' Hget].
  destruct (IH _ Hok') as [Hfin Hfget]. split; [exact Hfin|].
  intros k. rewrite Hfget, Hget.
  destruct (String.eqb _ k), (existsb _ bs); reflexivity.
Qed.

(** The day marks [loadBookings] computes have one entry per day
    that has a booking, with no day twice, and each entry is one dot of
    the primary colour. *)
Theorem markDates_spec tz l :
  NoDup (map fst (markDates tz l))
  /\ forall k, marks_get k (markDates tz l) =
               if existsb (fun b => String.eqb (formatDateForCalendar tz (Booking.date b)) k) l
               then Some [primary] else None.
Proof.
  assert (H0 : marks_ok []) by (split; [constructor | discriminate]).
  destruct (fold_mark_booking tz l [] H0) as [[Hnd _] Hget]. split; [exact Hnd|].
  intros k. rewrite Hget. now destruct (existsb _ l).
Qed.

(** ** Witnesses *)

Lemma handleDayPress_window_witness :
  (- msPerDay < Fixtures.tz_br < msPerDay)
  /\ (1000 <= getFullYear Fixtures.tz_br Fixtures.tue_0610_1200 <= 9999)
  /\ (fst (handleDayPress Fixtures.tz_br Fixtures.tue_0610_1200
             (formatDateForCalendar Fixtures.tz_br Fixtures.tue_0610_1200) cal_empty) = DaySelected
      <-> selectable Fixtures.tz_br (local_day Fixtures.tz_br Fixtures.tue_0610_1200
                                     - local_day Fixtures.tz_br Fixtures.tue_0610_1200)).
Proof.
  assert (Htz : - msPerDay < Fixtures.tz_br < msPerDay)
    by (unfold msPerDay, Fixtures.tz_br; lia).
  assert (Hy : 1000 <= getFullYear Fixtures.tz_br Fixtures.tue_0610_1200 <= 9999)
    by (vm_compute; split; discriminate).
  split; [exact Htz|]. split; [exact Hy|].
  exact (handleDayPress_window _ _ _ cal_empty Htz Hy).
Defined.

Lemma handleBookSlot_initial_date_witness :
  exists v,
    initialValues Fixtures.tue_0610_1200 (mkForm Fixtures.teacher1 [] None)
      (handleBookSlot (mkCal (formatDateForCalendar Fixtures.tz_br Fixtures.wed_0611_0800) [] [] [])
                      (mkSlotView (TimeSlot.mkSlot "07:10 - 08:00" "07:10" "08:00") true None))
    = Some v
    /\ local_day Fixtures.tz_br (date v)
       = local_day Fixtures.tz_br Fixtures.wed_0611_0800 - (if Fixtures.tz_br <? 0 then 1 else 0)
    /\ startTime v = "07:10"%string /\ endTime v = "08:00"%string.
Proof.
  apply (handleBookSlot_initial_date Fixtures.tz_br Fixtures.tue_0610_1200
           (mkForm Fixtures.teacher1 [] None)
           (mkCal (formatDateForCalendar Fixtures.tz_br Fixtures.wed_0611_0800) [] [] [])
           (mkSlotView (TimeSlot.mkSlot "07:10 - 08:00" "07:10" "08:00") true None)
           Fixtures.wed_0611_0800).
  - reflexivity.
  - unfold msPerDay, Fixtures.tz_br. lia.
  - vm_compute. split; discriminate.
  - reflexivity.
Defined.

Lemma render_slots_spec_witness :
  let st := snd (handleDayPress Fixtures.tz_br Fixtures.mon_0609_1200 "2025-06-11"
                   (mkCal "" [Fixtures.bookingC2] [] [])) in
  timeSlots st = updateTimeSlots Fixtures.tz_br (selectedDate st) (bookings st)
  /\ render_slots st = map (row_ref Fixtures.tz_br (selectedDate st) (bookings st)) getTimeSlots.
Proof.
  intros st. assert (H : timeSlots st = updateTimeSlots Fixtures.tz_br (selectedDate st) (bookings st))
    by (vm_compute; reflexivity).
  split; [exact H | exact (render_slots_spec _ st H)].
Defined.

End CalendarScreen.
