(* ===== verification/Home.v ===== *)
(** * Home: [src/screens/HomeScreen.js]

    The home screen shows the current teacher, the teacher's next three
    bookings from today on, and the next five weekdays with a free period
    ([calculateAvailableSlots]).  The latter is a [while] loop over the
    days from today, which stops once five days are found; it is modelled
    with fuel, and the theorems show that the loop ends: a fuel of the
    number of days up to the last booked day plus eight is enough, and the
    result is then the first five days with a free period, each with its
    free periods in the order of [getTimeSlots]. *)

From Stdlib Require Import ZArith Lia Bool String List Sorted Permutation.
From S2P Require Import Prelude Civil JsDate Model Fixtures DateUtils Store.
Import ListNotations.

Open Scope Z_scope.
Open Scope agenda_scope.
Open Scope list_scope.

Module HomeScreen.
Import JsDate DateUtils Store.

(** An entry of [day.slots]. *)
Record free_slot := mkFree { time : string; label : string; endTime : string }.

(** An entry of [availableDays]; [dayName], the weekday of
    [toLocaleDateString], is display only and not kept. *)
Record day_card := mkDay { dc_date : string; dayNumber : Z; slots : list free_slot }.

Definition to_free (slot : TimeSlot.slot) : free_slot :=
  mkFree (TimeSlot.value slot) (TimeSlot.label slot) (TimeSlot.endTime slot).

(** The periods of [formattedDate] that no booking of that day starts
    at, pushed in the order of [getTimeSlots]. *)
Definition free_slots (tz : Z) (formattedDate : string) (allBookings : list Booking.booking)
  : list free_slot :=
  let bookingsForDay :=
    filter (fun booking => String.eqb (formatDateForCalendar tz (Booking.date booking)) formattedDate)
           allBookings in
  fold_left (fun acc slot =>
               let isBooked := existsb (fun booking => String.eqb (Booking.startTime booking)
                                                                  (TimeSlot.value slot))
                                       bookingsForDay in
               if isBooked then acc
               else acc ++ [to_free slot])
            getTimeSlots [].

(** The body of the [while] loop for [currentDate]. *)
Definition visit_day (tz : Z) (allBookings : list Booking.booking) (currentDate : Z)
  (availableDays : list day_card) : list day_card :=
  if negb (getDay tz currentDate =? 0) && negb (getDay tz currentDate =? 6) then
    let formattedDate := formatDateForCalendar tz currentDate in
    let day := mkDay formattedDate (getDate tz currentDate)
                     (free_slots tz formattedDate allBookings) in
    if (0 <? length (slots day))%nat then availableDays ++ [day] else availableDays
  else availableDays.

(** [while (availableDays.length < 5)], with [fuel] iterations at most;
    [None] when the fuel runs out. *)
Fixpoint calc_loop (tz today : Z) (allBookings : list Booking.booking) (fuel : nat)
  (dayCount currentDate : Z) (availableDays : list day_card) : option (list day_card) :=
  match fuel with
  | O => None
  | S fuel' =>
      if (length availableDays <? 5)%nat then
        let availableDays' := visit_day tz allBookings currentDate availableDays in
        let dayCount' := dayCount + 1 in
        calc_loop tz today allBookings fuel' dayCount'
                  (setDate tz today (getDate tz today + dayCount')) availableDays'
      else Some availableDays
  end.

Definition calculateAvailableSlots (tz now : Z) (fuel : nat) (allBookings : list Booking.booking)
  : option (list day_card) :=
  calc_loop tz now allBookings fuel 0 now [].

(** [(a, b) => new Date(a.date) - new Date(b.date)] as [cmp(a, b) <= 0]. *)
Definition le_date (a b : Booking.booking) : bool := Booking.date a <=? Booking.date b.

(** [teacherBookings.sort(...)] by ascending date. *)
Definition sort_by_date (l : list Booking.booking) : list Booking.booking := sort_by le_date l.

Inductive home_result :=
  | NeedsRegister
  | HomeLoaded (teacher : Teacher.teacher) (myBookings : list Booking.booking)
               (nextAvailableSlots : option (list day_card))
  | HomeFailed.

(** [loadData] of the home screen. *)
Definition loadData (tz now : Z) (fuel : nat) : M home_result :=
  catch (currentTeacher <- getCurrentTeacher ;;
         match currentTeacher with
         | None => ret NeedsRegister
         | Some t =>
             allBookings <- getBookings ;;
             let today := setHours tz now 0 0 0 0 in
             let teacherBookings :=
               filter (fun booking => String.eqb (Booking.teacherId booking) (Teacher.id t)
                                      && (today <=? Booking.date booking)) allBookings in
             ret (HomeLoaded t (firstn 3 (sort_by_date teacherBookings))
                             (calculateAvailableSlots tz now fuel allBookings))
         end)
        (fun _ => ret HomeFailed).

(** The days the loop visits, from [dayCount = k] on, [n] of them, each
    giving its card when it has one. *)
Fixpoint days_from (tz now : Z) (l : list Booking.booking) (k : Z) (n : nat) : list day_card :=
  match n with
  | O => []
  | S n' => visit_day tz l (now + k * msPerDay) [] ++ days_from tz now l (k + 1) n'
  end.

(** 1 for a weekday, 0 for Saturday and Sunday. *)
Definition weekday_count (z : Z) : nat :=
  if negb (Civil.weekday z =? 0) && negb (Civil.weekday z =? 6) then 1 else 0.

(** [weekday_count] summed over [n] days from [z]. *)
Fixpoint wd_sum (z : Z) (n : nat) : nat :=
  match n with
  | O => O
  | S n' => (weekday_count z + wd_sum (z + 1) n')%nat
  end.

(** The bookings the home screen lists: the teacher's, from the local
    day of [now] on. *)
Definition upcoming (tz now : Z) (t : Teacher.teacher) (b : Booking.booking) : bool :=
  String.eqb (Booking.teacherId b) (Teacher.id t) && (local_day tz now <=? local_day tz (Booking.date b)).

(** ** Free periods of a day *)

(** [C34] The periods the home screen lists for a day are the periods of
    [getTimeSlots], in order, for which [isTimeSlotAvailable] holds on that
    day. *)
Theorem free_slots_spec tz t l :
  free_slots tz (formatDateForCalendar tz t) l
  = map to_free (filter (fun slot => isTimeSlotAvailable tz t (TimeSlot.value slot) l) getTimeSlots).
Proof.
  unfold free_slots. rewrite fold_push, app_nil_l. f_equal. apply filter_ext. intros slot.
  unfold isTimeSlotAvailable. rewrite find_none_existsb, existsb_filter. f_equal.
Qed.

(** ** The loop *)

Lemma visit_day_app tz l t acc : visit_day tz l t acc = acc ++ visit_day tz l t [].
Proof.
  unfold visit_day. destruct (_ && _); [destruct (0 <? _)%nat|]; simpl; now rewrite ?app_nil_r.
Qed.

Lemma visit_day_length tz l t : (length (visit_day tz l t []) <= 1)%nat.
Proof. unfold visit_day. destruct (_ && _); [destruct (0 <? _)%nat|]; simpl; lia. Qed.

Lemma getDay_shift tz now j : getDay tz (now + j * msPerDay) = Civil.weekday (local_day tz now + j).
Proof. unfold getDay. now rewrite local_day_shift. Qed.

Lemma calc_loop_S tz today l f dayCount currentDate acc :
  calc_loop tz today l (S f) dayCount currentDate acc =
  if (length acc <? 5)%nat then
    calc_loop tz today l f (dayCount + 1) (setDate tz today (getDate tz today + (dayCount + 1)))
              (visit_day tz l currentDate acc)
  else Some acc.
Proof. reflexivity. Qed.

Lemma calc_loop_spec tz now l f k acc :
  (length acc <= 5)%nat ->
  (5 <= length acc + length (days_from tz now l k f))%nat ->
  calc_loop tz now l (S f) k (now + k * msPerDay) acc = Some (firstn 5 (acc ++ days_from tz now l k f)).
Proof.
  revert k acc. induction f as [|f IH]; intros k acc H5 Hen.
  - rewrite calc_loop_S. simpl in *. rewrite app_nil_r. replace (length acc <? 5)%nat with false by (symmetry; apply Nat.ltb_ge; lia).
    now rewrite firstn_all2 by lia.
  - rewrite calc_loop_S. destruct (Nat.ltb_spec (length acc) 5) as [Hlt|Hge].
    + rewrite setDate_getDate_add, visit_day_app.
      pose proof (visit_day_length tz l (now + k * msPerDay)).
      rewrite IH; simpl; rewrite ?length_app, ?app_assoc; [reflexivity| lia |].
      simpl in Hen. rewrite length_app in Hen. lia.
    + assert (E : length acc = 5%nat) by lia. f_equal.
      rewrite <- E at 1. rewrite <- (Nat.add_0_r (length acc)), firstn_app_2. simpl.
      now rewrite app_nil_r.
Qed.
(** ** Counting the days *)

Lemma weekday_mod z i : Civil.weekday (z mod 7 + i) = Civil.weekday (z + i).
Proof.
  unfold Civil.weekday. rewrite <- !Z.add_assoc, Z.add_mod_idemp_l by discriminate.
  reflexivity.
Qed.

Lemma wd_sum_mod z i n : wd_sum (z mod 7 + i) n = wd_sum (z + i) n.
Proof.
  revert i. induction n as [|n IH]; intros i; simpl; [reflexivity|].
  unfold weekday_count. rewrite weekday_mod.
  replace (z mod 7 + i + 1) with (z mod 7 + (i + 1)) by lia.
  replace (z + i + 1) with (z + (i + 1)) by lia. now rewrite IH.
Qed.

(** Seven consecutive days hold five weekdays. *)
Lemma wd_sum_week z : wd_sum z 7 = 5%nat.
Proof.
  rewrite <- (Z.add_0_r z), <- wd_sum_mod.
  pose proof (Z.mod_pos_bound z 7 ltac:(lia)) as Hr.
  assert (H : z mod 7 = 0 \/ z mod 7 = 1 \/ z mod 7 = 2 \/ z mod 7 = 3 \/ z mod 7 = 4
              \/ z mod 7 = 5 \/ z mod 7 = 6) by lia.
  repeat destruct H as [H|H]; rewrite H; reflexivity.
Qed.

Lemma free_slots_none tz key l :
  filter (fun booking => String.eqb (formatDateForCalendar tz (Booking.date booking)) key) l = [] ->
  free_slots tz key l = map to_free getTimeSlots.
Proof. intros H. unfold free_slots. rewrite H. reflexivity. Qed.

(** A day after every booking has all its periods free. *)
Lemma visit_day_free tz l t :
  (forall b, In b l -> local_day tz (Booking.date b) < local_day tz t) ->
  length (visit_day tz l t []) = weekday_count (local_day tz t).
Proof.
  intros Hl. unfold visit_day, weekday_count, getDay.
  destruct (_ && _); [|reflexivity]. cbv zeta.
  rewrite free_slots_none; [reflexivity|].
  rewrite (filter_ext_in _ (fun _ => false)); [apply filter_false|].
  intros b Hb. apply String.eqb_neq. intros E.
  apply formatDateForCalendar_day in E. specialize (Hl b Hb). lia.
Qed.

Lemma days_from_free tz now l k n :
  (forall b, In b l -> local_day tz (Booking.date b) < local_day tz now + k) ->
  length (days_from tz now l k n) = wd_sum (local_day tz now + k) n.
Proof.
  revert k. induction n as [|n IH]; intros k Hl; simpl; [reflexivity|].
  rewrite length_app, visit_day_free, local_day_shift.
  - rewrite IH by (intros b Hb; specialize (Hl b Hb); lia).
    now replace (local_day tz now + (k + 1)) with (local_day tz now + k + 1) by lia.
  - intros b Hb. rewrite local_day_shift. auto.
Qed.

Lemma days_from_add tz now l k a b :
  days_from tz now l k (a + b) = days_from tz now l k a ++ days_from tz now l (k + Z.of_nat a) b.
Proof.
  revert k. induction a as [|a IH]; intros k; simpl; [now rewrite Z.add_0_r|].
  rewrite IH, app_assoc. now replace (k + Z.of_nat (S a)) with (k + 1 + Z.of_nat a) by lia.
Qed.

(** [C35] The loop of [calculateAvailableSlots] ends: when every booking
    is before day [N] from today, a fuel of [N + 8] iterations is enough,
    and the loop returns five days, the first five weekdays from today
    (today's instant, then one day after another) that have a free
    period. *)
Theorem calculateAvailableSlots_terminates tz now l N fuel :
  (forall b, In b l -> local_day tz (Booking.date b) < local_day tz now + N) ->
  0 <= N ->
  N + 8 <= Z.of_nat fuel ->
  calculateAvailableSlots tz now fuel l = Some (firstn 5 (days_from tz now l 0 (Nat.pred fuel)))
  /\ length (firstn 5 (days_from tz now l 0 (Nat.pred fuel))) = 5%nat.
Proof.
  intros Hl HN Hf. destruct fuel as [|f]; [lia|]. simpl Nat.pred.
  assert (Hsplit : f = (Z.to_nat N + (7 + (f - Z.to_nat N - 7)))%nat) by lia.
  assert (H5 : (5 <= length (days_from tz now l 0 f))%nat).
  { rewrite Hsplit, !days_from_add, !length_app, days_from_free with (k := 0 + Z.of_nat (Z.to_nat N)).
    - rewrite wd_sum_week. lia.
    - intros b Hb. specialize (Hl b Hb). lia. }
  unfold calculateAvailableSlots.
  pose proof (calc_loop_spec tz now l f 0 [] ltac:(simpl; lia) ltac:(simpl; lia)) as H.
  rewrite Z.mul_0_l, Z.add_0_r in H. rewrite H. split; [reflexivity|].
  rewrite length_firstn. lia.
Qed.

(** ** The next bookings *)

Lemma le_date_total a b : le_date a b = false -> le_date b a = true.
Proof. unfold le_date. rewrite Z.leb_gt, Z.leb_le. lia. Qed.

Lemma le_date_trans a b c : le_date a b = true -> le_date b c = true -> le_date a c = true.
Proof. unfold le_date. rewrite !Z.leb_le. lia. Qed.

(** [C36] With the store read without faults and a current teacher, the
    home screen lists the teacher's first three bookings from today on by
    date: the listed bookings and the others are together the teacher's
    bookings from today on, the listed ones are in date order, there are
    three of them or all, and none is later than one not listed. *)
Theorem home_next_bookings tz now fuel s t :
  st_faults s = [] -> st_current s = Some t ->
  exists my rest,
    fst (loadData tz now fuel s)
    = inl (HomeLoaded t my (calculateAvailableSlots tz now fuel (bookings_of s)))
    /\ Permutation (my ++ rest) (filter (upcoming tz now t) (bookings_of s))
    /\ Sorted (fun a b => le_date a b = true) my
    /\ length my = Nat.min 3 (length (filter (upcoming tz now t) (bookings_of s)))
    /\ (forall x y, In x my -> In y rest -> le_date x y = true).
Proof.
  intros Hf Hc.
  set (P := fun booking => String.eqb (Booking.teacherId booking) (Teacher.id t)
                           && (setHours tz now 0 0 0 0 <=? Booking.date booking)).
  assert (HP : filter P (bookings_of s) = filter (upcoming tz now t) (bookings_of s)).
  { apply filter_ext. intros b. unfold P, upcoming. f_equal.
    rewrite setHours_midnight. unfold start_of_day.
    apply eq_true_iff_eq. rewrite !Z.leb_le. apply day_start_le_iff. }
  exists (firstn 3 (sort_by_date (filter P (bookings_of s)))),
         (skipn 3 (sort_by_date (filter P (bookings_of s)))).
  rewrite <- HP. split; [|split; [|split; [|split]]].
  - destruct s as [ts bs c fs]. simpl in Hf, Hc. subst. reflexivity.
  - rewrite firstn_skipn. apply sort_by_perm.
  - pose proof (sort_by_sorted le_date le_date_total (filter P (bookings_of s))) as Hs.
    rewrite <- (firstn_skipn 3) in Hs. exact (sorted_app_l _ _ _ Hs).
  - rewrite length_firstn. unfold sort_by_date. now rewrite (Permutation_length (sort_by_perm _ _)).
  - apply (sorted_app_le le_date le_date_trans).
    rewrite firstn_skipn. apply (sort_by_sorted le_date le_date_total).
Qed.

(** ** Witnesses *)

Lemma calculateAvailableSlots_terminates_witness :
  exists r,
    calculateAvailableSlots Fixtures.tz_br Fixtures.tue_0610_1200 10
      [Fixtures.bookingC1; Fixtures.bookingC2] = Some r /\ length r = 5%nat.
Proof.
  eexists. apply (calculateAvailableSlots_terminates Fixtures.tz_br Fixtures.tue_0610_1200
                    [Fixtures.bookingC1; Fixtures.bookingC2] 2 10).
  - intros b [<-|[<-|[]]]; vm_compute; reflexivity.
  - lia.
  - simpl. lia.
Defined.

Lemma home_next_bookings_witness :
  exists my rest,
    fst (loadData Fixtures.tz_br Fixtures.mon_0609_0800 10
           (mkStorage (Some [Fixtures.teacher1]) (Some [Fixtures.bookingC2; Fixtures.bookingC1])
                      (Some Fixtures.teacher1) []))
    = inl (HomeLoaded Fixtures.teacher1 my
             (calculateAvailableSlots Fixtures.tz_br Fixtures.mon_0609_0800 10
                [Fixtures.bookingC2; Fixtures.bookingC1]))
    /\ Permutation (my ++ rest)
         (filter (upcoming Fixtures.tz_br Fixtures.mon_0609_0800 Fixtures.teacher1)
                 [Fixtures.bookingC2; Fixtures.bookingC1])
    /\ Sorted (fun a b => le_date a b = true) my
    /\ length my = Nat.min 3 (length (filter (upcoming Fixtures.tz_br Fixtures.mon_0609_0800
                                                Fixtures.teacher1)
                                             [Fixtures.bookingC2; Fixtures.bookingC1]))
    /\ (forall x y, In x my -> In y rest -> le_date x y = true).
Proof.
  apply (home_next_bookings Fixtures.tz_br Fixtures.mon_0609_0800 10
           (mkStorage (Some [Fixtures.teacher1]) (Some [Fixtures.bookingC2; Fixtures.bookingC1])
                      (Some Fixtures.teacher1) [])); reflexivity.
Defined.

End HomeScreen.
