(* ===== verification/MyBookings.v ===== *)
(** * MyBookings: [src/screens/MyBookingsScreen.js]

    The screen lists the current teacher's bookings: those not yet past
    first, nearest first, then the past ones, most recent first
    ([loadBookings]).  A booking not past has a cancel button
    ([renderBookingItem]); [handleCancelBooking] refuses a cancellation
    less than 24 hours ahead, asks for confirmation, deletes the booking
    and reloads the list. *)

From Stdlib Require Import ZArith Lia Bool String List Sorted Permutation.
From S2P Require Import Prelude Civil JsDate Model Fixtures DateUtils Store.
Import ListNotations.

Open Scope Z_scope.
Open Scope agenda_scope.
Open Scope list_scope.

Module MyBookingsScreen.
Import JsDate DateUtils Store.

(** [(a, b) => new Date(a.date) - new Date(b.date)] and its reverse, as
    [cmp(a, b) <= 0]. *)
Definition le_asc (a b : Booking.booking) : bool := Booking.date a <=? Booking.date b.
Definition le_desc (a b : Booking.booking) : bool := Booking.date b <=? Booking.date a.

Inductive load_result :=
  | NeedsRegister
  | Loaded (teacher : Teacher.teacher) (bookings : list Booking.booking)
  | LoadFailed.

(** [loadBookings]. *)
Definition loadBookings (tz now : Z) : M load_result :=
  catch (currentTeacher <- getCurrentTeacher ;;
         match currentTeacher with
         | None => ret NeedsRegister
         | Some t =>
             allBookings <- getBookings ;;
             let teacherBookings :=
               filter (fun booking => String.eqb (Booking.teacherId booking) (Teacher.id t))
                      allBookings in
             let futureBookings :=
               filter (fun booking => negb (isPastDate tz now (Booking.date booking)))
                      teacherBookings in
             let pastBookings :=
               filter (fun booking => isPastDate tz now (Booking.date booking)) teacherBookings in
             ret (Loaded t (sort_by le_asc futureBookings ++ sort_by le_desc pastBookings))
         end)
        (fun _ => ret LoadFailed).

(** [{!isPast && <AppButton title="Cancelar Agendamento" .../>}] *)
Definition showsCancelButton (tz now : Z) (item : Booking.booking) : bool :=
  negb (isPastDate tz now (Booking.date item)).

Inductive cancel_result :=
  | CancelRefused
  | CancelDismissed
  | Cancelled (reloaded : load_result)
  | CancelFailed.

(** [handleCancelBooking]; [confirmed] is the answer to the alert.  The
    list is reloaded after the deletion ([loadBookings()] is not
    awaited; it runs after [deleteBooking] has finished). *)
Definition handleCancelBooking (tz now : Z) (booking : Booking.booking) (confirmed : bool)
  : M cancel_result :=
  if negb (canCancelBooking now (Booking.date booking)) then ret CancelRefused
  else if negb confirmed then ret CancelDismissed
  else catch (_ <- deleteBooking (Booking.id booking) ;;
              r <- loadBookings tz now ;;
              ret (Cancelled r))
             (fun _ => ret CancelFailed).

(** A store of teacher 1 with the bookings [l] and no faults. *)
Definition store_with (l : list Booking.booking) : storage :=
  mkStorage (Some [Fixtures.teacher1]) (Some l) (Some Fixtures.teacher1) [].

(** ** Order of the list *)

Lemma le_asc_total a b : le_asc a b = false -> le_asc b a = true.
Proof. unfold le_asc. rewrite Z.leb_gt, Z.leb_le. lia. Qed.

Lemma le_asc_trans a b c : le_asc a b = true -> le_asc b c = true -> le_asc a c = true.
Proof. unfold le_asc. rewrite !Z.leb_le. lia. Qed.

Lemma le_desc_total a b : le_desc a b = false -> le_desc b a = true.
Proof. unfold le_desc. rewrite Z.leb_gt, Z.leb_le. lia. Qed.

Lemma filter_split {A} (p : A -> bool) (l : list A) :
  Permutation (filter (fun x => negb (p x)) l ++ filter p l) l.
Proof.
  induction l as [|a l IH]; simpl; [reflexivity|].
  destruct (p a); simpl.
  - rewrite <- Permutation_middle. now constructor.
  - now constructor.
Qed.

Lemma loadBookings_nofault tz now s t :
  st_faults s = [] -> st_current s = Some t ->
  loadBookings tz now s =
  (inl (Loaded t
    (sort_by le_asc (filter (fun b => negb (isPastDate tz now (Booking.date b)))
                      (filter (fun b => String.eqb (Booking.teacherId b) (Teacher.id t)) (bookings_of s)))
     ++ sort_by le_desc (filter (fun b => isPastDate tz now (Booking.date b))
                      (filter (fun b => String.eqb (Booking.teacherId b) (Teacher.id t)) (bookings_of s))))),
   s).
Proof. destruct s as [ts bs c fs]. simpl. intros -> ->. reflexivity. Qed.

(** [C37] With the store read without faults and a current teacher, the
    list is the teacher's bookings, each once: first those of today or
    later, nearest first, each with a cancel button, then the past ones,
    most recent first, none with a cancel button. *)
Theorem loadBookings_order tz now s t :
  st_faults s = [] -> st_current s = Some t ->
  exists fut past,
    fst (loadBookings tz now s) = inl (Loaded t (fut ++ past))
    /\ Permutation (fut ++ past)
         (filter (fun b => String.eqb (Booking.teacherId b) (Teacher.id t)) (bookings_of s))
    /\ (forall b, In b fut -> local_day tz now <= local_day tz (Booking.date b)
                              /\ showsCancelButton tz now b = true)
    /\ (forall b, In b past -> local_day tz (Booking.date b) < local_day tz now
                               /\ showsCancelButton tz now b = false)
    /\ Sorted (fun a b => (Booking.date a <=? Booking.date b) = true) fut
    /\ Sorted (fun a b => (Booking.date b <=? Booking.date a) = true) past.
Proof.
  intros Hf Hc. rewrite (loadBookings_nofault tz now s t Hf Hc). simpl fst.
  set (T := filter _ (bookings_of s)).
  eexists _, _. split; [reflexivity|]. split; [|split; [|split; [|split]]].
  - rewrite (sort_by_perm le_asc), (sort_by_perm le_desc). apply filter_split.
  - intros b Hb. rewrite (sort_by_perm le_asc) in Hb. apply filter_In in Hb as [_ Hb].
    unfold showsCancelButton. rewrite Hb. split; [|reflexivity].
    apply negb_true_iff in Hb. destruct (Z.le_gt_cases (local_day tz now) (local_day tz (Booking.date b)));
      [assumption|]. apply isPastDate_days in H. congruence.
  - intros b Hb. rewrite (sort_by_perm le_desc) in Hb. apply filter_In in Hb as [_ Hb].
    unfold showsCancelButton. rewrite Hb. split; [now apply isPastDate_days | reflexivity].
  - exact (sort_by_sorted le_asc le_asc_total _).
  - exact (sort_by_sorted le_desc le_desc_total _).
Qed.

(** ** Cancelling *)

(** A booking less than 24 hours ahead is not cancelled: the
    screen alerts and the store is left as it is, whatever the answer and
    the store. *)
Theorem handleCancelBooking_refused tz now booking confirmed s :
  canCancelBooking now (Booking.date booking) = false ->
  handleCancelBooking tz now booking confirmed s = (inl CancelRefused, s).
Proof. intros H. unfold handleCancelBooking. now rewrite H. Qed.

(** A confirmed cancellation at least 24 hours ahead, on a store
    without faults, removes every booking with that id from the store and
    reloads a list in which no booking has that id. *)
Theorem handleCancelBooking_cancels tz now booking s t :
  canCancelBooking now (Booking.date booking) = true ->
  st_faults s = [] -> st_current s = Some t ->
  exists l,
    handleCancelBooking tz now booking true s
    = (inl (Cancelled (Loaded t l)),
       with_bookings s (filter (fun b => negb (String.eqb (Booking.id b) (Booking.id booking)))
                               (bookings_of s)))
    /\ forall b, In b l -> Booking.id b <> Booking.id booking.
Proof.
  intros Hcan Hf Hc. unfold handleCancelBooking. rewrite Hcan. cbn [negb].
  unfold catch, bind. cbv beta. rewrite (deleteBooking_eqn _ s Hf).
  rewrite (loadBookings_nofault tz now _ t) by (simpl; assumption).
  eexists. split; [reflexivity|].
  intros b Hb. apply in_app_iff in Hb.
  destruct Hb as [Hb|Hb]; rewrite ?(sort_by_perm le_asc), ?(sort_by_perm le_desc) in Hb;
    apply filter_In in Hb as [Hb _]; apply filter_In in Hb as [Hb _];
    unfold bookings_of in Hb; simpl in Hb; apply filter_In in Hb as [_ Hb];
    apply negb_true_iff, String.eqb_neq in Hb; exact Hb.
Qed.

(** ** Witnesses *)

Lemma loadBookings_order_witness :
  exists fut past,
    fst (loadBookings Fixtures.tz_br Fixtures.tue_0610_1200
           (store_with [Fixtures.bookingC1; Fixtures.bookingC2]))
    = inl (Loaded Fixtures.teacher1 (fut ++ past))
    /\ Permutation (fut ++ past)
         (filter (fun b => String.eqb (Booking.teacherId b) (Teacher.id Fixtures.teacher1))
                 (bookings_of (store_with [Fixtures.bookingC1; Fixtures.bookingC2])))
    /\ (forall b, In b fut -> local_day Fixtures.tz_br Fixtures.tue_0610_1200
                              <= local_day Fixtures.tz_br (Booking.date b)
                              /\ showsCancelButton Fixtures.tz_br Fixtures.tue_0610_1200 b = true)
    /\ (forall b, In b past -> local_day Fixtures.tz_br (Booking.date b)
                               < local_day Fixtures.tz_br Fixtures.tue_0610_1200
                               /\ showsCancelButton Fixtures.tz_br Fixtures.tue_0610_1200 b = false)
    /\ Sorted (fun a b => (Booking.date a <=? Booking.date b) = true) fut
    /\ Sorted (fun a b => (Booking.date b <=? Booking.date a) = true) past.
Proof. apply loadBookings_order; reflexivity. Defined.

Lemma handleCancelBooking_refused_witness :
  canCancelBooking Fixtures.tue_0610_1200 (Booking.date Fixtures.bookingD20) = false
  /\ handleCancelBooking Fixtures.tz_br Fixtures.tue_0610_1200 Fixtures.bookingD20 true
       (store_with [Fixtures.bookingD20])
     = (inl CancelRefused, store_with [Fixtures.bookingD20]).
Proof.
  assert (H : canCancelBooking Fixtures.tue_0610_1200 (Booking.date Fixtures.bookingD20) = false)
    by (vm_compute; reflexivity).
  split; [exact H | exact (handleCancelBooking_refused _ _ _ _ _ H)].
Defined.

Lemma handleCancelBooking_cancels_witness :
  exists l,
    handleCancelBooking Fixtures.tz_br Fixtures.tue_0610_1200 Fixtures.bookingD25 true
      (store_with [Fixtures.bookingD25; Fixtures.bookingC1])
    = (inl (Cancelled (Loaded Fixtures.teacher1 l)),
       with_bookings (store_with [Fixtures.bookingD25; Fixtures.bookingC1])
         (filter (fun b => negb (String.eqb (Booking.id b) (Booking.id Fixtures.bookingD25)))
                 (bookings_of (store_with [Fixtures.bookingD25; Fixtures.bookingC1]))))
    /\ forall b, In b l -> Booking.id b <> Booking.id Fixtures.bookingD25.
Proof.
  apply handleCancelBooking_cancels; [vm_compute|..]; reflexivity.
Defined.

End MyBookingsScreen.
