(* ===== verification/Register.v ===== *)
(** * Register: [src/screens/TeacherRegisterScreen.js] and [App.js]

    At start the app routes to the registration unless a current teacher
    is stored ([checkTeacher] of [App.js]).  The registration form is
    validated (name, e-mail and subject required, the e-mail well formed)
    and [handleRegister] saves the teacher (an upsert by e-mail,
    [saveTeacher]), makes it the current teacher ([setCurrentTeacher]) and
    replaces the screen by the main tabs.  The theorems show that a
    registration on a store without faults leads to the home screen of
    that teacher, that registering again with a known e-mail keeps the
    teacher's id, and that a failed write of the current teacher is
    reported as a success and sends the teacher back to the registration
    from the home screen.  A registration session (the edits of the four
    fields, then "Cadastrar") stays on the registration with the store
    unchanged exactly when the last text typed in a required field is
    empty or the e-mail test refuses the last e-mail typed ([last_typed]
    reads the edits independently of [fill]). *)

From Stdlib Require Import ZArith Lia Bool Ascii String List.
From S2P Require Import Prelude JsDate Model Fixtures DateUtils Store Home.
Import ListNotations.

Open Scope Z_scope.
Open Scope agenda_scope.

Module Register.
Import Store.

(** The form's [values]. *)
Record form_values := mkForm {
  name : string;
  email : string;
  disciplina : string;
  phone : string
}.

Section Validation.
(** Yup's [.email()] test, a regular expression of the library. *)
Variable is_email : string -> bool.

(** [validationSchema]: [required()] refuses the empty string. *)
Definition validationSchema (v : form_values) : bool :=
  js_truthy (name v) && js_truthy (email v) && is_email (email v) && js_truthy (disciplina v).
End Validation.

Inductive register_result := Registered | RegisterFailed.

(** [handleRegister]; [Registered] is [navigation.replace('MainApp')]. *)
Definition handleRegister (now : Z) (values : form_values) : M register_result :=
  catch (teacher <- saveTeacher now
                      (Teacher.mkInput (name values) (email values) (disciplina values)
                                       (if js_truthy (phone values) then phone values else "")) ;;
         _ <- setCurrentTeacher teacher ;;
         ret Registered)
        (fun _ => ret RegisterFailed).

(** Formik calls [onSubmit] only with values the schema accepts. *)
Definition submitRegister (is_email : string -> bool) (now : Z) (values : form_values)
  : M (option register_result) :=
  if validationSchema is_email values
  then r <- handleRegister now values ;; ret (Some r)
  else ret None.

Inductive route := TeacherRegister | MainApp.

(** [checkTeacher] of [App.js]: the initial route. *)
Definition checkTeacher : M route :=
  catch (teacher <- getCurrentTeacher ;;
         ret (match teacher with Some _ => MainApp | None => TeacherRegister end))
        (fun _ => ret TeacherRegister).

(** The teachers a state holds ([getTeachers] on a state without faults). *)
Definition teachers_of (s : storage) : list Teacher.teacher :=
  match st_teachers s with Some l => l | None => [] end.

(** A stand-in for Yup's e-mail test: an at sign. *)
Definition has_at (e : string) : bool := existsb (Ascii.eqb "@"%char) (list_ascii_of_string e).

Definition values_ana : form_values := mkForm "Ana Souza" "ana@escola.br" "Fisica" "".

(** Teacher 1 registering again, with a new phone. *)
Definition values_teacher1 : form_values :=
  mkForm (Teacher.name Fixtures.teacher1) (Teacher.email Fixtures.teacher1)
         (Teacher.disciplina Fixtures.teacher1) "11 99999-0000".

(** A store holding teacher 1, who is not the current teacher, with the
    given faults. *)
Definition store_t1 (fs : list bool) : storage :=
  mkStorage (Some [Fixtures.teacher1]) (Some [Fixtures.bookingC1]) None fs.

(** The form as it opens: Formik's [initialValues]. *)
Definition initialValues : form_values := mkForm "" "" "" "".

(** The four text inputs ([onChangeText={handleChange(field)}]). *)
Inductive field_event :=
  | ChangeName (s : string)
  | ChangeEmail (s : string)
  | ChangeDisciplina (s : string)
  | ChangePhone (s : string).

Definition edit (v : form_values) (e : field_event) : form_values :=
  match e with
  | ChangeName s => mkForm s (email v) (disciplina v) (phone v)
  | ChangeEmail s => mkForm (name v) s (disciplina v) (phone v)
  | ChangeDisciplina s => mkForm (name v) (email v) s (phone v)
  | ChangePhone s => mkForm (name v) (email v) (disciplina v) s
  end.

(** The values after the user's edits, then the press on "Cadastrar". *)
Definition fill (es : list field_event) : form_values := fold_left edit es initialValues.

Definition register_session (is_email : string -> bool) (now : Z) (es : list field_event)
  : M (option register_result) :=
  submitRegister is_email now (fill es).

(** The last text typed in one field, read off the edits by [sel]:
    [None] when the field was never typed in. *)
Fixpoint typed (sel : field_event -> option string) (es : list field_event) : option string :=
  match es with
  | [] => None
  | e :: r => match typed sel r with Some x => Some x | None => sel e end
  end.

(** The field's text after the edits: the last text typed, [""] when
    none was. *)
Definition last_typed (sel : field_event -> option string) (es : list field_event) : string :=
  match typed sel es with Some x => x | None => "" end.

Definition name_of (e : field_event) : option string :=
  match e with ChangeName x => Some x | _ => None end.
Definition email_of (e : field_event) : option string :=
  match e with ChangeEmail x => Some x | _ => None end.
Definition disciplina_of (e : field_event) : option string :=
  match e with ChangeDisciplina x => Some x | _ => None end.
Definition phone_of (e : field_event) : option string :=
  match e with ChangePhone x => Some x | _ => None end.

(** ** Saving a teacher *)

Lemma saveTeacher_ok now inp s fs :
  (st_faults s = [] /\ fs = []) \/ st_faults s = false :: false :: fs ->
  exists t l,
    saveTeacher now inp s = (inl t, mkStorage (Some l) (st_bookings s) (st_current s) fs)
    /\ In t l /\ Teacher.email t = Teacher.in_email inp
    /\ (forall te, find (fun t => String.eqb (Teacher.email t) (Teacher.in_email inp)) (teachers_of s)
                   = Some te -> Teacher.id t = Teacher.id te).
Proof.
  intros Hf. destruct s as [ts bs c fs0]. unfold teachers_of. simpl in *.
  set (ex := match ts with Some l => l | None => [] end).
  assert (Hts : saveTeacher now inp (mkStorage ts bs c fs0) =
     match find (fun t => String.eqb (Teacher.email t) (Teacher.in_email inp)) ex with
     | Some te => (inl (merge_teacher te inp),
                   mkStorage (Some (map (fun t => if String.eqb (Teacher.email t) (Teacher.in_email inp)
                                                  then merge_teacher t inp else t) ex)) bs c fs)
     | None => (inl (Teacher.mkTeacher (JsDate.number_to_string now) (Teacher.in_name inp)
                       (Teacher.in_email inp) (Teacher.in_disciplina inp) (Teacher.in_phone inp) now),
                mkStorage (Some (ex ++ [Teacher.mkTeacher (JsDate.number_to_string now) (Teacher.in_name inp)
                       (Teacher.in_email inp) (Teacher.in_disciplina inp) (Teacher.in_phone inp) now])) bs c fs)
     end).
  { unfold ex. destruct Hf as [[-> ->]| ->]; run_store;
      (destruct ts as [l|]; [destruct (find _ l); reflexivity | reflexivity]). }
  rewrite Hts. destruct (find _ ex) as [te|] eqn:E.
  - apply find_some in E as [Hin Ee]. do 2 eexists. split; [reflexivity|].
    split; [|split; [reflexivity | intros ? H; now injection H as <-]].
    apply in_map_iff. exists te. now rewrite Ee.
  - do 2 eexists. split; [reflexivity|].
    split; [apply in_or_app; right; now left | split; [reflexivity | discriminate]].
Qed.
Lemma handleRegister_ok now v s fs :
  (st_faults s = [] /\ fs = []) \/ st_faults s = false :: false :: fs ->
  exists t l,
    handleRegister now v s
    = (inl Registered,
       match fs with
       | [] => mkStorage (Some l) (st_bookings s) (Some t) []
       | true :: fs' => mkStorage (Some l) (st_bookings s) (st_current s) fs'
       | false :: fs' => mkStorage (Some l) (st_bookings s) (Some t) fs'
       end)
    /\ In t l /\ Teacher.email t = email v
    /\ (forall te, find (fun t => String.eqb (Teacher.email t) (email v)) (teachers_of s)
                   = Some te -> Teacher.id t = Teacher.id te).
Proof.
  intros Hf.
  destruct (saveTeacher_ok now (Teacher.mkInput (name v) (email v) (disciplina v)
                                  (if js_truthy (phone v) then phone v else "")) s fs Hf)
    as (t & l & Heq & Hin & He & Hid).
  exists t, l. split; [|split; [exact Hin | split; [exact He | exact Hid]]].
  unfold handleRegister, catch, bind. cbv beta. rewrite Heq.
  destruct fs as [|[] fs']; reflexivity.
Qed.

(** [C38] On a store without faults, a registration the schema accepts
    makes the saved teacher, with the form's e-mail, the current teacher
    and leaves the bookings as they are; the app then starts on the main
    tabs and the home screen loads for that teacher. *)
Theorem register_then_home is_email now tz fuel v s :
  st_faults s = [] -> validationSchema is_email v = true ->
  exists t s',
    submitRegister is_email now v s = (inl (Some Registered), s')
    /\ st_current s' = Some t /\ Teacher.email t = email v /\ In t (teachers_of s')
    /\ bookings_of s' = bookings_of s
    /\ fst (checkTeacher s') = inl MainApp
    /\ exists my slots, fst (HomeScreen.loadData tz now fuel s') = inl (HomeScreen.HomeLoaded t my slots).
Proof.
  intros Hf Hv. destruct (handleRegister_ok now v s [] (or_introl (conj Hf eq_refl)))
    as (t & l & Heq & Hin & He & _).
  eexists t, _. unfold submitRegister. rewrite Hv. unfold bind at 1. rewrite Heq.
  split; [reflexivity|]. split; [reflexivity|]. split; [exact He|]. split; [exact Hin|].
  split; [reflexivity|]. split; [reflexivity|]. eexists _, _. reflexivity.
Qed.

(** [C29] Registering with an e-mail already stored, on a store without
    faults, updates that teacher and keeps its id, so the bookings made
    under that id stay the teacher's: the current teacher has the stored
    teacher's id and the form's e-mail, and the bookings are unchanged. *)
Theorem register_keeps_id is_email now v s te :
  st_faults s = [] -> validationSchema is_email v = true ->
  find (fun t => String.eqb (Teacher.email t) (email v)) (teachers_of s) = Some te ->
  exists t s',
    submitRegister is_email now v s = (inl (Some Registered), s')
    /\ st_current s' = Some t /\ Teacher.id t = Teacher.id te /\ Teacher.email t = email v
    /\ bookings_of s' = bookings_of s.
Proof.
  intros Hf Hv Hte. destruct (handleRegister_ok now v s [] (or_introl (conj Hf eq_refl)))
    as (t & l & Heq & _ & He & Hid).
  eexists t, _. unfold submitRegister. rewrite Hv. unfold bind at 1. rewrite Heq.
  split; [reflexivity|]. split; [reflexivity|]. split; [exact (Hid te Hte)|].
  split; [exact He | reflexivity].
Qed.

(** [C39] When writing the current teacher fails, [setCurrentTeacher]
    swallows the error: the registration is reported as done and the
    app goes to the main tabs, but no current teacher is stored, so the
    app starts on the registration and the home screen sends the teacher
    back to it. *)
Theorem register_current_write_lost is_email now tz fuel v s :
  st_faults s = [false; false; true] -> st_current s = None ->
  validationSchema is_email v = true ->
  exists s',
    submitRegister is_email now v s = (inl (Some Registered), s')
    /\ st_current s' = None
    /\ fst (checkTeacher s') = inl TeacherRegister
    /\ fst (HomeScreen.loadData tz now fuel s') = inl HomeScreen.NeedsRegister.
Proof.
  intros Hf Hc Hv. destruct (handleRegister_ok now v s [true] (or_intror Hf))
    as (t & l & Heq & _).
  eexists. unfold submitRegister. rewrite Hv. unfold bind at 1. rewrite Heq.
  split; [reflexivity|]. simpl. rewrite Hc. split; [reflexivity|]. split; reflexivity.
Qed.

(** ** The registration form *)

(** One field of the folded edits is the last text typed in it, when an
    edit either sets that field to what [sel] reads or leaves it alone. *)
Lemma fold_edit_field (get : form_values -> string) (sel : field_event -> option string) :
  (forall v e, get (edit v e) = match sel e with Some x => x | None => get v end) ->
  forall es v, get (fold_left edit es v) = match typed sel es with Some x => x | None => get v end.
Proof.
  intros Hstep es. induction es as [|e r IH]; intros v; [reflexivity|].
  cbn [fold_left typed]. rewrite IH, Hstep. now destruct (typed sel r).
Qed.

(** The form's values after the edits, field by field. *)
Lemma fill_spec es :
  name (fill es) = last_typed name_of es /\ email (fill es) = last_typed email_of es
  /\ disciplina (fill es) = last_typed disciplina_of es /\ phone (fill es) = last_typed phone_of es.
Proof.
  unfold fill, last_typed.
  repeat split; apply fold_edit_field; intros v []; reflexivity.
Qed.

Lemma js_truthy_false (x : string) : js_truthy x = false <-> x = "".
Proof. unfold js_truthy. rewrite negb_false_iff. apply String.eqb_eq. Qed.

(** The schema refuses exactly an empty required field or an e-mail the
    e-mail test refuses. *)
Lemma validationSchema_false is_email v :
  validationSchema is_email v = false <->
  name v = "" \/ email v = "" \/ is_email (email v) = false \/ disciplina v = "".
Proof.
  unfold validationSchema. rewrite <- !js_truthy_false.
  destruct (js_truthy (name v)), (js_truthy (email v)), (is_email (email v)),
    (js_truthy (disciplina v)); cbn; intuition discriminate.
Qed.

(** [C40] A registration session (edits of the four fields, then
    "Cadastrar") on a store without faults leaves the store as it was and
    stays on the registration exactly when the last name, e-mail or
    subject typed is empty (or the field was never typed in), or the
    e-mail test refuses the last e-mail typed; the phone is never checked.
    Otherwise it registers a teacher with the last e-mail typed and makes
    it the current teacher. *)
Theorem register_session_refused is_email now es s :
  st_faults s = [] ->
  (register_session is_email now es s = (inl None, s)
   <-> last_typed name_of es = "" \/ last_typed email_of es = ""
       \/ is_email (last_typed email_of es) = false \/ last_typed disciplina_of es = "")
  /\ (last_typed name_of es <> "" -> last_typed email_of es <> "" ->
      is_email (last_typed email_of es) = true -> last_typed disciplina_of es <> "" ->
      exists t s', register_session is_email now es s = (inl (Some Registered), s')
                   /\ st_current s' = Some t /\ Teacher.email t = last_typed email_of es).
Proof.
  intros Hf. destruct (fill_spec es) as (Hn & He & Hd & _).
  rewrite <- Hn, <- He, <- Hd, <- validationSchema_false.
  destruct (handleRegister_ok now (fill es) s [] (or_introl (conj Hf eq_refl)))
    as (t & l & E & _ & Ht & _).
  unfold register_session, submitRegister.
  destruct (validationSchema is_email (fill es)) eqn:V.
  - unfold bind. rewrite E. cbv [ret]. split; [split; intros H; congruence|].
    intros _ _ _ _. exists t. eexists. split; [reflexivity|]. split; [reflexivity | exact Ht].
  - split; [split; reflexivity|]. intros H1 H2 H3 H4. exfalso.
    apply validationSchema_false in V. intuition congruence.
Qed.

(** ** Witnesses *)

Lemma register_then_home_witness :
  exists t s',
    submitRegister has_at Fixtures.tue_0610_1200 values_ana (store_t1 [])
    = (inl (Some Registered), s')
    /\ st_current s' = Some t /\ Teacher.email t = email values_ana /\ In t (teachers_of s')
    /\ bookings_of s' = bookings_of (store_t1 [])
    /\ fst (checkTeacher s') = inl MainApp
    /\ exists my slots, fst (HomeScreen.loadData Fixtures.tz_br Fixtures.tue_0610_1200 10 s')
                       = inl (HomeScreen.HomeLoaded t my slots).
Proof. apply register_then_home; reflexivity. Defined.

Lemma register_keeps_id_witness :
  st_faults (store_t1 []) = [] /\ validationSchema has_at values_teacher1 = true
  /\ find (fun t => String.eqb (Teacher.email t) (email values_teacher1)) (teachers_of (store_t1 []))
     = Some Fixtures.teacher1
  /\ exists t s',
    submitRegister has_at Fixtures.tue_0610_1200 values_teacher1 (store_t1 [])
    = (inl (Some Registered), s')
    /\ st_current s' = Some t /\ Teacher.id t = Teacher.id Fixtures.teacher1
    /\ Teacher.email t = email values_teacher1 /\ bookings_of s' = bookings_of (store_t1 []).
Proof.
  assert (H1 : st_faults (store_t1 []) = []) by reflexivity.
  assert (H2 : validationSchema has_at values_teacher1 = true) by reflexivity.
  assert (H3 : find (fun t => String.eqb (Teacher.email t) (email values_teacher1))
                 (teachers_of (store_t1 [])) = Some Fixtures.teacher1) by reflexivity.
  split; [exact H1|]. split; [exact H2|]. split; [exact H3|].
  exact (register_keeps_id has_at Fixtures.tue_0610_1200 _ _ _ H1 H2 H3).
Defined.

Lemma register_current_write_lost_witness :
  exists s',
    submitRegister has_at Fixtures.tue_0610_1200 values_ana (store_t1 [false; false; true])
    = (inl (Some Registered), s')
    /\ st_current s' = None
    /\ fst (checkTeacher s') = inl TeacherRegister
    /\ fst (HomeScreen.loadData Fixtures.tz_br Fixtures.tue_0610_1200 10 s')
       = inl HomeScreen.NeedsRegister.
Proof. apply register_current_write_lost; reflexivity. Defined.

Lemma register_session_refused_witness :
  st_faults (store_t1 []) = []
  /\ (register_session has_at Fixtures.tue_0610_1200 [ChangeName "Ana"; ChangeEmail "ana.escola.br"]
        (store_t1 []) = (inl None, store_t1 [])
      <-> last_typed name_of [ChangeName "Ana"; ChangeEmail "ana.escola.br"] = ""
          \/ last_typed email_of [ChangeName "Ana"; ChangeEmail "ana.escola.br"] = ""
          \/ has_at (last_typed email_of [ChangeName "Ana"; ChangeEmail "ana.escola.br"]) = false
          \/ last_typed disciplina_of [ChangeName "Ana"; ChangeEmail "ana.escola.br"] = "")
  /\ (last_typed name_of [ChangeName "Ana"; ChangeEmail "ana.escola.br"] <> "" ->
      last_typed email_of [ChangeName "Ana"; ChangeEmail "ana.escola.br"] <> "" ->
      has_at (last_typed email_of [ChangeName "Ana"; ChangeEmail "ana.escola.br"]) = true ->
      last_typed disciplina_of [ChangeName "Ana"; ChangeEmail "ana.escola.br"] <> "" ->
      exists t s', register_session has_at Fixtures.tue_0610_1200
                     [ChangeName "Ana"; ChangeEmail "ana.escola.br"] (store_t1 [])
                   = (inl (Some Registered), s')
                   /\ st_current s' = Some t
                   /\ Teacher.email t = last_typed email_of [ChangeName "Ana"; ChangeEmail "ana.escola.br"]).
Proof.
  assert (H : st_faults (store_t1 []) = []) by reflexivity.
  split; [exact H | exact (register_session_refused has_at Fixtures.tue_0610_1200 _ _ H)].
Defined.

End Register.
