(* ===== verification/Navigation.v ===== *)
(** * Navigation: [src/navigation/AppNavigator.js] and the screens' calls

    The app is a tree of navigators: a root stack with the routes
    [TeacherRegister] and [MainApp]; [MainApp] is a bottom tab navigator
    with the tabs [Home], [Calendar] and [MyBookings]; each tab is a stack
    with its main screen and [BookingForm].  The screens move through it
    with [navigation.navigate], [navigation.replace] and
    [navigation.goBack]; the user also presses the tab bar and the
    Android back button.

    The navigators' behaviour is the one of react-navigation 6, which the
    repository does not contain: a stack's NAVIGATE goes back to the last
    route of that name (replacing its params) or pushes a new one, GO_BACK
    pops, REPLACE replaces the focused route; the tab router's NAVIGATE
    focuses a tab and its GO_BACK returns to the first tab; an action a
    navigator cannot handle goes to its parent and, when no ancestor
    handles it, to the other child navigators ([useOnAction]); a press on
    the focused tab pops its stack to the top.  The root stack holds one
    route: the screens only [replace] its routes.

    The theorems show that every reachable state has, in each tab, the
    main screen with at most one booking form above it; that the home
    screen can be reached again from every reachable state; and that
    [navigate('HomeMain')] after a booking made from the calendar or the
    list tab leaves that form open in its tab. *)

From Stdlib Require Import Bool String List Relations.
From S2P Require Import Prelude BookingForm Register.
Import ListNotations.

Open Scope string_scope.
Open Scope list_scope.

Module Navigation.
Import BookingForm.

(** A route of a stack: its name and its [params]. *)
Record route := mkRoute {
  rname : string;
  rparams : option route_params
}.

(** The tabs of [TabNavigator], in the order of the source. *)
Inductive tab := Home | Calendar | MyBookings.
Scheme Equality for tab.

Definition tab_name (t : tab) : string :=
  match t with Home => "Home" | Calendar => "Calendar" | MyBookings => "MyBookings" end.

(** The first route of [HomeStack], [CalendarStack], [MyBookingsStack]. *)
Definition main_name (t : tab) : string :=
  match t with Home => "HomeMain" | Calendar => "CalendarMain" | MyBookings => "MyBookingsMain" end.

(** The route names of each tab's stack. *)
Definition stackRouteNames (t : tab) : list string := [main_name t; "BookingForm"].

Definition tabs_in_order : list tab := [Home; Calendar; MyBookings].

(** The state of the tab navigator: the focused tab and each tab's
    stack, its routes from the bottom up (the last one is shown). *)
Record tabs := mkTabs {
  index : tab;
  home : list route;
  calendar : list route;
  mybookings : list route
}.

Definition stack_of (m : tabs) (t : tab) : list route :=
  match t with Home => home m | Calendar => calendar m | MyBookings => mybookings m end.

Definition set_stack (m : tabs) (t : tab) (l : list route) : tabs :=
  match t with
  | Home => mkTabs (index m) l (calendar m) (mybookings m)
  | Calendar => mkTabs (index m) (home m) l (mybookings m)
  | MyBookings => mkTabs (index m) (home m) (calendar m) l
  end.

Definition focus (m : tabs) (t : tab) : tabs :=
  mkTabs t (home m) (calendar m) (mybookings m).

(** The root stack's single route; [AtMain] carries the state of the
    tab navigator mounted under [MainApp]. *)
Inductive state := AtRegister | AtMain (m : tabs).

(** [TabNavigator] when [MainApp] mounts: the first tab focused, each
    stack at its first route. *)
Definition initial_tabs : tabs :=
  mkTabs Home [mkRoute "HomeMain" None] [mkRoute "CalendarMain" None]
         [mkRoute "MyBookingsMain" None].

(** [AppNavigator] with [initialRouteName] the route [checkTeacher]
    chose. *)
Definition initial_state (r : Register.route) : state :=
  match r with Register.TeacherRegister => AtRegister | Register.MainApp => AtMain initial_tabs end.

(** The actions the screens dispatch. *)
Inductive action :=
  | Navigate (name : string) (params : option route_params)
  | Replace (name : string)
  | GoBack.

(** ** The routers *)

(** NAVIGATE of a stack, on the routes from the top down: the first
    route of that name becomes the top, with the action's params. *)
Fixpoint navigate_down (name : string) (p : option route_params) (rs : list route)
  : option (list route) :=
  match rs with
  | [] => None
  | r :: rs' =>
      if String.eqb (rname r) name then Some (mkRoute name p :: rs')
      else navigate_down name p rs'
  end.

(** A stack's router: [None] when it does not handle the action. *)
Definition stack_action (names : list string) (a : action) (routes : list route)
  : option (list route) :=
  match a with
  | Navigate name p =>
      if existsb (String.eqb name) names then
        match navigate_down name p (rev routes) with
        | Some rs => Some (rev rs)
        | None => Some (routes ++ [mkRoute name p])
        end
      else None
  | Replace name =>
      if existsb (String.eqb name) names
      then Some (removelast routes ++ [mkRoute name None]) else None
  | GoBack =>
      match routes with
      | [] | [_] => None
      | _ => Some (removelast routes)
      end
  end.

(** The tab router, with [backBehavior] ['firstRoute']. *)
Definition tab_action (m : tabs) (a : action) : option tabs :=
  match a with
  | Navigate name _ =>
      match find (fun t => String.eqb (tab_name t) name) tabs_in_order with
      | Some t => Some (focus m t)
      | None => None
      end
  | Replace _ => None
  | GoBack => match index m with Home => None | _ => Some (focus m Home) end
  end.

(** The root stack: [replace] mounts the new route afresh. *)
Definition root_action (a : action) : option state :=
  match a with
  | Replace name =>
      if String.eqb name "TeacherRegister" then Some AtRegister
      else if String.eqb name "MainApp" then Some (AtMain initial_tabs)
      else None
  | _ => None
  end.

(** An action dispatched by the focused screen, handled by its navigator
    or an ancestor. *)
Definition dispatch_up (s : state) (a : action) : option state :=
  match s with
  | AtRegister => root_action a
  | AtMain m =>
      let t := index m in
      match stack_action (stackRouteNames t) a (stack_of m t) with
      | Some l => Some (AtMain (set_stack m t l))
      | None =>
          match tab_action m a with
          | Some m' => Some (AtMain m')
          | None => root_action a
          end
      end
  end.

(** The other tabs' stacks, when no ancestor handles the action; the one
    that handles a NAVIGATE gets the focus. *)
Definition dispatch_children (m : tabs) (a : action) : option state :=
  match find (fun t => match stack_action (stackRouteNames t) a (stack_of m t) with
                       | Some _ => true | None => false end)
             (filter (fun t => negb (tab_beq t (index m))) tabs_in_order) with
  | Some t =>
      match stack_action (stackRouteNames t) a (stack_of m t) with
      | Some l =>
          let m' := set_stack m t l in
          Some (AtMain (match a with Navigate _ _ => focus m' t | _ => m' end))
      | None => None
      end
  | None => None
  end.

(** [navigation.dispatch] from the focused screen ([useOnAction]). *)
Definition dispatch (s : state) (a : action) : option state :=
  match dispatch_up s a with
  | Some s' => Some s'
  | None => match s with AtMain m => dispatch_children m a | AtRegister => None end
  end.

(** A press on the tab [t]: it focuses [t], or pops [t]'s stack to its
    first route when [t] is focused. *)
Definition tabPress (m : tabs) (t : tab) : tabs :=
  if tab_beq t (index m)
  then set_stack m t (firstn 1 (stack_of m t))
  else focus m t.

(** ** The screens *)

Inductive screen := RegisterScreen | MainScreen (t : tab) | FormScreen (t : tab).

Definition focused (s : state) : screen :=
  match s with
  | AtRegister => RegisterScreen
  | AtMain m =>
      if String.eqb (rname (last (stack_of m (index m)) (mkRoute "" None))) "BookingForm"
      then FormScreen (index m) else MainScreen (index m)
  end.

(** The shapes of params the screens pass to [BookingForm]. *)
Definition no_params (p : option route_params) : bool :=
  match p with None => true | Some _ => false end.
Definition id_params (p : option route_params) : bool :=
  match p with Some (mkParams (Some _) None None None) => true | _ => false end.
Definition slot_params (p : option route_params) : bool :=
  match p with Some (mkParams None (Some _) (Some _) (Some _)) => true | _ => false end.

(** [TeacherRegisterScreen]: [navigation.replace('MainApp')] after a
    registration. *)
Definition calls_register (a : action) : bool :=
  match a with Replace n => String.eqb n "MainApp" | _ => false end.

(** [HomeScreen]: [replace('TeacherRegister')] without a current
    teacher; the new-booking button, a booking card and a free period
    open the form; the shortcuts open the other tabs. *)
Definition calls_home (a : action) : bool :=
  match a with
  | Navigate n p =>
      String.eqb n "BookingForm" && (no_params p || id_params p || slot_params p)
      || (String.eqb n "Calendar" || String.eqb n "MyBookings") && no_params p
  | Replace n => String.eqb n "TeacherRegister"
  | GoBack => false
  end.

(** [CalendarScreen]: [handleBookSlot] and [handleViewBooking]. *)
Definition calls_calendar (a : action) : bool :=
  match a with
  | Navigate n p => String.eqb n "BookingForm" && (slot_params p || id_params p)
  | _ => false
  end.

(** [MyBookingsScreen]: [replace('TeacherRegister')] without a current
    teacher; a booking and the new-booking button open the form. *)
Definition calls_mybookings (a : action) : bool :=
  match a with
  | Navigate n p => String.eqb n "BookingForm" && (no_params p || id_params p)
  | Replace n => String.eqb n "TeacherRegister"
  | GoBack => false
  end.

(** [BookingFormScreen]: [replace('TeacherRegister')] without a current
    teacher, [navigate('HomeMain')] after a save or a cancellation, and
    [goBack()] from the "Voltar" button and the header's back arrow. *)
Definition calls_form (a : action) : bool :=
  match a with
  | Navigate n p => String.eqb n "HomeMain" && no_params p
  | Replace n => String.eqb n "TeacherRegister"
  | GoBack => true
  end.

(** The navigation calls of the focused screen. *)
Definition calls (sc : screen) : action -> bool :=
  match sc with
  | RegisterScreen => calls_register
  | MainScreen Home => calls_home
  | MainScreen Calendar => calls_calendar
  | MainScreen MyBookings => calls_mybookings
  | FormScreen _ => calls_form
  end.

(** One move of the app: a call of the focused screen, a press on the tab
    bar, or the back button, which acts only when a navigator of the
    focused screen's chain can go back ([canGoBack]). *)
Inductive step : state -> state -> Prop :=
  | step_call s a s' : calls (focused s) a = true -> dispatch s a = Some s' -> step s s'
  | step_tab m t : step (AtMain m) (AtMain (tabPress m t))
  | step_back s s' : dispatch_up s GoBack = Some s' -> step s s'.

Definition steps : state -> state -> Prop := clos_refl_trans_1n state step.

Definition reachable (s : state) : Prop := exists r, steps (initial_state r) s.

(** Each tab's stack: its main screen, with at most one form above it. *)
Definition wf_stack (t : tab) (l : list route) : bool :=
  match l with
  | [r] => String.eqb (rname r) (main_name t)
  | [r; f] => String.eqb (rname r) (main_name t) && String.eqb (rname f) "BookingForm"
  | _ => false
  end.

Definition wf (s : state) : bool :=
  match s with
  | AtRegister => true
  | AtMain m => forallb (fun t => wf_stack t (stack_of m t)) tabs_in_order
  end.

(** The state after [navigate('BookingForm')] from the home screen. *)
Definition home_form : state :=
  AtMain (mkTabs Home [mkRoute "HomeMain" None; mkRoute "BookingForm" None]
                 [mkRoute "CalendarMain" None] [mkRoute "MyBookingsMain" None]).

(** A form opened from the calendar for 2025-06-11 08:00. *)
Definition calendar_form : tabs :=
  mkTabs Calendar [mkRoute "HomeMain" None]
    [mkRoute "CalendarMain" None;
     mkRoute "BookingForm" (Some (mkParams None (Some "2025-06-11") (Some "08:00") (Some "08:50")))]
    [mkRoute "MyBookingsMain" None].

(** The [replace] calls of the screens name routes of the root stack. *)
Definition root_replace (a : action) : bool :=
  match a with
  | Replace n => String.eqb n "MainApp" || String.eqb n "TeacherRegister"
  | _ => true
  end.

(** ** Shapes of the stacks *)

Ltac eqb_cases :=
  repeat match goal with
  | |- context [String.eqb ?x ?y] => is_var x; destruct (String.eqb_spec x y); [subst x|]
  | _ : context [String.eqb ?x ?y] |- _ => is_var x; destruct (String.eqb_spec x y); [subst x|]
  end.

(** Closes a goal [c1 = c2 -> _] between distinct constructors. *)
Ltac nosome := let H := fresh in intros H; discriminate H.

Lemma wf_stack_shape t l :
  wf_stack t l = true ->
  exists p, l = [mkRoute (main_name t) p]
            \/ exists q, l = [mkRoute (main_name t) p; mkRoute "BookingForm" q].
Proof.
  destruct l as [|[n p] [|[n' q] [|]]]; simpl; try nosome;
    rewrite ?andb_true_iff, ?String.eqb_eq; intros; subst; [|destruct H]; subst; eauto.
Qed.

Lemma wf_main m : wf (AtMain m) = true <-> forall t, wf_stack t (stack_of m t) = true.
Proof.
  simpl. rewrite !andb_true_iff. split.
  - intros (H1 & H2 & H3 & _) []; assumption.
  - intros H. repeat split; apply H.
Qed.

Lemma stack_of_set_stack m t l u :
  stack_of (set_stack m t l) u = if tab_beq u t then l else stack_of m u.
Proof. destruct t, u; reflexivity. Qed.

Lemma stack_of_focus m t u : stack_of (focus m t) u = stack_of m u.
Proof. destruct u; reflexivity. Qed.

Lemma wf_set_stack m t l :
  wf (AtMain m) = true -> wf_stack t l = true -> wf (AtMain (set_stack m t l)) = true.
Proof.
  rewrite !wf_main. intros Hm Hl u. rewrite stack_of_set_stack.
  destruct (tab_beq u t) eqn:E; [apply internal_tab_dec_bl in E; now subst | apply Hm].
Qed.

Lemma wf_focus m t : wf (AtMain (focus m t)) = true <-> wf (AtMain m) = true.
Proof. rewrite !wf_main. now setoid_rewrite stack_of_focus. Qed.


(** ** Each router keeps the stacks' shape *)

Lemma stack_action_wf t a l l' :
  root_replace a = true -> wf_stack t l = true ->
  stack_action (stackRouteNames t) a l = Some l' -> wf_stack t l' = true.
Proof.
  intros Ha Hl. destruct (wf_stack_shape t l Hl) as (p & [->|(q & ->)]);
    destruct a as [n p'|n|]; simpl in Ha |- *; try nosome;
    destruct t; simpl; eqb_cases; simpl in *; try discriminate; try nosome;
    intros H; inversion H; reflexivity.
Qed.

Lemma root_action_wf a s' : root_action a = Some s' -> wf s' = true.
Proof.
  destruct a as [n p|n|]; simpl; try nosome.
  eqb_cases; intros H; inversion H; reflexivity.
Qed.

Lemma tab_action_wf m a m' :
  wf (AtMain m) = true -> tab_action m a = Some m' -> wf (AtMain m') = true.
Proof.
  intros Hm. destruct a; unfold tab_action; try nosome.
  - destruct (find (fun t => String.eqb (tab_name t) name) tabs_in_order); [|nosome]. intros H; injection H as <-. now apply wf_focus.
  - destruct (index m); try nosome; intros H; injection H as <-; now apply wf_focus.
Qed.

Lemma dispatch_up_wf s a s' :
  root_replace a = true -> wf s = true -> dispatch_up s a = Some s' -> wf s' = true.
Proof.
  intros Ha Hs. destruct s as [|m]; simpl; [apply root_action_wf|].
  destruct (stack_action _ a _) eqn:E.
  - intros H; injection H as <-. apply wf_set_stack; [exact Hs|].
    apply (stack_action_wf _ a (stack_of m (index m))); [exact Ha | apply wf_main, Hs | exact E].
  - destruct (tab_action m a) eqn:T; [|apply root_action_wf].
    intros H; injection H as <-. exact (tab_action_wf m a t Hs T).
Qed.

Lemma dispatch_children_wf m a s' :
  root_replace a = true -> wf (AtMain m) = true -> dispatch_children m a = Some s' -> wf s' = true.
Proof.
  intros Ha Hm. unfold dispatch_children.
  match goal with |- context [find ?f ?l] => destruct (find f l) as [t|] end; [|nosome].
  destruct (stack_action _ a _) as [l|] eqn:E; [|nosome].
  assert (Hl : wf (AtMain (set_stack m t l)) = true).
  { apply wf_set_stack; [exact Hm|].
    exact (stack_action_wf t a _ l Ha (proj1 (wf_main m) Hm t) E). }
  intros H; injection H as <-. destruct a; [apply wf_focus|..]; exact Hl.
Qed.

Lemma calls_root_replace sc a : calls sc a = true -> root_replace a = true.
Proof.
  destruct sc as [|[]|[]], a; simpl; try nosome; intros H;
    rewrite ?H, ?orb_true_r; reflexivity.
Qed.

Lemma tabPress_wf m t : wf (AtMain m) = true -> wf (AtMain (tabPress m t)) = true.
Proof.
  intros Hm. unfold tabPress. destruct (tab_beq t (index m)); [|now apply wf_focus].
  apply wf_set_stack; [exact Hm|].
  destruct (wf_stack_shape t _ (proj1 (wf_main m) Hm t)) as (p & [->| (q & ->)]);
    simpl; apply String.eqb_refl.
Qed.

Lemma step_wf s s' : step s s' -> wf s = true -> wf s' = true.
Proof.
  intros [s0 a s1 Hc Hd|m t|s0 s1 Hd] Hs.
  - unfold dispatch in Hd. pose proof (calls_root_replace _ _ Hc) as Ha.
    destruct (dispatch_up s0 a) eqn:E.
    + injection Hd as <-. exact (dispatch_up_wf _ _ _ Ha Hs E).
    + destruct s0; [discriminate Hd | exact (dispatch_children_wf _ _ _ Ha Hs Hd)].
  - now apply tabPress_wf.
  - exact (dispatch_up_wf _ GoBack _ eq_refl Hs Hd).
Qed.

Lemma reachable_inv s : reachable s -> wf s = true.
Proof.
  intros [r Hs]. assert (H0 : wf (initial_state r) = true) by (destruct r; reflexivity).
  induction Hs as [|x y z Hxy _ IH]; [exact H0 | exact (IH (step_wf x y Hxy H0))].
Qed.

(** [C24] Every state the app reaches from its start, through the
    screens' navigation calls, the tab bar and the back button, has in
    each tab the tab's main screen at the bottom with at most one
    [BookingForm] above it: navigating to the form again reuses the one
    that is open. *)
Theorem reachable_wf s : reachable s -> wf s = true.
Proof. exact (reachable_inv s). Qed.

(** [C25] From every reachable state the home screen of the main tabs
    can be reached again, with the home stack at its first route: after
    a registration from the registration screen, or with at most two
    presses on the [Home] tab. *)
Theorem home_reachable s :
  reachable s ->
  exists m p, steps s (AtMain m) /\ focused (AtMain m) = MainScreen Home
              /\ home m = [mkRoute "HomeMain" p].
Proof.
  intros Hr. pose proof (reachable_inv s Hr) as Hw. destruct s as [|m].
  - exists initial_tabs, None. split; [|split; reflexivity].
    econstructor; [apply (step_call AtRegister (Replace "MainApp")); reflexivity|].
    apply rt1n_refl.
  - destruct (wf_stack_shape Home _ (proj1 (wf_main m) Hw Home)) as (p & Hh).
    exists (tabPress (tabPress m Home) Home), p. split.
    + econstructor; [apply step_tab|]. econstructor; [apply step_tab | apply rt1n_refl].
    + destruct m as [[] h c b]; simpl in Hh; destruct Hh as [->|(q & ->)]; split; reflexivity.
Qed.

(** [C27] After a booking is saved or cancelled from a form opened in the
    calendar or the list tab, [navigate('HomeMain')] is handled by the
    home stack: the home screen is shown, but the form stays on top of
    its own tab's stack, so a press on that tab shows the finished form
    again. *)
Theorem booking_done_keeps_form m t :
  wf (AtMain m) = true -> focused (AtMain m) = FormScreen t -> t <> Home ->
  exists m',
    dispatch (AtMain m) (Navigate "HomeMain" None) = Some (AtMain m')
    /\ step (AtMain m) (AtMain m')
    /\ focused (AtMain m') = MainScreen Home /\ home m' = [mkRoute "HomeMain" None]
    /\ stack_of m' t = stack_of m t
    /\ focused (AtMain (tabPress m' t)) = FormScreen t.
Proof.
  intros Hw Hf Ht. pose proof (proj1 (wf_main m) Hw) as Hs. destruct m as [i h c b].
  destruct (wf_stack_shape Home h (Hs Home)) as (p1 & [->|(q1 & ->)]);
  destruct (wf_stack_shape Calendar c (Hs Calendar)) as (p2 & [->|(q2 & ->)]);
  destruct (wf_stack_shape MyBookings b (Hs MyBookings)) as (p3 & [->|(q3 & ->)]);
  destruct i; simpl in Hf; try discriminate Hf; injection Hf as <-; try congruence;
  eexists; (split; [reflexivity|]);
  (split; [eapply (step_call _ (Navigate "HomeMain" None)); reflexivity|]);
  repeat split; reflexivity.
Qed.

(** ** Witnesses *)

Lemma home_form_reachable : reachable home_form.
Proof.
  exists Register.MainApp. econstructor; [|apply rt1n_refl].
  apply (step_call _ (Navigate "BookingForm" None)); reflexivity.
Qed.

Lemma reachable_wf_witness : reachable home_form /\ wf home_form = true.
Proof. split; [exact home_form_reachable | exact (reachable_wf _ home_form_reachable)]. Defined.

Lemma home_reachable_witness :
  exists m p, steps home_form (AtMain m) /\ focused (AtMain m) = MainScreen Home
              /\ home m = [mkRoute "HomeMain" p].
Proof. exact (home_reachable _ home_form_reachable). Defined.

Lemma booking_done_keeps_form_witness :
  exists m',
    dispatch (AtMain calendar_form) (Navigate "HomeMain" None) = Some (AtMain m')
    /\ step (AtMain calendar_form) (AtMain m')
    /\ focused (AtMain m') = MainScreen Home /\ home m' = [mkRoute "HomeMain" None]
    /\ stack_of m' Calendar = stack_of calendar_form Calendar
    /\ focused (AtMain (tabPress m' Calendar)) = FormScreen Calendar.
Proof. apply booking_done_keeps_form; [reflexivity | reflexivity | discriminate]. Defined.

End Navigation.
