(* ===== verification/FormSession.v ===== *)
(** * FormSession: filling in the booking form

    Between [loadData] and the submission the user edits the Formik
    values of [BookingFormScreen.js]: the three text fields
    ([handleChange]), the date picker ([handleDateChange], which calls
    [setFieldValue('date', selectedDate)] for a date in the window) and
    the buttons of the timetable ([setFieldValue('startTime', slot.value)]
    then [setFieldValue('endTime', slot.endTime)]).  A session opens the
    form, folds the edits, each at its own clock reading, over the initial
    values and ends with Formik's submission.  The theorems show that a
    session only ever stores periods of the timetable, and that the date
    it submits is the initial one or one the picker accepted when it was
    picked; and that sessions run one after the other, each opening the
    form after the previous submission, keep the store free of double
    bookings. *)

From Stdlib Require Import ZArith Lia Bool String List.
From S2P Require Import Prelude JsDate Model Fixtures DateUtils Store BookingForm.
Import ListNotations.

Open Scope Z_scope.
Open Scope agenda_scope.

Module FormSession.
Import JsDate DateUtils Store BookingForm.

(** The user's edits of the form. *)
Inductive field_event :=
  | ChangeClassName (s : string)
  | ChangeActivity (s : string)
  | ChangeNumStudents (s : string)
  | PickDate (selected : option Z)   (* [None]: the picker was dismissed *)
  | PickSlot (k : nat).              (* the [k]-th button of [getTimeSlots().map] *)

(** One edit at the clock reading [now]. *)
Definition edit (tz : Z) (v : values) (now : Z) (e : field_event) : values :=
  match e with
  | ChangeClassName s => mkValues s (activity v) (numStudents v) (date v) (startTime v) (endTime v)
  | ChangeActivity s => mkValues (className v) s (numStudents v) (date v) (startTime v) (endTime v)
  | ChangeNumStudents s =>
      mkValues (className v) (activity v) s (date v) (startTime v) (endTime v)
  | PickDate selected =>
      match handleDateChange tz now selected with
      | DateSet d => mkValues (className v) (activity v) (numStudents v) d (startTime v) (endTime v)
      | _ => v
      end
  | PickSlot k =>
      match nth_error getTimeSlots k with
      | Some slot => mkValues (className v) (activity v) (numStudents v) (date v)
                              (TimeSlot.value slot) (TimeSlot.endTime slot)
      | None => v
      end
  end.

(** The values after a list of edits, each with its clock reading. *)
Definition fill (tz : Z) (v : values) (es : list (Z * field_event)) : values :=
  fold_left (fun v ne => edit tz v (fst ne) (snd ne)) es v.

(** Open the form at [now0], edit it and submit it at [now].  [None] is a
    form that does not open: no current teacher, or [initialValues]
    cannot be built (the render throws). *)
Definition session (tz now0 : Z) (bookingId : option string) (params : route_params)
    (es : list (Z * field_event)) (now : Z) : M (option (option submit_outcome)) :=
  fo <- loadData bookingId ;;
  match fo with
  | None => ret None
  | Some f =>
      match initialValues now0 f params with
      | None => ret None
      | Some v0 => r <- submitForm tz now f (fill tz v0 es) ;; ret (Some r)
      end
  end.

(** A start and end time of one period of the timetable. *)
Definition period_ok (st et : string) : bool :=
  existsb (fun slot => String.eqb (TimeSlot.value slot) st && String.eqb (TimeSlot.endTime slot) et)
          getTimeSlots.

Definition booking_period_ok (b : Booking.booking) : bool :=
  period_ok (Booking.startTime b) (Booking.endTime b).

(** Values whose period is one of the timetable, or with no start time
    yet (which the schema refuses). *)
Definition values_period_ok (v : values) : bool :=
  period_ok (startTime v) (endTime v) || negb (js_truthy (startTime v)).

(** Route parameters of a timetable period, or without one. *)
Definition params_period_ok (p : route_params) : bool :=
  period_ok (param_or_empty (rp_startTime p)) (param_or_empty (rp_endTime p))
  || negb (js_truthy (param_or_empty (rp_startTime p))).

(** One session of a sequence: the form opened at [s_open] (to edit
    [s_bookingId], with the route parameters [s_params]), edited, and
    submitted at [s_submit]. *)
Record session_input := mkSession {
  s_open : Z;
  s_bookingId : option string;
  s_params : route_params;
  s_edits : list (Z * field_event);
  s_submit : Z
}.

(** Sessions one after the other: each form opens after the previous one
    was submitted, so its snapshot is the store. *)
Fixpoint run_sessions (tz : Z) (ss : list session_input)
  : M (list (option (option submit_outcome))) :=
  match ss with
  | [] => ret []
  | x :: r =>
      o <- session tz (s_open x) (s_bookingId x) (s_params x) (s_edits x) (s_submit x) ;;
      os <- run_sessions tz r ;;
      ret (o :: os)
  end.

(** The submissions' clock readings increase strictly from [t] on. *)
Fixpoint clock_from (t : Z) (ss : list session_input) : Prop :=
  match ss with
  | [] => True
  | x :: r => t <= s_submit x /\ clock_from (s_submit x + 1) r
  end.

(** Every stored id is the decimal clock reading of a time in [[0, t)]. *)
Definition ids_before (t : Z) (l : list Booking.booking) : Prop :=
  forall b, In b l -> exists t', 0 <= t' < t /\ Booking.id b = number_to_string t'.

(** Teacher 1 is current and has booking C1. *)
Definition store_t1 : storage :=
  mkStorage (Some [Fixtures.teacher1]) (Some [Fixtures.bookingC1]) (Some Fixtures.teacher1) [].

(** A form opened from the calendar on 2025-06-11 08:00, filled in, moved
    to the 09:40 break (the fourth button) and submitted. *)
Definition params_slot : route_params :=
  mkParams None (Some "2025-06-11") (Some "08:00") (Some "08:50").

(** Two sessions booking 2025-06-11 08:00, one after the other. *)
Definition two_sessions : list session_input :=
  [mkSession Fixtures.tue_0610_1200 None params_slot
     [(Fixtures.tue_0610_1200, ChangeClassName "2o Ano A");
      (Fixtures.tue_0610_1200, ChangeActivity "Titulacao");
      (Fixtures.tue_0610_1200, ChangeNumStudents "12")] (Fixtures.tue_0610_1200 + 60000);
   mkSession (Fixtures.tue_0610_1200 + 120000) None params_slot
     [(Fixtures.tue_0610_1200, ChangeClassName "1o Ano C");
      (Fixtures.tue_0610_1200, ChangeActivity "Densidade");
      (Fixtures.tue_0610_1200, ChangeNumStudents "8")] (Fixtures.tue_0610_1200 + 180000)].

Definition edits_slot : list (Z * field_event) :=
  [(Fixtures.tue_0610_1200, ChangeClassName "2o Ano A");
   (Fixtures.tue_0610_1200, ChangeActivity "Titulacao");
   (Fixtures.tue_0610_1200, ChangeNumStudents "12");
   (Fixtures.tue_0610_1200, PickSlot 3)].

(** ** Edits *)

Lemma edit_period tz v now e :
  values_period_ok v = true -> values_period_ok (edit tz v now e) = true.
Proof.
  intros H. destruct e as [s|s|s|sel|k]; cbn [edit]; try exact H.
  - destruct (handleDateChange tz now sel); exact H.
  - destruct (nth_error getTimeSlots k) as [slot|] eqn:E; [|exact H].
    unfold values_period_ok, period_ok. cbn [startTime endTime]. apply orb_true_intro. left.
    apply existsb_exists. exists slot. split; [exact (nth_error_In _ _ E)|].
    now rewrite !String.eqb_refl.
Qed.

Lemma fill_cons tz v n e es : fill tz v ((n, e) :: es) = fill tz (edit tz v n e) es.
Proof. reflexivity. Qed.

Lemma fill_period tz v es :
  values_period_ok v = true -> values_period_ok (fill tz v es) = true.
Proof.
  revert v. induction es as [|[n e] es IH]; intros v H; [exact H|].
  rewrite fill_cons. apply IH, edit_period, H.
Qed.

Lemma edit_date tz v now e :
  date (edit tz v now e) = date v
  \/ exists d, e = PickDate (Some d) /\ isWithinOneWeek tz now d = true
               /\ date (edit tz v now e) = d.
Proof.
  destruct e as [s|s|s|[d|]|k]; cbn [edit]; try (left; reflexivity).
  - unfold handleDateChange. destruct (isWithinOneWeek tz now d) eqn:W; cbn [negb].
    + right. exists d. split; [reflexivity | split; [exact W | reflexivity]].
    + left. reflexivity.
  - destruct (nth_error getTimeSlots k); left; reflexivity.
Qed.

(** ** Opening the form *)

Lemma loadData_nofault bid s :
  st_faults s = [] ->
  exists fo, loadData bid s = (inl fo, s)
    /\ forall f, fo = Some f ->
         allBookings f = bookings_of s /\ forall b, editing f = Some b -> In b (bookings_of s).
Proof.
  destruct s as [ts bs c fs]; simpl; intros ->. unfold loadData. run_store.
  destruct c as [t|]; [|eexists; split; [reflexivity | discriminate]].
  destruct bid as [i|]; [destruct (js_truthy i)|].
  all: eexists; split; [reflexivity|]; intros f Hf; injection Hf as <-;
    split; [reflexivity|]; cbn [editing]; try discriminate.
  intros b Hb. apply find_some in Hb as [Hb _]. exact Hb.
Qed.

Lemma initialValues_period now f params v :
  initialValues now f params = Some v -> params_period_ok params = true ->
  (forall b, editing f = Some b -> booking_period_ok b = true) ->
  values_period_ok v = true.
Proof.
  unfold initialValues. intros Hi Hp He. destruct (editing f) as [b|].
  - destruct (Booking.numStudents b); [|discriminate]. injection Hi as <-.
    unfold values_period_ok. cbn [startTime endTime].
    pose proof (He b eq_refl) as Hb. unfold booking_period_ok in Hb. now rewrite Hb.
  - destruct (rp_date params) as [ds|]; [destruct (js_truthy ds); [destruct (JsDate.parse_date_only ds)|]|];
      try discriminate; injection Hi as <-; exact Hp.
Qed.

(** ** Submitting *)

Lemma schema_startTime v : validationSchema v = true -> js_truthy (startTime v) = true.
Proof. unfold validationSchema. now intros H; apply andb_prop in H as [_ H]. Qed.

Lemma submitForm_periods tz now f v s r s' :
  st_faults s = [] -> forallb booking_period_ok (bookings_of s) = true ->
  values_period_ok v = true ->
  submitForm tz now f v s = (r, s') -> forallb booking_period_ok (bookings_of s') = true.
Proof.
  intros Hf Hok Hv. unfold submitForm.
  destruct (validationSchema v) eqn:Hs; [|intros H; injection H as _ <-; exact Hok].
  assert (Hp : period_ok (startTime v) (endTime v) = true).
  { unfold values_period_ok in Hv. now rewrite (schema_startTime v Hs), orb_false_r in Hv. }
  unfold bind at 1. rewrite (handleSubmit_eqn tz now f v s Hf).
  destruct (checkBookingConflicts tz now f v); intros H; injection H as _ <-; [exact Hok|].
  rewrite bookings_of_with.
  assert (Hnew : booking_period_ok (new_booking now (bookingData f v)) = true) by exact Hp.
  destruct (editing f) as [e|]; [destruct (js_truthy (Booking.id e))|];
    rewrite ?forallb_app, ?Hok; cbn [forallb]; rewrite ?Hnew; try reflexivity.
  unfold update_bookings. rewrite forallb_forall in Hok |- *. intros b Hb.
  apply in_map_iff in Hb as [b0 [<- Hb0]].
  destruct (String.eqb _ _); [exact Hp | exact (Hok b0 Hb0)].
Qed.

(** [C28] A booking session (open the form, any edits, submit) on a store
    without faults in which every booking has a period of the timetable
    leaves only such bookings, when the route parameters carry a period of
    the timetable or none: the form offers only the timetable's buttons,
    an edited booking keeps its own period, and the schema refuses a form
    without a start time. *)
Theorem session_keeps_periods tz now0 now bid params es s r s' :
  st_faults s = [] -> forallb booking_period_ok (bookings_of s) = true ->
  params_period_ok params = true ->
  session tz now0 bid params es now s = (r, s') ->
  forallb booking_period_ok (bookings_of s') = true.
Proof.
  intros Hf Hok Hp. destruct (loadData_nofault bid s Hf) as (fo & Hl & Hfo).
  unfold session, bind at 1. rewrite Hl.
  destruct fo as [f|]; [|intros H; injection H as _ <-; exact Hok].
  destruct (initialValues now0 f params) as [v0|] eqn:Hi; [|intros H; injection H as _ <-; exact Hok].
  assert (Hv0 : values_period_ok v0 = true).
  { apply (initialValues_period now0 f params v0 Hi Hp). intros b Hb.
    rewrite forallb_forall in Hok. exact (Hok b (proj2 (Hfo f eq_refl) b Hb)). }
  unfold bind. destruct (submitForm tz now f (fill tz v0 es) s) as [x s1] eqn:Hs.
  assert (H1 : forallb booking_period_ok (bookings_of s1) = true)
    by exact (submitForm_periods tz now f _ s x s1 Hf Hok (fill_period tz v0 es Hv0) Hs).
  destruct x; intros H; injection H as _ <-; exact H1.
Qed.

(** The date a session submits is the initial one, or a date the
    picker was given and [isWithinOneWeek] accepted at the moment it was
    picked: the window is checked when a date is picked, not when the form
    is submitted. *)
Theorem fill_date tz v es :
  date (fill tz v es) = date v
  \/ exists now d, In (now, PickDate (Some d)) es /\ isWithinOneWeek tz now d = true
                   /\ date (fill tz v es) = d.
Proof.
  revert v. induction es as [|[n e] es IH]; intros v; [left; reflexivity|].
  rewrite fill_cons. destruct (IH (edit tz v n e)) as [H|(now & d & Hin & W & H)].
  - rewrite H. destruct (edit_date tz v n e) as [H'|(d & -> & W & H')]; [left; exact H'|].
    right. exists n, d. split; [left; reflexivity | split; [exact W | exact H']].
  - right. exists now, d. split; [right; exact Hin | split; [exact W | exact H]].
Qed.

(** ** Sessions in sequence *)

Lemma ids_before_mono t t' l : t <= t' -> ids_before t l -> ids_before t' l.
Proof.
  intros Ht H b Hb. destruct (H b Hb) as (u & Hu & E). exists u. split; [lia | exact E].
Qed.

Lemma ids_before_app t l1 l2 : ids_before t l1 -> ids_before t l2 -> ids_before t (l1 ++ l2).
Proof. intros H1 H2 b Hb. apply in_app_or in Hb as [Hb|Hb]; [apply H1 | apply H2]; exact Hb. Qed.

Lemma ids_before_fresh t l now :
  t <= now -> ids_before t l -> ~ In (number_to_string now) (map Booking.id l).
Proof.
  intros Ht Hids Hin. apply in_map_iff in Hin as [b [Hb Hin]].
  destruct (Hids b Hin) as (u & Hu & Hid). rewrite Hid in Hb.
  apply JsDate.number_to_string_inj in Hb. lia.
Qed.

Lemma handleSubmit_ids tz now f v s t :
  st_faults s = [] -> 0 <= t <= now -> ids_before t (bookings_of s) ->
  ids_before (now + 1) (bookings_of (snd (handleSubmit tz now f v s))).
Proof.
  intros Hf Ht Hids. rewrite (handleSubmit_eqn tz now f v s Hf).
  assert (Hold : ids_before (now + 1) (bookings_of s)) by (eapply ids_before_mono; [|exact Hids]; lia).
  assert (Hnew : ids_before (now + 1) [new_booking now (bookingData f v)])
    by (intros b [<-|[]]; exists now; split; [lia | reflexivity]).
  destruct (checkBookingConflicts _ _ _ _); simpl snd; [exact Hold|]. rewrite bookings_of_with.
  destruct (editing f) as [e|] eqn:He; [destruct (js_truthy (Booking.id e))|];
    try (apply ids_before_app; assumption).
  intros b Hb. unfold update_bookings in Hb. apply in_map_iff in Hb as [b0 [<- Hb0]].
  destruct (String.eqb (Booking.id b0) (Booking.id e)) eqn:E; [|exact (Hold b0 Hb0)].
  rewrite (merge_booking_id _ _ (Booking.id e)) by (unfold bookingData; now rewrite He).
  apply String.eqb_eq in E. rewrite <- E. exact (Hold b0 Hb0).
Qed.

Lemma handleSubmit_faults tz now f v s :
  st_faults s = [] -> st_faults (snd (handleSubmit tz now f v s)) = [].
Proof.
  intros Hf. rewrite (handleSubmit_eqn tz now f v s Hf).
  destruct (checkBookingConflicts _ _ _ _); exact Hf.
Qed.

Lemma submitForm_state tz now f v s :
  snd (submitForm tz now f v s)
  = if validationSchema v then snd (handleSubmit tz now f v s) else s.
Proof.
  unfold submitForm. destruct (validationSchema v); [|reflexivity].
  unfold bind. destruct (handleSubmit tz now f v s) as [[] ?]; reflexivity.
Qed.

(** A session leaves the store as it was, or as the submission of a form
    whose snapshot is the store leaves it. *)
Lemma session_state tz now0 bid params es now s :
  st_faults s = [] ->
  snd (session tz now0 bid params es now s) = s
  \/ exists f v0,
       allBookings f = bookings_of s /\ (forall b, editing f = Some b -> In b (bookings_of s))
       /\ snd (session tz now0 bid params es now s) = snd (submitForm tz now f (fill tz v0 es) s).
Proof.
  intros Hf. destruct (loadData_nofault bid s Hf) as (fo & Hl & Hfo).
  unfold session, bind. rewrite Hl.
  destruct fo as [f|]; [|left; reflexivity].
  destruct (initialValues now0 f params) as [v0|]; [|left; reflexivity].
  right. exists f, v0. destruct (Hfo f eq_refl) as [Hs He].
  split; [exact Hs | split; [exact He|]].
  destruct (submitForm tz now f (fill tz v0 es) s) as [[] ?]; reflexivity.
Qed.

(** The invariant between sessions: no fault pending, [store_ok], and
    every id a clock reading before [t]. *)
Lemma session_inv tz t now0 bid params es now s :
  0 <= t <= now -> st_faults s = [] -> store_ok tz (bookings_of s) -> ids_before t (bookings_of s) ->
  let s' := snd (session tz now0 bid params es now s) in
  st_faults s' = [] /\ store_ok tz (bookings_of s') /\ ids_before (now + 1) (bookings_of s').
Proof.
  intros Ht Hf Hok Hids s'.
  assert (Hold : ids_before (now + 1) (bookings_of s)) by (eapply ids_before_mono; [|exact Hids]; lia).
  destruct (session_state tz now0 bid params es now s Hf) as [E|(f & v0 & Hsnap & Hed & E)];
    unfold s'; rewrite E; [auto|].
  rewrite submitForm_state. destruct (validationSchema _); [|auto].
  split; [now apply handleSubmit_faults|]. split; [|now apply (handleSubmit_ids _ _ _ _ _ t)].
  apply handleSubmit_store_ok; [exact Hok | exact Hsnap | exact Hf|].
  destruct (editing f) as [e|]; [exact (Hed e eq_refl)|].
  exact (ids_before_fresh t _ now (proj2 Ht) Hids).
Qed.

Lemma run_sessions_cons tz x r s :
  snd (run_sessions tz (x :: r) s)
  = let p := session tz (s_open x) (s_bookingId x) (s_params x) (s_edits x) (s_submit x) s in
    match fst p with
    | inl _ => snd (run_sessions tz r (snd p))
    | inr _ => snd p
    end.
Proof.
  cbn [run_sessions]. unfold bind at 1.
  destruct (session _ _ _ _ _ _ s) as [[o|e] s1]; [|reflexivity].
  cbn. unfold bind. destruct (run_sessions tz r s1) as [[] ?]; reflexivity.
Qed.

Lemma run_sessions_inv tz ss : forall t s,
  0 <= t -> clock_from t ss -> st_faults s = [] -> store_ok tz (bookings_of s) ->
  ids_before t (bookings_of s) ->
  store_ok tz (bookings_of (snd (run_sessions tz ss s))).
Proof.
  induction ss as [|x r IH]; intros t s Ht Hc Hf Hok Hids; [exact Hok|].
  destruct Hc as [Hx Hc]. rewrite run_sessions_cons. cbv zeta.
  destruct (session_inv tz t (s_open x) (s_bookingId x) (s_params x) (s_edits x) (s_submit x) s
              (conj Ht Hx) Hf Hok Hids) as (Hf' & Hok' & Hids').
  destruct (fst _); [|exact Hok'].
  apply (IH (s_submit x + 1)); [lia | exact Hc | exact Hf' | exact Hok' | exact Hids'].
Qed.

(** [C12] Booking sessions run one after the other (each form opened
    after the previous one was submitted), on a store without faults
    that is free of double bookings and whose ids are clock readings
    before the first submission, with the clock increasing: the store
    stays free of double bookings, with unique truthy ids.  Contrast
    [Scenarios.stale_snapshot_double_booking], where two forms are open
    at once. *)
Theorem sequential_sessions_store_ok tz t ss s :
  0 <= t -> clock_from t ss -> st_faults s = [] -> store_ok tz (bookings_of s) ->
  ids_before t (bookings_of s) ->
  store_ok tz (bookings_of (snd (run_sessions tz ss s))).
Proof. exact (run_sessions_inv tz ss t s). Qed.


Lemma session_keeps_periods_witness :
  let p := session Fixtures.tz_br Fixtures.tue_0610_1200 None params_slot edits_slot
             Fixtures.tue_0610_1200 store_t1 in
  forallb booking_period_ok (bookings_of (snd p)) = true.
Proof.
  intros p. apply (session_keeps_periods Fixtures.tz_br Fixtures.tue_0610_1200
                     Fixtures.tue_0610_1200 None params_slot edits_slot store_t1 (fst p)).
  - reflexivity.
  - vm_compute. reflexivity.
  - vm_compute. reflexivity.
  - apply surjective_pairing.
Defined.

Lemma sequential_sessions_store_ok_witness :
  0 <= 1749400000002 /\ clock_from 1749400000002 two_sessions /\ st_faults store_t1 = []
  /\ store_ok Fixtures.tz_br (bookings_of store_t1)
  /\ ids_before 1749400000002 (bookings_of store_t1)
  /\ store_ok Fixtures.tz_br (bookings_of (snd (run_sessions Fixtures.tz_br two_sessions store_t1))).
Proof.
  assert (H1 : 0 <= 1749400000002) by lia.
  assert (H2 : clock_from 1749400000002 two_sessions)
    by (cbn [clock_from two_sessions s_submit]; unfold Fixtures.tue_0610_1200; lia).
  assert (H3 : st_faults store_t1 = []) by reflexivity.
  assert (H4 : store_ok Fixtures.tz_br (bookings_of store_t1))
    by (unfold store_ok; vm_compute; split; [|split]; repeat constructor; simpl; intuition discriminate).
  assert (H5 : ids_before 1749400000002 (bookings_of store_t1))
    by (intros b [<-|[]]; exists 1749400000001; split; [lia | vm_compute; reflexivity]).
  repeat (split; [assumption|]).
  exact (sequential_sessions_store_ok _ _ _ _ H1 H2 H3 H4 H5).
Defined.

End FormSession.
