(* ===== verification/App.v ===== *)
(** * App: the screens, the store and the navigator together

    The screens act on two pieces of state at once: the AsyncStorage
    store ([Store.storage]) and the navigator ([Navigation.state]).  The
    registration replaces itself by the main tabs after [handleRegister]
    succeeds ([TeacherRegisterScreen.js]); the home screen, the list of
    bookings and the booking form replace themselves by the registration
    when [getCurrentTeacher] finds no teacher ([HomeScreen.js],
    [MyBookingsScreen.js], [BookingFormScreen.js]); the other handlers
    change the bookings only; the navigation calls that do not replace a
    route, the tab bar and the back button change the navigator only.
    [App.js] starts on the route [checkTeacher] chooses.  This file puts
    these moves in one step relation [app_step] and proves that, on a
    store without faults, the main tabs are only ever shown with a current
    teacher stored.  With one failed write the property fails
    ([Register.register_current_write_lost]). *)

From Stdlib Require Import ZArith Lia Bool String List Relations.
From S2P Require Import Prelude JsDate Model Fixtures DateUtils Store BookingForm Home MyBookings Register Navigation FormSession.
Import ListNotations.

Open Scope Z_scope.

Module App.
Import DateUtils Store BookingForm Register Navigation.

(** The state of the running app. *)
Record app := mkApp {
  store : storage;
  nav : Navigation.state
}.

(** [navigation.replace(name)] when [cond] holds. *)
Definition replace_if (cond : bool) (n : Navigation.state) (name : string) : Navigation.state :=
  if cond then match dispatch n (Replace name) with Some n' => n' | None => n end else n.

Definition is_replace (a : action) : bool :=
  match a with Replace _ => true | _ => false end.

Definition home_needs_register (r : HomeScreen.home_result + js_error) : bool :=
  match r with inl HomeScreen.NeedsRegister => true | _ => false end.

Definition list_needs_register (r : MyBookingsScreen.load_result + js_error) : bool :=
  match r with inl MyBookingsScreen.NeedsRegister => true | _ => false end.

Definition form_needs_register (r : option form + js_error) : bool :=
  match r with inl None => true | _ => false end.

Definition registered (r : option register_result + js_error) : bool :=
  match r with inl (Some Registered) => true | _ => false end.

(** [App.js]: the first route, from [checkTeacher] on the store. *)
Definition app_init (s : storage) : app :=
  match fst (checkTeacher s) with
  | inl r => mkApp (snd (checkTeacher s)) (initial_state r)
  | inr _ => mkApp (snd (checkTeacher s)) AtRegister
  end.

Section Steps.
(** Yup's e-mail test, the time zone and the home loop's fuel. *)
Variable is_email : string -> bool.
Variable tz : Z.
Variable fuel : nat.

(** One move of the app, at the clock reading [now] where a handler
    reads the clock. *)
Inductive app_step : app -> app -> Prop :=
  | app_call s n a n' :
      calls (focused n) a = true -> is_replace a = false -> dispatch n a = Some n' ->
      app_step (mkApp s n) (mkApp s n')
  | app_tab s m t : app_step (mkApp s (AtMain m)) (mkApp s (AtMain (tabPress m t)))
  | app_back s n n' : dispatch_up n GoBack = Some n' -> app_step (mkApp s n) (mkApp s n')
  | app_register now v s n :
      focused n = RegisterScreen ->
      app_step (mkApp s n)
        (mkApp (snd (submitRegister is_email now v s))
               (replace_if (registered (fst (submitRegister is_email now v s))) n "MainApp"))
  | app_home now s n :
      focused n = MainScreen Home ->
      app_step (mkApp s n)
        (mkApp (snd (HomeScreen.loadData tz now fuel s))
               (replace_if (home_needs_register (fst (HomeScreen.loadData tz now fuel s)))
                           n "TeacherRegister"))
  | app_list now s n :
      focused n = MainScreen MyBookings ->
      app_step (mkApp s n)
        (mkApp (snd (MyBookingsScreen.loadBookings tz now s))
               (replace_if (list_needs_register (fst (MyBookingsScreen.loadBookings tz now s)))
                           n "TeacherRegister"))
  | app_form_open bid s n t :
      focused n = FormScreen t ->
      app_step (mkApp s n)
        (mkApp (snd (loadData bid s))
               (replace_if (form_needs_register (fst (loadData bid s))) n "TeacherRegister"))
  | app_submit now f v s n t :
      focused n = FormScreen t -> app_step (mkApp s n) (mkApp (snd (submitForm tz now f v s)) n)
  | app_delete now f c s n t :
      focused n = FormScreen t -> app_step (mkApp s n) (mkApp (snd (handleDelete now f c s)) n)
  | app_cancel now b c s n :
      focused n = MainScreen MyBookings ->
      app_step (mkApp s n) (mkApp (snd (MyBookingsScreen.handleCancelBooking tz now b c s)) n).

Definition app_reachable (s0 : storage) (a : app) : Prop :=
  clos_refl_trans_1n app app_step (app_init s0) a.

End Steps.

(** What a bookings handler keeps of a store without faults. *)
Definition keeps_current (s s' : storage) : Prop :=
  st_faults s' = [] /\ st_current s' = st_current s.

(** Teacher 1 is stored and current; booking C1. *)
Definition store_t1 : storage :=
  mkStorage (Some [Fixtures.teacher1]) (Some [Fixtures.bookingC1]) (Some Fixtures.teacher1) [].

(** The main tabs are shown only with a current teacher, and no fault is
    pending. *)
Definition app_ok (a : app) : Prop :=
  st_faults (store a) = []
  /\ match nav a with AtMain _ => exists t, st_current (store a) = Some t | AtRegister => True end.

(** ** The store side: which handlers keep the current teacher *)

Lemma checkTeacher_nofault s :
  st_faults s = [] ->
  checkTeacher s = (inl (match st_current s with Some _ => MainApp | None => TeacherRegister end), s).
Proof. destruct s as [ts bs c fs]; simpl; intros ->. destruct c; reflexivity. Qed.

Lemma home_load_state tz now fuel s :
  st_faults s = [] -> snd (HomeScreen.loadData tz now fuel s) = s.
Proof.
  destruct s as [ts bs c fs]; simpl; intros ->. unfold HomeScreen.loadData. run_store.
  destruct c; reflexivity.
Qed.

Lemma list_load_state tz now s :
  st_faults s = [] -> snd (MyBookingsScreen.loadBookings tz now s) = s.
Proof.
  destruct s as [ts bs c fs]; simpl; intros ->. unfold MyBookingsScreen.loadBookings. run_store.
  destruct c; reflexivity.
Qed.

Lemma form_load_state bid s : st_faults s = [] -> snd (loadData bid s) = s.
Proof.
  intros Hf. destruct (FormSession.loadData_nofault bid s Hf) as (fo & E & _). now rewrite E.
Qed.

Lemma keeps_current_with s l : st_faults s = [] -> keeps_current s (with_bookings s l).
Proof. intros Hf. split; [exact Hf | reflexivity]. Qed.

Lemma keeps_current_refl s : st_faults s = [] -> keeps_current s s.
Proof. intros Hf. split; [exact Hf | reflexivity]. Qed.

Lemma submitForm_current tz now f v s :
  st_faults s = [] -> keeps_current s (snd (submitForm tz now f v s)).
Proof.
  intros Hf. rewrite FormSession.submitForm_state. destruct (BookingForm.validationSchema v);
    [|now apply keeps_current_refl].
  rewrite (handleSubmit_eqn tz now f v s Hf).
  destruct (checkBookingConflicts tz now f v); [now apply keeps_current_refl|].
  now apply keeps_current_with.
Qed.

Lemma handleDelete_current now f c s :
  st_faults s = [] -> keeps_current s (snd (handleDelete now f c s)).
Proof.
  intros Hf. unfold handleDelete.
  destruct (editing f) as [b|]; [|now apply keeps_current_refl].
  destruct (negb (js_truthy _)); [now apply keeps_current_refl|].
  destruct (negb (canCancelBooking _ _)); [now apply keeps_current_refl|].
  destruct c; [|now apply keeps_current_refl].
  unfold catch, bind. rewrite (deleteBooking_eqn _ s Hf). now apply keeps_current_with.
Qed.

Lemma handleCancelBooking_current tz now b c s :
  st_faults s = [] -> keeps_current s (snd (MyBookingsScreen.handleCancelBooking tz now b c s)).
Proof.
  intros Hf. unfold MyBookingsScreen.handleCancelBooking.
  destruct (negb (canCancelBooking _ _)); [now apply keeps_current_refl|].
  destruct (negb c); [now apply keeps_current_refl|].
  unfold catch, bind. rewrite (deleteBooking_eqn _ s Hf). cbv beta.
  pose proof (list_load_state tz now (with_bookings s
                (filter (fun x => negb (String.eqb (Booking.id x) (Booking.id b))) (bookings_of s))) Hf)
    as E.
  destruct (MyBookingsScreen.loadBookings _ _ _) as [[] s1]; cbn in E |- *; subst s1;
    now apply keeps_current_with.
Qed.

(** Without faults a registration the schema accepts succeeds and stores
    a current teacher; one it refuses leaves the store as it was. *)
Lemma submitRegister_nofault is_email now v s :
  st_faults s = [] ->
  (registered (fst (submitRegister is_email now v s)) = true
   /\ st_faults (snd (submitRegister is_email now v s)) = []
   /\ exists t, st_current (snd (submitRegister is_email now v s)) = Some t)
  \/ (registered (fst (submitRegister is_email now v s)) = false
      /\ snd (submitRegister is_email now v s) = s).
Proof.
  intros Hf. unfold submitRegister. destruct (Register.validationSchema is_email v); [|right; split; reflexivity].
  left. destruct (handleRegister_ok now v s [] (or_introl (conj Hf eq_refl))) as (t & l & E & _).
  unfold bind. rewrite E. split; [reflexivity | split; [reflexivity | exists t; reflexivity]].
Qed.

(** ** The navigator side *)

Lemma dispatch_replace_register n :
  dispatch n (Replace "TeacherRegister") = Some AtRegister.
Proof. destruct n as [|[[] h c b]]; reflexivity. Qed.

Lemma dispatch_replace_main n :
  dispatch n (Replace "MainApp") = Some (AtMain initial_tabs).
Proof. destruct n as [|[[] h c b]]; reflexivity. Qed.

Lemma replace_if_register c n :
  replace_if c n "TeacherRegister" = if c then AtRegister else n.
Proof. unfold replace_if. now rewrite dispatch_replace_register. Qed.

Lemma replace_if_main c n :
  replace_if c n "MainApp" = if c then AtMain initial_tabs else n.
Proof. unfold replace_if. now rewrite dispatch_replace_main. Qed.

Lemma root_action_nonreplace a : is_replace a = false -> root_action a = None.
Proof. destruct a; simpl; congruence. Qed.

Lemma dispatch_up_nonreplace n a n' :
  is_replace a = false -> dispatch_up n a = Some n' ->
  match n with AtMain _ => exists m', n' = AtMain m' | AtRegister => False end.
Proof.
  intros Ha. destruct n as [|m]; simpl; [rewrite (root_action_nonreplace a Ha); discriminate|].
  destruct (stack_action _ a _); [intros H; injection H as <-; eauto|].
  destruct (tab_action m a); [intros H; injection H as <-; eauto|].
  rewrite (root_action_nonreplace a Ha). discriminate.
Qed.

Lemma dispatch_nonreplace n a n' :
  is_replace a = false -> dispatch n a = Some n' ->
  match n with AtMain _ => exists m', n' = AtMain m' | AtRegister => False end.
Proof.
  intros Ha. unfold dispatch. destruct (dispatch_up n a) as [x|] eqn:E.
  - intros H; injection H as <-. exact (dispatch_up_nonreplace n a x Ha E).
  - destruct n as [|m]; [discriminate|]. unfold dispatch_children.
    destruct (find _ _) as [t|]; [|discriminate].
    destruct (stack_action _ a _); [|discriminate].
    intros H; injection H as <-. destruct a; eauto.
Qed.

Lemma focused_register n : focused n = RegisterScreen -> n = AtRegister.
Proof. destruct n as [|m]; [reflexivity|]. simpl. destruct (String.eqb _ _); discriminate. Qed.

(** ** The invariant *)

Lemma app_ok_keep s s' n :
  app_ok (mkApp s n) -> keeps_current s s' -> app_ok (mkApp s' n).
Proof.
  intros [Hf Hn] [Hf' Hc]. split; [exact Hf'|]. simpl in *. rewrite Hc. exact Hn.
Qed.

Lemma app_ok_register s : st_faults s = [] -> app_ok (mkApp s AtRegister).
Proof. intros Hf. split; [exact Hf | exact I]. Qed.

Lemma app_ok_init s0 : st_faults s0 = [] -> app_ok (app_init s0).
Proof.
  intros Hf. unfold app_init. rewrite (checkTeacher_nofault s0 Hf). cbn [fst snd].
  split; [exact Hf|]. destruct (st_current s0) as [t|] eqn:E; [exists t; exact E | exact I].
Qed.

Lemma app_ok_load s n (c : bool) :
  app_ok (mkApp s n) -> app_ok (mkApp s (if c then AtRegister else n)).
Proof. intros H. destruct c; [exact (app_ok_register s (proj1 H)) | exact H]. Qed.

Lemma app_step_ok is_email tz fuel a a' :
  app_step is_email tz fuel a a' -> app_ok a -> app_ok a'.
Proof.
  intros Hs Hok. destruct Hs as
    [s n a n' _ Ha Hd | s m t | s n n' Hd | now v s n Hn | now s n _ | now s n _ | bid s n t _
    | now f v s n t _ | now f c s n t _ | now b c s n _];
    pose proof (proj1 Hok) as Hf.
  - pose proof (dispatch_nonreplace n a n' Ha Hd) as H. destruct n; [contradiction|].
    destruct H as [m' ->]. exact Hok.
  - exact Hok.
  - pose proof (dispatch_up_nonreplace n GoBack n' eq_refl Hd) as H. destruct n; [contradiction|].
    destruct H as [m' ->]. exact Hok.
  - apply focused_register in Hn. subst n. rewrite replace_if_main.
    destruct (submitRegister_nofault is_email now v s Hf) as [(-> & Hf' & t & Ht)|(-> & ->)].
    + split; [exact Hf' | exists t; exact Ht].
    + exact Hok.
  - rewrite replace_if_register, (home_load_state tz now fuel s Hf). now apply app_ok_load.
  - rewrite replace_if_register, (list_load_state tz now s Hf). now apply app_ok_load.
  - rewrite replace_if_register, (form_load_state bid s Hf). now apply app_ok_load.
  - exact (app_ok_keep _ _ _ Hok (submitForm_current tz now f v s Hf)).
  - exact (app_ok_keep _ _ _ Hok (handleDelete_current now f c s Hf)).
  - exact (app_ok_keep _ _ _ Hok (handleCancelBooking_current tz now b c s Hf)).
Qed.

Lemma app_reachable_ok is_email tz fuel x z :
  clos_refl_trans_1n app (app_step is_email tz fuel) x z -> app_ok x -> app_ok z.
Proof.
  induction 1 as [|x y z Hxy _ IH]; intros H; [exact H|].
  exact (IH (app_step_ok is_email tz fuel x y Hxy H)).
Qed.

(** [C26] Whatever the screens do (registration, the loads of the home
    screen, the list and the form with their [replace('TeacherRegister')],
    submissions, cancellations, navigation calls, the tab bar and the back
    button), on a store that starts without faults the main tabs are only
    shown while a current teacher is stored: the app never reaches the
    main tabs without a teacher. *)
Theorem main_tabs_have_teacher is_email tz fuel s0 a :
  st_faults s0 = [] -> app_reachable is_email tz fuel s0 a ->
  match nav a with AtMain _ => exists t, st_current (store a) = Some t | AtRegister => True end.
Proof.
  intros Hf Hr. exact (proj2 (app_reachable_ok is_email tz fuel _ a Hr (app_ok_init s0 Hf))).
Qed.

Lemma main_tabs_have_teacher_witness :
  let a := mkApp store_t1 (AtMain (tabPress initial_tabs Calendar)) in
  st_faults store_t1 = []
  /\ app_reachable has_at Fixtures.tz_br 10 store_t1 a
  /\ match nav a with AtMain _ => exists t, st_current (store a) = Some t | AtRegister => True end.
Proof.
  intros a. assert (H1 : st_faults store_t1 = []) by reflexivity.
  assert (H2 : app_reachable has_at Fixtures.tz_br 10 store_t1 a).
  { unfold app_reachable. change (app_init store_t1) with (mkApp store_t1 (AtMain initial_tabs)).
    econstructor; [apply app_tab | apply rt1n_refl]. }
  split; [exact H1|]. split; [exact H2|].
  exact (main_tabs_have_teacher has_at Fixtures.tz_br 10 store_t1 a H1 H2).
Defined.

End App.
