(* ===== verification/Scenarios.v ===== *)
(** * Scenarios: what the booking form lets through

    A user action on the booking screen is: open the form ([loadData],
    which reads the current teacher, the snapshot of all bookings and, to
    edit, the booking by id) and later submit it ([handleSubmit]).  The
    screen lives in a stack of each of the three tabs (Home, Calendar,
    MyBookings, see [src/navigation/AppNavigator.js]), so two forms can be
    open at once.  This file proves, for every store and every input that
    meets the stated conditions, five behaviours the specification rules
    out; each witness runs one of them on concrete June 2025 data:
    - two forms opened on the same store and submitted for the same slot
      are both accepted and leave two bookings of that slot, where a form
      opened after the first submission refuses the second;
    - the weekly quota ignores every booking outside the current week, so
      a teacher who already holds any number of days of next week books one
      more;
    - an edit is stored whatever its date: [handleSubmit] has no window
      check;
    - a number of students the schema accepts that begins with "0." is
      stored as 0, one that begins with "." as [null], after which the
      edit form cannot be built;
    - the form opened by the calendar's "Detalhes" (with the booking's id)
      acts on another teacher's booking: it cancels it, or, saved as it
      opens, replaces it by a booking of the current teacher. *)

From Stdlib Require Import ZArith Lia Bool Ascii String List.
From S2P Require Import Prelude JsDate JsNumber Model Fixtures DateUtils Store BookingForm Calendar.
Import ListNotations.

Open Scope Z_scope.
Open Scope agenda_scope.

Module Scenarios.
Import JsDate JsNumber DateUtils Store BookingForm.

(** A store with [teacher] as the current teacher and the bookings [l]. *)
Definition session (teacher : Teacher.teacher) (l : list Booking.booking) : storage :=
  mkStorage (Some [teacher]) (Some l) (Some teacher) [].

(** Open the form (to edit [bookingId] if given). *)
Definition open_form (bookingId : option string) : M (option form) := loadData bookingId.

(** Submit an open form. *)
Definition submit (tz now : Z) (fo : option form) (v : values) : M (option submit_outcome) :=
  match fo with
  | None => ret None
  | Some f => r <- handleSubmit tz now f v ;; ret (Some r)
  end.

(** Open a new form and submit it at once. *)
Definition book (tz now : Z) (v : values) : M (option submit_outcome) :=
  fo <- open_form None ;; submit tz now fo v.

(** Two new forms opened one after the other (in two tabs), then
    submitted in the order they were opened. *)
Definition two_open_forms (tz now1 now2 : Z) (v1 v2 : values)
  : M (option submit_outcome * option submit_outcome) :=
  f1 <- open_form None ;;
  f2 <- open_form None ;;
  r1 <- submit tz now1 f1 v1 ;;
  r2 <- submit tz now2 f2 v2 ;;
  ret (r1, r2).

Definition values_at (d : Z) (st et : string) : values :=
  mkValues "2o Ano A" "Experimento" "10" d st et.

(** Teacher 2 is the current teacher; teacher 1 holds 2025-06-11 08:00
    (booking C2). *)
Definition store_t2 : storage :=
  mkStorage (Some [Fixtures.teacher1; Fixtures.teacher2]) (Some [Fixtures.bookingC2])
            (Some Fixtures.teacher2) [].

(** ** Shared lemmas *)

Lemma slot_key_stored tz f v i c :
  slot_key tz (stored_record f v i c) = (local_day tz (date v), startTime v).
Proof. reflexivity. Qed.

(** Two records of one slot break the invariant. *)
Lemma store_ok_two_in_slot tz l x y :
  slot_key tz x = slot_key tz y -> ~ store_ok tz (l ++ [x; y]).
Proof.
  intros E (_ & _ & Hnd). rewrite map_app in Hnd. apply NoDup_app_remove_l in Hnd.
  cbn in Hnd. rewrite E in Hnd. inversion Hnd as [|? ? Hin]. apply Hin. now left.
Qed.

(** A free slot is accepted for an edit: edits skip the quota. *)
Lemma edit_no_conflict tz now f v e :
  editing f = Some e ->
  (forall b, In b (bookingsToCheck f) -> slot_key tz b <> (local_day tz (date v), startTime v)) ->
  checkBookingConflicts tz now f v = None.
Proof.
  intros He Hfree. rewrite checkBookingConflicts_cases.
  unfold isEditMode. rewrite He. cbn [negb andb].
  replace (isTimeSlotAvailable _ _ _ _) with true; [reflexivity|]. symmetry.
  apply isTimeSlotAvailable_spec. intros b Hb Hd Hs.
  apply (Hfree b Hb). unfold slot_key. now rewrite Hd, Hs.
Qed.

(** A new booking on a free slot is accepted when none of the teacher's
    bookings lies in the current week, however many there are. *)
Lemma new_no_conflict tz now t l v :
  (forall b, In b l -> Booking.teacherId b = Teacher.id t ->
     in_current_week tz now (Booking.date b) = false) ->
  (forall b, In b l -> slot_key tz b <> (local_day tz (date v), startTime v)) ->
  checkBookingConflicts tz now (mkForm t l None) v = None.
Proof.
  intros Hweek Hfree. rewrite checkBookingConflicts_cases, countTeacherBookings_filter.
  cbn [isEditMode editing bookingsToCheck allBookings teacher negb andb].
  rewrite (filter_ext_in _ (fun _ => false)), filter_false by
    (intros b Hb; destruct (String.eqb _ _) eqn:E; [|reflexivity];
     apply String.eqb_eq in E; now rewrite (Hweek b Hb E)).
  cbn. replace (isTimeSlotAvailable _ _ _ _) with true; [reflexivity|]. symmetry.
  apply isTimeSlotAvailable_spec. intros b Hb Hd Hs.
  apply (Hfree b Hb). unfold slot_key. now rewrite Hd, Hs.
Qed.

(** The update branch puts the form's record where the edited one was. *)
Lemma update_bookings_In f v e l :
  editing f = Some e -> In e l ->
  In (stored_record f v (Booking.id e) (Booking.createdAt e))
     (update_bookings (Booking.id e) (bookingData f v) l).
Proof.
  intros He Hin. unfold update_bookings. apply in_map_iff. exists e. split; [|exact Hin].
  rewrite String.eqb_refl. exact (merge_booking_stored f v e e He).
Qed.

(** [C13] Two forms opened on the same store, with no storage fault and
    a current teacher, and submitted for one slot (same local day, same
    start time), each accepted by the check against that store, are both
    saved: the store ends with the two records of that slot, which breaks
    the invariant [store_ok], while a form opened after the first
    submission would have refused the second.  The conflict check reads
    the snapshot of the form, not the store. *)
Theorem stale_snapshot_double_booking tz now1 now2 s t v1 v2 :
  st_faults s = [] -> st_current s = Some t ->
  checkBookingConflicts tz now1 (mkForm t (bookings_of s) None) v1 = None ->
  checkBookingConflicts tz now2 (mkForm t (bookings_of s) None) v2 = None ->
  local_day tz (date v1) = local_day tz (date v2) -> startTime v1 = startTime v2 ->
  let f := mkForm t (bookings_of s) None in
  let '(r, s') := two_open_forms tz now1 now2 v1 v2 s in
  r = inl (Some Submitted, Some Submitted)
  /\ bookings_of s' = (bookings_of s ++ [stored_record f v1 (number_to_string now1) now1;
                                         stored_record f v2 (number_to_string now2) now2])%list
  /\ ~ store_ok tz (bookings_of s')
  /\ checkBookingConflicts tz now2
       (mkForm t (bookings_of s ++ [stored_record f v1 (number_to_string now1) now1])%list None)
       v2 <> None.
Proof.
  intros Hf Hc H1 H2 Hd Hs. cbv zeta.
  unfold two_open_forms, open_form, submit. cbv [bind ret].
  rewrite !(loadData_new s t Hf Hc). cbv beta iota.
  rewrite (handleSubmit_eqn tz now1 _ v1 s Hf), H1. cbv beta iota.
  rewrite (handleSubmit_eqn tz now2 _ v2 (with_bookings s _) Hf), H2. cbn [editing].
  rewrite !bookings_of_with, <- app_assoc, !new_booking_stored. cbn [app].
  split; [reflexivity|]. split; [reflexivity|]. split.
  - apply store_ok_two_in_slot. rewrite !slot_key_stored. now rewrite Hd, Hs.
  - rewrite checkBookingConflicts_cases. destruct (_ && _); [discriminate|].
    destruct (isTimeSlotAvailable _ _ _ _) eqn:Hav; [exfalso|discriminate].
    pose proof (proj1 (isTimeSlotAvailable_spec _ _ _ _) Hav) as Hfree.
    cbn [bookingsToCheck editing allBookings] in Hfree.
    eapply Hfree; [apply in_or_app; right; now left | exact Hd | exact Hs].
Qed.

(** The run of two forms on an empty store, both for 2025-06-10 08:00. *)
Lemma stale_snapshot_double_booking_witness :
  st_faults (session Fixtures.teacher1 []) = []
  /\ st_current (session Fixtures.teacher1 []) = Some Fixtures.teacher1
  /\ let f := mkForm Fixtures.teacher1 (bookings_of (session Fixtures.teacher1 [])) None in
     let v := values_at Fixtures.tue_0610_0800 "08:00" "08:50" in
     let '(r, s') := two_open_forms Fixtures.tz_br Fixtures.tue_0610_1200
                       (Fixtures.tue_0610_1200 + 60000) v v (session Fixtures.teacher1 []) in
     r = inl (Some Submitted, Some Submitted)
     /\ bookings_of s' = (bookings_of (session Fixtures.teacher1 [])
                          ++ [stored_record f v (number_to_string Fixtures.tue_0610_1200)
                                Fixtures.tue_0610_1200;
                              stored_record f v (number_to_string (Fixtures.tue_0610_1200 + 60000))
                                (Fixtures.tue_0610_1200 + 60000)])%list
     /\ ~ store_ok Fixtures.tz_br (bookings_of s')
     /\ checkBookingConflicts Fixtures.tz_br (Fixtures.tue_0610_1200 + 60000)
          (mkForm Fixtures.teacher1 (bookings_of (session Fixtures.teacher1 [])
             ++ [stored_record f v (number_to_string Fixtures.tue_0610_1200)
                   Fixtures.tue_0610_1200])%list None) v <> None.
Proof.
  assert (Hf : st_faults (session Fixtures.teacher1 []) = []) by reflexivity.
  assert (Hc : st_current (session Fixtures.teacher1 []) = Some Fixtures.teacher1) by reflexivity.
  split; [exact Hf|]. split; [exact Hc|].
  exact (stale_snapshot_double_booking Fixtures.tz_br Fixtures.tue_0610_1200
           (Fixtures.tue_0610_1200 + 60000) _ _ _ _ Hf Hc
           ltac:(vm_compute; reflexivity) ltac:(vm_compute; reflexivity) eq_refl eq_refl).
Defined.

(** [C15] The quota counts the bookings of the current week only: on a
    store without faults, a new booking on a free slot is accepted and
    appended whenever none of the teacher's bookings lies in the current
    Sunday-to-Saturday week, whatever their number; in particular a
    teacher books every day of next week while it is still next week. *)
Theorem quota_bypass_next_week tz now s t v :
  st_faults s = [] -> st_current s = Some t ->
  (forall b, In b (bookings_of s) -> Booking.teacherId b = Teacher.id t ->
     in_current_week tz now (Booking.date b) = false) ->
  (forall b, In b (bookings_of s) -> slot_key tz b <> (local_day tz (date v), startTime v)) ->
  book tz now v s
  = (inl (Some Submitted),
     with_bookings s (bookings_of s ++ [stored_record (mkForm t (bookings_of s) None) v
                                           (number_to_string now) now])%list).
Proof.
  intros Hf Hc Hweek Hfree. unfold book, open_form, submit. cbv [bind ret].
  rewrite (loadData_new s t Hf Hc). cbv beta iota.
  rewrite (handleSubmit_eqn tz now _ v s Hf), (new_no_conflict tz now t _ v Hweek Hfree).
  reflexivity.
Qed.

(** On Saturday 2025-06-07, teacher 1 holds Sunday 06-08 and Monday
    06-09 and books Tuesday 06-10; the next day the weekly count of that
    teacher is three. *)
Lemma quota_bypass_next_week_witness :
  let s := session Fixtures.teacher1
             [Fixtures.booking_at "1749300000000" Fixtures.teacher1 Fixtures.sun_0608_0800
                "07:10" "08:00"; Fixtures.bookingC1] in
  let v := values_at Fixtures.tue_0610_0800 "07:10" "08:00" in
  (st_faults s = [] /\ st_current s = Some Fixtures.teacher1
   /\ (forall b, In b (bookings_of s) -> Booking.teacherId b = Teacher.id Fixtures.teacher1 ->
          in_current_week Fixtures.tz_br Fixtures.sat_0607_1200 (Booking.date b) = false)
   /\ (forall b, In b (bookings_of s) ->
          slot_key Fixtures.tz_br b <> (local_day Fixtures.tz_br (date v), startTime v))
   /\ book Fixtures.tz_br Fixtures.sat_0607_1200 v s
      = (inl (Some Submitted),
         with_bookings s (bookings_of s ++ [stored_record (mkForm Fixtures.teacher1 (bookings_of s) None) v
                                               (number_to_string Fixtures.sat_0607_1200)
                                               Fixtures.sat_0607_1200])%list))
  /\ countTeacherBookingsInCurrentWeek Fixtures.tz_br Fixtures.sun_0608_0800
       (Teacher.id Fixtures.teacher1) (bookings_of (snd (book Fixtures.tz_br Fixtures.sat_0607_1200 v s)))
     = 3%nat.
Proof.
  cbv zeta.
  assert (H1 : forall b, In b (bookings_of (session Fixtures.teacher1
                 [Fixtures.booking_at "1749300000000" Fixtures.teacher1 Fixtures.sun_0608_0800
                    "07:10" "08:00"; Fixtures.bookingC1])) ->
                 Booking.teacherId b = Teacher.id Fixtures.teacher1 ->
                 in_current_week Fixtures.tz_br Fixtures.sat_0607_1200 (Booking.date b) = false)
    by (intros b [<-|[<-|[]]] _; vm_compute; reflexivity).
  assert (H2 : forall b, In b (bookings_of (session Fixtures.teacher1
                 [Fixtures.booking_at "1749300000000" Fixtures.teacher1 Fixtures.sun_0608_0800
                    "07:10" "08:00"; Fixtures.bookingC1])) ->
                 slot_key Fixtures.tz_br b
                 <> (local_day Fixtures.tz_br (date (values_at Fixtures.tue_0610_0800 "07:10" "08:00")),
                     startTime (values_at Fixtures.tue_0610_0800 "07:10" "08:00")))
    by (intros b [<-|[<-|[]]]; vm_compute; discriminate).
  split; [|vm_compute; reflexivity].
  split; [reflexivity|]. split; [reflexivity|]. split; [exact H1|]. split; [exact H2|].
  apply (quota_bypass_next_week Fixtures.tz_br Fixtures.sat_0607_1200 _ Fixtures.teacher1 _);
    [reflexivity | reflexivity | exact H1 | exact H2].
Defined.

(** [C16] [handleSubmit] applies no window check to an edit: on a store
    without faults, the edit of a stored booking (with a truthy id) to a
    slot no other booking of the snapshot occupies is accepted and
    stored, whatever its date, in particular a past date or one more than
    a week ahead, which the specification refuses as out of the window. *)
Theorem edit_keeps_out_of_window_date tz now f v s e :
  st_faults s = [] -> editing f = Some e -> js_truthy (Booking.id e) = true ->
  In e (bookings_of s) ->
  (forall b, In b (bookingsToCheck f) -> slot_key tz b <> (local_day tz (date v), startTime v)) ->
  let '(r, s') := handleSubmit tz now f v s in
  r = inl Submitted
  /\ In (stored_record f v (Booking.id e) (Booking.createdAt e)) (bookings_of s').
Proof.
  intros Hf He Ht Hin Hfree.
  rewrite (handleSubmit_eqn tz now f v s Hf), (edit_no_conflict tz now f v e He Hfree), He, Ht.
  rewrite bookings_of_with. split; [reflexivity|]. exact (update_bookings_In f v e _ He Hin).
Qed.

(** Ten days after the booking of 2025-06-09, its edit to 13:00 of the
    same day, out of the window for the specification. *)
Lemma edit_keeps_out_of_window_date_witness :
  validate Fixtures.tz_br (Fixtures.tue_0610_1200 + 10 * 24 * Fixtures.ms_hour)
    (Teacher.id Fixtures.teacher1) [Fixtures.bookingC1; Fixtures.bookingC2]
    (Some (Booking.id Fixtures.bookingC1)) Fixtures.mon_0609_0800 "13:00" = OutOfWindow
  /\ (forall b, In b (bookingsToCheck formC_edit) ->
         slot_key Fixtures.tz_br b <> (local_day Fixtures.tz_br (date valuesC_edit), startTime valuesC_edit))
  /\ let '(r, s') := handleSubmit Fixtures.tz_br (Fixtures.tue_0610_1200 + 10 * 24 * Fixtures.ms_hour)
                       formC_edit valuesC_edit
                       (session Fixtures.teacher1 [Fixtures.bookingC1; Fixtures.bookingC2]) in
     r = inl Submitted
     /\ In (stored_record formC_edit valuesC_edit (Booking.id Fixtures.bookingC1)
                          (Booking.createdAt Fixtures.bookingC1)) (bookings_of s').
Proof.
  assert (H : forall b, In b (bookingsToCheck formC_edit) ->
                slot_key Fixtures.tz_br b
                <> (local_day Fixtures.tz_br (date valuesC_edit), startTime valuesC_edit))
    by (intros b [<-|[]]; vm_compute; discriminate).
  split; [vm_compute; reflexivity|]. split; [exact H|].
  apply (edit_keeps_out_of_window_date _ _ formC_edit valuesC_edit _ Fixtures.bookingC1);
    [reflexivity | reflexivity | reflexivity | left; reflexivity | exact H].
Defined.

(** [C19] The schema reads the number of students with [Number()] and the
    booking stores [parseInt] of the same text.  A new booking on values
    the schema accepts, submitted through Formik on a store without
    faults and without conflict, is saved as a record with the clock
    reading as id whose number of students is 0 when the text begins with
    "0." (the schema saw at least 1), and [null] when it begins with ".",
    after which the edit form of that record cannot be built.  The
    specification asks for an integer in [1, 20]. *)
Theorem numStudents_schema_vs_parseInt tz now f v s r :
  st_faults s = [] -> editing f = None -> checkBookingConflicts tz now f v = None ->
  validationSchema v = true ->
  let '(res, s') := submitForm tz now f v s in
  res = inl (Some Submitted)
  /\ exists b, In b (bookings_of s') /\ Booking.id b = number_to_string now
      /\ (numStudents v = ("0." ++ r)%string -> Booking.numStudents b = Some 0)
      /\ (numStudents v = ("." ++ r)%string ->
          Booking.numStudents b = None
          /\ forall now' p, initialValues now' (mkForm (teacher f) (bookings_of s') (Some b)) p = None).
Proof.
  intros Hf He Hc Hv. unfold submitForm. rewrite Hv. cbv [bind ret].
  rewrite (handleSubmit_eqn tz now f v s Hf), Hc, He. cbv beta iota.
  split; [reflexivity|]. exists (new_booking now (bookingData f v)).
  rewrite bookings_of_with. split; [apply in_or_app; right; now left|].
  split; [reflexivity|]. rewrite new_booking_stored. unfold stored_record, initialValues.
  cbn [Booking.numStudents editing]. split; intros E; rewrite E; [reflexivity|].
  split; destruct r; reflexivity.
Qed.

(** "0.5e1" and ".5e1", both read as 5 by the schema. *)
Lemma numStudents_schema_vs_parseInt_witness :
  (let v := mkValues "2o Ano A" "Experimento" "0.5e1" Fixtures.wed_0611_0800 "08:00" "08:50" in
   st_faults (session Fixtures.teacher1 []) = [] /\ editing (mkForm Fixtures.teacher1 [] None) = None
   /\ checkBookingConflicts Fixtures.tz_br Fixtures.tue_0610_1200 (mkForm Fixtures.teacher1 [] None) v = None
   /\ validationSchema v = true
   /\ let '(res, s') := submitForm Fixtures.tz_br Fixtures.tue_0610_1200 (mkForm Fixtures.teacher1 [] None) v
                          (session Fixtures.teacher1 []) in
      res = inl (Some Submitted)
      /\ exists b, In b (bookings_of s') /\ Booking.id b = number_to_string Fixtures.tue_0610_1200
          /\ (numStudents v = ("0." ++ "5e1")%string -> Booking.numStudents b = Some 0)
          /\ (numStudents v = ("." ++ "5e1")%string ->
              Booking.numStudents b = None
              /\ forall now' p, initialValues now' (mkForm Fixtures.teacher1 (bookings_of s') (Some b)) p
                                 = None))
  /\ validationSchema (mkValues "2o Ano A" "Experimento" ".5e1" Fixtures.wed_0611_0800 "08:00" "08:50")
     = true.
Proof.
  cbv zeta. split; [|vm_compute; reflexivity].
  assert (Hv : validationSchema
                 (mkValues "2o Ano A" "Experimento" "0.5e1" Fixtures.wed_0611_0800 "08:00" "08:50") = true)
    by (vm_compute; reflexivity).
  assert (Hc : checkBookingConflicts Fixtures.tz_br Fixtures.tue_0610_1200 (mkForm Fixtures.teacher1 [] None)
                 (mkValues "2o Ano A" "Experimento" "0.5e1" Fixtures.wed_0611_0800 "08:00" "08:50") = None)
    by (vm_compute; reflexivity).
  split; [reflexivity|]. split; [reflexivity|]. split; [exact Hc|]. split; [exact Hv|].
  exact (numStudents_schema_vs_parseInt _ _ (mkForm Fixtures.teacher1 [] None) _
           (session Fixtures.teacher1 []) "5e1" eq_refl eq_refl Hc Hv).
Defined.

(** [C14] The form the calendar's "Detalhes" opens, with the id of the
    booking of that period (see [CalendarScreen.render_slots]), acts on a
    booking of another teacher.  On a store without faults that keeps the
    invariant, for every stored booking [b] not held by the current
    teacher [t]: the form opens in edit mode on [b]; confirmed at least 24
    hours ahead, [handleDelete] removes [b]; saved with the values it opens
    with, it replaces [b] by the record of [t] (edits skip the quota, and
    no other booking has [b]'s slot).  The specification lets a teacher
    view and cancel their own bookings. *)
Theorem details_acts_on_other_teachers_booking tz now s t b params :
  st_faults s = [] -> st_current s = Some t -> store_ok tz (bookings_of s) ->
  In b (bookings_of s) -> Booking.teacherId b <> Teacher.id t ->
  let f := mkForm t (bookings_of s) (Some b) in
  loadData (Some (Booking.id b)) s = (inl (Some f), s)
  /\ (24 * msPerHour <= Booking.date b - now ->
      handleDelete now f true s
      = (inl Cancelled,
         with_bookings s (filter (fun x => negb (String.eqb (Booking.id x) (Booking.id b)))
                                 (bookings_of s))))
  /\ (forall v, initialValues now f params = Some v ->
      let '(r, s') := handleSubmit tz now f v s in
      r = inl Submitted
      /\ In (stored_record f v (Booking.id b) (Booking.createdAt b)) (bookings_of s')
      /\ ~ In b (bookings_of s')).
Proof.
  intros Hf Hc Hok Hb Hother. cbv zeta.
  set (f := mkForm t (bookings_of s) (Some b)).
  destruct Hok as (Hids & Htr & Hkeys).
  assert (Ht : js_truthy (Booking.id b) = true) by exact (proj1 (Forall_forall _ _) Htr b Hb).
  split; [exact (loadData_edit s t b Hf Hc Ht Hids Hb)|].
  split; [intros Hge; exact (handleDelete_confirmed now f b s eq_refl Ht Hf Hge)|].
  intros v Hv.
  assert (Hk : (local_day tz (date v), startTime v) = slot_key tz b).
  { unfold initialValues in Hv. cbn [editing f] in Hv.
    destruct (Booking.numStudents b); [|discriminate]. now injection Hv as <-. }
  assert (Hcc : checkBookingConflicts tz now f v = None).
  { apply (edit_no_conflict tz now f v b eq_refl). intros b' Hb' Hk'.
    apply bookingsToCheck_In in Hb' as [Hb' Hne]. apply Hne.
    rewrite Hk in Hk'. now rewrite (NoDup_map_in_eq (slot_key tz) _ b' b Hkeys Hb' Hb Hk'). }
  rewrite (handleSubmit_eqn tz now f v s Hf), Hcc. cbn [editing f]. rewrite Ht, bookings_of_with.
  split; [reflexivity|]. split; [exact (update_bookings_In f v b _ eq_refl Hb)|].
  unfold update_bookings. intros Hin. apply in_map_iff in Hin as [x [Ex Hx]].
  destruct (String.eqb (Booking.id x) (Booking.id b)) eqn:E.
  - rewrite (merge_booking_stored f v x b eq_refl) in Ex. apply Hother. now rewrite <- Ex.
  - subst x. now rewrite String.eqb_refl in E.
Qed.

(** Teacher 2, current, opens teacher 1's booking of 2025-06-11 08:00 on
    2025-06-09 12:00. *)
Lemma details_acts_on_other_teachers_booking_witness :
  store_ok Fixtures.tz_br (bookings_of store_t2)
  /\ Booking.teacherId Fixtures.bookingC2 <> Teacher.id Fixtures.teacher2
  /\ let f := mkForm Fixtures.teacher2 (bookings_of store_t2) (Some Fixtures.bookingC2) in
     loadData (Some (Booking.id Fixtures.bookingC2)) store_t2 = (inl (Some f), store_t2)
     /\ (24 * msPerHour <= Booking.date Fixtures.bookingC2 - Fixtures.mon_0609_1200 ->
         handleDelete Fixtures.mon_0609_1200 f true store_t2
         = (inl Cancelled,
            with_bookings store_t2
              (filter (fun x => negb (String.eqb (Booking.id x) (Booking.id Fixtures.bookingC2)))
                      (bookings_of store_t2))))
     /\ (forall v, initialValues Fixtures.mon_0609_1200 f (mkParams None None None None) = Some v ->
         let '(r, s') := handleSubmit Fixtures.tz_br Fixtures.mon_0609_1200 f v store_t2 in
         r = inl Submitted
         /\ In (stored_record f v (Booking.id Fixtures.bookingC2) (Booking.createdAt Fixtures.bookingC2))
               (bookings_of s')
         /\ ~ In Fixtures.bookingC2 (bookings_of s')).
Proof.
  assert (Hok : store_ok Fixtures.tz_br (bookings_of store_t2)).
  { unfold store_ok. vm_compute. split; [|split]; repeat constructor; simpl; intuition discriminate. }
  assert (Ho : Booking.teacherId Fixtures.bookingC2 <> Teacher.id Fixtures.teacher2) by discriminate.
  split; [exact Hok|]. split; [exact Ho|].
  exact (details_acts_on_other_teachers_booking Fixtures.tz_br Fixtures.mon_0609_1200 store_t2
           Fixtures.teacher2 Fixtures.bookingC2 (mkParams None None None None)
           eq_refl eq_refl Hok (or_introl eq_refl) Ho).
Defined.

End Scenarios.
